(** * CareerPath-AI: the deterministic ATS scoring engine

    A shallow embedding of [utils/ats_scorer.py] (class [ATSScorer]) and
    the properties of its scores.

    Modelling conventions.
    - A Python [str] is a [text]: a list of characters.  The model covers
      ASCII text: case conversion and the classes [\w], [\s], [\d] are the
      ASCII ones, and a character above 127 is neither a word character
      nor white space and has no case.
    - In the analyzers a Python [float] is an exact rational of [Q]; every
      number the scorer builds is a quotient of two small integers scaled
      by a constant, and results are compared with [==].  Ranges and
      closed forms are stated on these.  Module [F64] repeats the
      arithmetic of the scoring functions in binary64, operation by
      operation; what depends on the rounding of a float (the total
      score, the tier of a job match) is stated there.
    - [/] is Python's true division, which raises [ZeroDivisionError]; the
      analyzers therefore live in the error monad [py].
    - The [re] module is embedded as a backtracking matcher over a small
      regular-expression syntax; each pattern of the source is transcribed
      as a term of that syntax.
    - A [set] of strings is a duplicate-free list (first occurrence order);
      Python does not fix the order in which a set is listed, so what is
      stated of a list cut from a set is its members, their number and
      their distinctness.  A [dict] whose iteration order is used is an
      association list. *)

From Stdlib Require Import List String Ascii Bool Arith NArith ZArith QArith
  Qround Qminmax Lia Lqa DecimalString Permutation.
From Stdlib Require SpecFloat.
Import ListNotations.

Set Implicit Arguments.

Open Scope Q_scope.

(** ** Text *)

Definition text := list ascii.

Definition T (s : string) : text := list_ascii_of_string s.

Definition code (c : ascii) : N := N_of_ascii c.

Definition in_range (lo hi : N) (c : ascii) : bool :=
  ((lo <=? code c) && (code c <=? hi))%N.

Definition is_upper : ascii -> bool := in_range 65 90.
Definition is_lower : ascii -> bool := in_range 97 122.
Definition is_digit : ascii -> bool := in_range 48 57.

(** [\w] *)
Definition is_word (c : ascii) : bool :=
  is_upper c || is_lower c || is_digit c || (code c =? 95)%N.

(** [\s], and the separators of [str.split()]: TAB LF VT FF CR, FS GS RS
    US, and the space. *)
Definition is_space (c : ascii) : bool :=
  in_range 9 13 c || in_range 28 31 c || (code c =? 32)%N.

Definition lower_char (c : ascii) : ascii :=
  if is_upper c then ascii_of_N (code c + 32) else c.

Definition upper_char (c : ascii) : ascii :=
  if is_lower c then ascii_of_N (code c - 32) else c.

(** [str.lower()] *)
Definition lower (s : text) : text := map lower_char s.

Fixpoint text_eqb (a b : text) : bool :=
  match a, b with
  | [], [] => true
  | x :: a', y :: b' => Ascii.eqb x y && text_eqb a' b'
  | _, _ => false
  end.

(** [x in l] for a list of strings *)
Definition mem (x : text) (l : list text) : bool := existsb (text_eqb x) l.

Fixpoint starts_with (p s : text) : bool :=
  match p, s with
  | [], _ => true
  | x :: p', y :: s' => Ascii.eqb x y && starts_with p' s'
  | _ :: _, [] => false
  end.

(** [p in s] for two strings: the substring test *)
Fixpoint contains (p s : text) : bool :=
  starts_with p s ||
  match s with
  | [] => false
  | _ :: s' => contains p s'
  end.

(** [str.title()]: a cased character is upper-cased after an uncased one
    and lower-cased after a cased one. *)
Fixpoint title_from (after_cased : bool) (s : text) : text :=
  match s with
  | [] => []
  | c :: s' =>
      let cased := is_upper c || is_lower c in
      (if after_cased then lower_char c else upper_char c)
        :: title_from cased s'
  end.

Definition title (s : text) : text := title_from false s.

(** [str.replace(a, b)] for single characters *)
Definition replace_char (a b : ascii) (s : text) : text :=
  map (fun c => if Ascii.eqb c a then b else c) s.

(** [str(n)] for a length *)
Definition str_of_nat (n : nat) : text :=
  T (NilEmpty.string_of_uint (Nat.to_uint n)).

(** [str.split()]: the maximal runs of characters that are not white
    space.  [cur] is the run being read, reversed. *)
Fixpoint split_from (cur : text) (s : text) : list text :=
  match s with
  | [] => match cur with [] => [] | _ => [rev cur] end
  | c :: s' =>
      if is_space c
      then match cur with
           | [] => split_from [] s'
           | _ => rev cur :: split_from [] s'
           end
      else split_from (c :: cur) s'
  end.

Definition split (s : text) : list text := split_from [] s.

(** ** Regular expressions *)

Inductive regex : Type :=
| Eps
| Cls (p : ascii -> bool)      (* one character of a class *)
| Cat (r1 r2 : regex)
| Alt (r1 r2 : regex)          (* r1|r2, r1 tried first *)
| Star (r : regex)             (* r*, greedy *)
| WordB.                       (* \b *)

Definition Chr (c : ascii) : regex := Cls (Ascii.eqb c).
Definition Opt (r : regex) : regex := Alt r Eps.          (* r? *)
Definition Plus (r : regex) : regex := Cat r (Star r).    (* r+ *)

Fixpoint Lit (s : text) : regex :=
  match s with
  | [] => Eps
  | c :: s' => Cat (Chr c) (Lit s')
  end.

(** r{n,} *)
Fixpoint AtLeast (n : nat) (r : regex) : regex :=
  match n with
  | O => Star r
  | S n' => Cat r (AtLeast n' r)
  end.

Fixpoint Alts (rs : list regex) (last : regex) : regex :=
  match rs with
  | [] => last
  | r :: rs' => Alt r (Alts rs' last)
  end.

Definition opt_word (o : option ascii) : bool :=
  match o with
  | Some c => is_word c
  | None => false
  end.

(** A character matches a class, under [re.IGNORECASE] when [ic]. *)
Definition cls_match (ic : bool) (p : ascii -> bool) (c : ascii) : bool :=
  p c || (ic && (p (lower_char c) || p (upper_char c))).

(** [matcher ic r prev s k]: match [r] at the front of [s], where [prev] is
    the character before [s], then continue with [k] on what is left; the
    alternatives are tried in the order of a backtracking matcher, and the
    result is the text left after the whole match. *)
Fixpoint matcher (ic : bool) (r : regex) (prev : option ascii) (s : text)
    (k : option ascii -> text -> option text) {struct r} : option text :=
  match r with
  | Eps => k prev s
  | Cls p =>
      match s with
      | c :: s' => if cls_match ic p c then k (Some c) s' else None
      | [] => None
      end
  | Cat r1 r2 =>
      matcher ic r1 prev s (fun prev' s' => matcher ic r2 prev' s' k)
  | Alt r1 r2 =>
      match matcher ic r1 prev s k with
      | Some rest => Some rest
      | None => matcher ic r2 prev s k
      end
  | Star r1 =>
      (fix loop (fuel : nat) (prev : option ascii) (s : text) : option text :=
         match fuel with
         | O => k prev s
         | S fuel' =>
             match matcher ic r1 prev s
                     (fun prev' s' =>
                        if (List.length s' <? List.length s)%nat
                        then loop fuel' prev' s' else None) with
             | Some rest => Some rest
             | None => k prev s
             end
         end) (List.length s) prev s
  | WordB =>
      if xorb (opt_word prev) (opt_word (hd_error s)) then k prev s else None
  end.

Definition match_at (ic : bool) (r : regex) (prev : option ascii) (s : text)
  : option text :=
  matcher ic r prev s (fun _ rest => Some rest).

(** [re.search(r, s)] as a truth value *)
Fixpoint search_from (ic : bool) (r : regex) (prev : option ascii) (s : text)
  : bool :=
  match match_at ic r prev s with
  | Some _ => true
  | None =>
      match s with
      | [] => false
      | c :: s' => search_from ic r (Some c) s'
      end
  end.

Definition re_search (ic : bool) (r : regex) (s : text) : bool :=
  search_from ic r None s.

(** [re.findall(r, s)] for a pattern without capturing groups: the
    non-overlapping matches from left to right.  [skip] counts the
    characters of the last match still to be passed over. *)
Fixpoint findall_from (ic : bool) (r : regex) (prev : option ascii)
    (s : text) (skip : nat) {struct s} : list text :=
  match skip with
  | S skip' =>
      match s with
      | [] => []
      | c :: s' => findall_from ic r (Some c) s' skip'
      end
  | O =>
      match match_at ic r prev s with
      | Some rest =>
          let n := (List.length s - List.length rest)%nat in
          firstn n s ::
            match s with
            | [] => []
            | c :: s' => findall_from ic r (Some c) s' (Nat.pred n)
            end
      | None =>
          match s with
          | [] => []
          | c :: s' => findall_from ic r (Some c) s' 0
          end
      end
  end.

Definition re_findall (ic : bool) (r : regex) (s : text) : list text :=
  findall_from ic r None s 0.

(** Character classes of the patterns *)
Definition any_of (s : string) (c : ascii) : bool :=
  existsb (Ascii.eqb c) (T s).

Definition dot (c : ascii) : bool := negb (code c =? 10)%N.

Definition D : regex := Cls is_digit.
Definition Sp : regex := Cls is_space.

(** ** Exceptions *)

Inductive py_exc : Type :=
| ZeroDivisionError
| KeyError.

Inductive py (A : Type) : Type :=
| Ok (a : A)
| Raise (e : py_exc).

Arguments Ok {A} a.
Arguments Raise {A} e.

Definition bind {A B : Type} (c : py A) (k : A -> py B) : py B :=
  match c with
  | Ok a => k a
  | Raise e => Raise e
  end.

Notation "x <- c ;; k" := (bind c (fun x => k))
  (at level 61, c at next level, right associativity).

(** ** Numbers *)

Definition len {A : Type} (l : list A) : Z := Z.of_nat (List.length l).

(** [a / b] on two integers *)
Definition truediv (a b : Z) : py Q :=
  if (b =? 0)%Z then Raise ZeroDivisionError
  else Ok (inject_Z a / inject_Z b).

(** [min(a, b)] and [max(a, b)]: the first argument wins a tie. *)
Definition pymin (a b : Q) : Q := if Qle_bool a b then a else b.
Definition pymax (a b : Q) : Q := if Qle_bool b a then a else b.

(** [round(x)]: the nearest integer, a tie going to the even one. *)
Definition round_half_even (x : Q) : Z :=
  let f := Qfloor x in
  match Qcompare (x - inject_Z f) (1 # 2) with
  | Lt => f
  | Gt => (f + 1)%Z
  | Eq => if Z.even f then f else (f + 1)%Z
  end.

(** [round(x, 1)] *)
Definition round1 (x : Q) : Q := inject_Z (round_half_even (x * 10)) / 10.

(** ** Sets of strings *)

Fixpoint to_set (l : list text) : list text :=
  match l with
  | [] => []
  | x :: l' => x :: filter (fun y => negb (text_eqb x y)) (to_set l')
  end.

(** ** Constant tables of [ATSScorer] *)

Definition ACTION_VERBS : list text := map T
  [ "achieved"; "accomplished"; "administered"; "analyzed"; "built";
    "collaborated"; "contributed"; "coordinated"; "created"; "delivered";
    "designed"; "developed"; "directed"; "enhanced"; "established";
    "executed"; "generated"; "implemented"; "improved"; "increased";
    "initiated"; "launched"; "led"; "managed"; "optimized"; "organized";
    "oversaw"; "planned"; "produced"; "reduced"; "resolved";
    "streamlined"; "supervised"; "trained"; "transformed" ]%string.

Definition IMPORTANT_SECTIONS : list text := map T
  [ "experience"; "education"; "skills"; "summary"; "objective" ]%string.

(** The negated class of [special_chars]: anything but a word character,
    white space, or one of . , ; : - ( ) @ / ' ! ? # & * + = and the
    double quote (character 34). *)
Definition special_char (c : ascii) : bool :=
  negb (is_word c || is_space c || any_of ".,;:-()@/'!?#&*+=" c
        || (code c =? 34)%N).

(** The pattern of [tables]: a bar, anything, a bar, anything, a bar. *)
Definition tables_pattern : regex :=
  Cat (Chr "|") (Cat (Star (Cls dot))
    (Cat (Chr "|") (Cat (Star (Cls dot)) (Chr "|")))).

(** [FORMATTING_ISSUES], in the order the dictionary is written:
    name, pattern, penalty value. *)
Definition FORMATTING_ISSUES : list (text * (regex * Z)) :=
  [ (T "tables", (tables_pattern, (-5)%Z));
    (T "special_chars", (Cls special_char, (-2)%Z));
    (T "excessive_caps", (AtLeast 10 (Cls is_upper), (-3)%Z)) ].

(** [\b] + w + [\b] *)
Definition whole_word (w : text) : regex := Cat WordB (Cat (Lit w) WordB).

(** [\b[a-z]{3,}\b] *)
Definition WORD3 : regex := Cat WordB (Cat (AtLeast 3 (Cls is_lower)) WordB).

(** ** calculate_keyword_score *)

Record keyword_details : Type := {
  action_verbs_found : list text;
  action_verbs_missing : list text;
  keyword_density : Q;
  kd_matched_keywords : list text;
  kd_missing_keywords : list text
}.

Definition keyword_common_words : list text := map T
  [ "the"; "a"; "an"; "and"; "or"; "but"; "in"; "on"; "at"; "to"; "for";
    "of"; "with"; "by"; "is"; "are"; "was"; "were"; "be"; "been"; "being";
    "have"; "has"; "had"; "do"; "does"; "did"; "will"; "would"; "could";
    "should"; "may"; "might"; "must"; "shall"; "can"; "need"; "dare";
    "ought"; "used"; "this"; "that"; "these"; "those"; "we"; "you";
    "they"; "it"; "i"; "he"; "she"; "who"; "what"; "which"; "when";
    "where"; "why"; "how"; "all"; "each"; "every"; "both"; "few"; "more";
    "most"; "other"; "some"; "such"; "no"; "nor"; "not"; "only"; "own";
    "same"; "so"; "than"; "too"; "very"; "just"; "also"; "as"; "if";
    "then"; "because"; "while"; "although"; "though"; "after"; "before";
    "since"; "until"; "unless"; "about"; "above"; "across"; "against";
    "along"; "among"; "around"; "behind"; "below"; "beneath"; "beside";
    "between"; "beyond"; "during"; "except"; "inside"; "into"; "near";
    "off"; "onto"; "out"; "outside"; "over"; "past"; "through";
    "throughout"; "toward"; "under"; "underneath"; "up"; "upon"; "within";
    "without" ]%string.

(** The loop over [ACTION_VERBS]: one step appends the verb to the found
    list or to the missing list. *)
Definition verb_step (resume_lower : text) (st : list text * list text)
    (verb : text) : list text * list text :=
  if re_search false (whole_word verb) resume_lower
  then (fst st ++ [verb], snd st)
  else (fst st, snd st ++ [verb]).

Definition check_action_verbs (resume_lower : text)
  : list text * list text :=
  fold_left (verb_step resume_lower) ACTION_VERBS ([], []).

(** The branch on [job_description]: the matched and missing keywords and
    [jd_match_score].  [None] and the empty string are both false. *)
Definition jd_branch (resume_lower : text) (job_description : option text)
  : py (list text * list text * Q) :=
  match job_description with
  | Some jd =>
      match jd with
      | _ :: _ =>
          let jd_lower := lower jd in
          let jd_words :=
            filter (fun w => negb (mem w keyword_common_words))
                   (to_set (re_findall false WORD3 jd_lower)) in
          let resume_words := to_set (re_findall false WORD3 resume_lower) in
          let matched := filter (fun w => mem w resume_words) jd_words in
          let missing :=
            filter (fun w => negb (mem w resume_words)) jd_words in
          match jd_words with
          | _ :: _ =>
              q <- truediv (len matched) (len jd_words) ;;
              Ok (firstn 20 matched, firstn 20 missing, q * 25)
          | [] => Ok (firstn 20 matched, firstn 20 missing, 0)
          end
      | [] => Ok ([], [], 15)
      end
  | None => Ok ([], [], 15)
  end.

Definition density (resume_text : text) : py Q :=
  let words := split resume_text in
  match words with
  | _ :: _ =>
      let keyword_count :=
        len (filter (fun word => (5 <? len word)%Z) words) in
      q <- truediv keyword_count (len words) ;;
      Ok (round1 (q * 100))
  | [] => Ok 0
  end.

Definition calculate_keyword_score (resume_text : text)
    (job_description : option text) : py (Q * keyword_details) :=
  let resume_lower := lower resume_text in
  let verbs := check_action_verbs resume_lower in
  q <- truediv (len (fst verbs)) 10 ;;
  let action_verb_score := pymin q 1 * 25 in
  jd <- jd_branch resume_lower job_description ;;
  let '(matched, missing, jd_match_score) := jd in
  dens <- density resume_text ;;
  let total_score := action_verb_score + jd_match_score in
  Ok (total_score,
      {| action_verbs_found := fst verbs;
         action_verbs_missing := snd verbs;
         keyword_density := dens;
         kd_matched_keywords := matched;
         kd_missing_keywords := missing |}).

(** ** calculate_formatting_score *)

Record formatting_details : Type := {
  issues : list text;
  fd_suggestions : list text;
  section_status : list (text * bool)
}.

(** State of the loop over [IMPORTANT_SECTIONS]:
    [section_status], [sections_found], [suggestions]. *)
Definition section_step (text_lower : text)
    (st : list (text * bool) * Z * list text) (section : text)
  : list (text * bool) * Z * list text :=
  let '(status, sections_found, suggestions) := st in
  let pattern := Cat WordB (Cat (Lit section) (Cat (Opt (Chr "s")) WordB)) in
  if re_search false pattern text_lower
  then (status ++ [(section, true)], (sections_found + 1)%Z, suggestions)
  else (status ++ [(section, false)], sections_found,
        suggestions ++ [T "Add a '" ++ title section ++ T "' section"]).

(** State of the loop over [FORMATTING_ISSUES]: [penalty], [issues]. *)
Definition issue_step (resume_text : text) (st : Z * list text)
    (issue : text * (regex * Z)) : Z * list text :=
  let '(penalty, issues) := st in
  let '(issue_name, (pattern, penalty_value)) := issue in
  let matches := re_findall false pattern resume_text in
  match matches with
  | _ :: _ =>
      ((penalty + Z.min (Z.abs penalty_value * len matches) 10)%Z,
       issues ++ [T "Found " ++ str_of_nat (List.length matches) ++ T " "
                  ++ replace_char "_" " " issue_name ++ T " instances"])
  | [] => (penalty, issues)
  end.

(** The first bullet pattern of the source is a three-character sequence
    outside ASCII, which no text of the model contains. *)
Definition bullet_patterns : list regex :=
  [ Cls (fun _ => false);
    Cat (Chr "*") Sp;
    Cat (Chr "-") (Cat (Plus Sp) (Cls is_upper));
    Cat (Plus D) (Chr ".") ].

Definition calculate_formatting_score (resume_text : text)
  : py (Q * formatting_details) :=
  let score := 25 in
  let text_lower := lower resume_text in
  let '(status, sections_found, suggestions) :=
    fold_left (section_step text_lower) IMPORTANT_SECTIONS ([], 0%Z, []) in
  q <- truediv sections_found (len IMPORTANT_SECTIONS) ;;
  let section_score := q * 10 in
  let '(penalty, issues) :=
    fold_left (issue_step resume_text) FORMATTING_ISSUES (0%Z, []) in
  let word_count := len (split resume_text) in
  let '(penalty, suggestions) :=
    if (word_count <? 200)%Z
    then ((penalty + 5)%Z,
          suggestions ++
          [T "Resume appears too short. Add more details about your experience."])
    else if (1500 <? word_count)%Z
    then ((penalty + 3)%Z,
          suggestions ++
          [T "Resume may be too long. Consider condensing to 1-2 pages."])
    else (penalty, suggestions) in
  let has_bullets :=
    existsb (fun p => re_search false p resume_text) bullet_patterns in
  let '(penalty, suggestions) :=
    if negb has_bullets
    then ((penalty + 2)%Z,
          suggestions ++
          [T "Use bullet points to list achievements and responsibilities"])
    else (penalty, suggestions) in
  let final_score := pymax 0 (score + section_score - inject_Z penalty) in
  Ok (pymin final_score 25,
      {| issues := issues;
         fd_suggestions := suggestions;
         section_status := status |}).

(** ** calculate_skill_coverage *)

Record category_entry : Type := {
  found : list text;
  count : Z
}.

Record skill_details : Type := {
  total_skills : Z;
  skill_categories : list (text * category_entry);
  recommendations : list text
}.

Definition categories : list (text * list text) :=
  [ (T "programming", map T
       [ "python"; "java"; "javascript"; "c++"; "c#"; "ruby"; "go"; "rust";
         "typescript" ]%string);
    (T "data_science", map T
       [ "machine learning"; "deep learning"; "data analysis"; "tensorflow";
         "pytorch"; "pandas"; "numpy" ]%string);
    (T "web", map T
       [ "html"; "css"; "react"; "angular"; "vue"; "node.js"; "django";
         "flask" ]%string);
    (T "cloud", map T
       [ "aws"; "azure"; "gcp"; "docker"; "kubernetes" ]%string);
    (T "database", map T
       [ "sql"; "mysql"; "postgresql"; "mongodb"; "redis" ]%string);
    (T "soft_skills", map T
       [ "leadership"; "communication"; "teamwork"; "problem solving";
         "project management" ]%string) ].

(** [d[key]] *)
Fixpoint getitem {V : Type} (d : list (text * V)) (key : text) : py V :=
  match d with
  | [] => Raise KeyError
  | (k, v) :: d' => if text_eqb k key then Ok v else getitem d' key
  end.

Definition categorize (skills_lower : list text)
    (entry : text * list text) : text * category_entry :=
  let matched := filter (fun s => mem s skills_lower) (snd entry) in
  (fst entry, {| found := matched; count := len matched |}).

Definition append_if (b : bool) (l : list text) (s : string) : list text :=
  if b then l ++ [T s] else l.

Definition calculate_skill_coverage (skills : list text)
    (job_description : option text) : py (Q * skill_details) :=
  let skills_lower := map lower skills in
  let skill_categories := map (categorize skills_lower) categories in
  q <- truediv (len skills) 10 ;;
  let base_score := pymin q 1 * 15 in
  let categories_with_skills :=
    len (filter (fun cat => (0 <? count (snd cat))%Z) skill_categories) in
  d <- truediv categories_with_skills (len categories) ;;
  let diversity_bonus := d * 10 in
  programming <- getitem skill_categories (T "programming") ;;
  let recommendations :=
    append_if (count programming =? 0)%Z []
      "Add programming languages to your skills" in
  soft_skills <- getitem skill_categories (T "soft_skills") ;;
  let recommendations :=
    append_if (count soft_skills =? 0)%Z recommendations
      "Include soft skills like leadership and communication" in
  let recommendations :=
    append_if (len skills <? 5)%Z recommendations
      "Add more relevant skills to improve your profile" in
  let total_score := base_score + diversity_bonus in
  Ok (pymin total_score 25,
      {| total_skills := len skills;
         skill_categories := skill_categories;
         recommendations := recommendations |}).

(** ** calculate_experience_quality *)

Record experience_details : Type := {
  metrics_found : list (text * text);
  achievements : Z;
  ed_suggestions : list text
}.

(** w1|w2|...: the alternatives in the order written *)
Fixpoint AltL (rs : list regex) : regex :=
  match rs with
  | [] => Cls (fun _ => false)
  | [r] => r
  | r :: rs' => Alt r (AltL rs')
  end.

Definition Word (s : string) : regex := Lit (T s).

(** w followed by an optional s *)
Definition Plural (s : string) : regex := Cat (Word s) (Opt (Chr "s")).

Definition metric_patterns : list (regex * text) :=
  [ (Cat (Plus D) (Chr "%"), T "percentage");
    (Cat (Chr "$")
       (Cat (Plus (Cls (fun c => is_digit c || Ascii.eqb c ",")))
            (Opt (Cls (any_of "KMB")))), T "monetary");
    (Cat (Plus D) (Cat (Star Sp)
       (AltL [Plural "user"; Plural "customer"; Plural "client"])),
     T "user_impact");
    (Cat (Plus D) (Cat (Star Sp)
       (AltL [Plural "project"; Plural "application"; Plural "system"])),
     T "project_count");
    (Cat (AltL [Word "increased"; Word "decreased"; Word "improved";
                Word "reduced"; Word "grew"; Word "saved"])
       (Cat (Plus Sp) (Cat (Opt (Cat (Word "by") (Plus Sp))) (Plus D))),
     T "improvement");
    (Cat (Plus D) (Cat (Star Sp)
       (AltL [Word "team"; Word "people"; Word "employees"; Word "members"])),
     T "team_size");
    (Cat (Plus D) (Cat (Star Sp)
       (Cat (AltL [Plural "year"; Plural "month"])
            (Cat (Star Sp) (AltL [Word "experience"; Word "of"])))),
     T "experience_duration") ].

(** stem(?:ed|ing)? *)
Definition Inflected (stem : string) : regex :=
  Cat (Word stem) (Opt (AltL [Word "ed"; Word "ing"])).

Definition result_patterns : list regex :=
  [ Inflected "result"; Inflected "achiev"; Inflected "accomplish";
    Inflected "deliver"; Inflected "complet";
    Cat (Word "success") (Opt (Word "ful")) ].

(** State of the loop over [metric_patterns]:
    [metrics_found], [achievements]. *)
Definition metric_step (resume_text : text) (st : list (text * text) * Z)
    (entry : regex * text) : list (text * text) * Z :=
  let '(pattern, metric_type) := entry in
  let matches := re_findall true pattern resume_text in
  match matches with
  | _ :: _ =>
      (fst st ++ map (fun m => (m, metric_type)) (firstn 3 matches),
       (snd st + len matches)%Z)
  | [] => st
  end.

Definition scan_metrics (resume_text : text) : list (text * text) * Z :=
  fold_left (metric_step resume_text) metric_patterns ([], 0%Z).

Definition count_results (resume_text : text) : Z :=
  fold_left Z.add
    (map (fun p => len (re_findall true p resume_text)) result_patterns) 0%Z.

Definition calculate_experience_quality (resume_text : text)
  : py (Q * experience_details) :=
  let '(metrics_found, achievements) := scan_metrics resume_text in
  q <- truediv (len metrics_found) 5 ;;
  let metrics_score := pymin q 1 * 15 in
  let result_count := count_results resume_text in
  r <- truediv result_count 5 ;;
  let result_bonus := pymin r 1 * 10 in
  let suggestions :=
    append_if (match metrics_found with [] => true | _ => false end) []
      "Add quantifiable achievements (e.g., 'Increased sales by 25%')" in
  let suggestions :=
    append_if (result_count <? 3)%Z suggestions
      "Use more result-oriented language to describe achievements" in
  let total_score := metrics_score + result_bonus in
  Ok (pymin total_score 25,
      {| metrics_found := metrics_found;
         achievements := achievements;
         ed_suggestions := suggestions |}).

(** ** calculate_ats_score *)

Record breakdown : Type := {
  keyword_score : Q;
  formatting_score : Q;
  skill_score : Q;
  experience_score : Q
}.

Record ats_details : Type := {
  keywords : keyword_details;
  formatting : formatting_details;
  skills_detail : skill_details;
  experience : experience_details
}.

Record ats_result : Type := {
  total_score : Z;
  grade : string;
  grade_text : string;
  ats_breakdown : breakdown;
  details : ats_details;
  suggestions : list text;
  missing_keywords : list text
}.

(** The chain of tests on [total_score]: the grade and its text. *)
Definition determine_grade (total_score : Z) : string * string :=
  if (85 <=? total_score)%Z then ("A", "Excellent")%string
  else if (70 <=? total_score)%Z then ("B", "Good")%string
  else if (55 <=? total_score)%Z then ("C", "Average")%string
  else if (40 <=? total_score)%Z then ("D", "Needs Improvement")%string
  else ("F", "Poor")%string.

Definition calculate_ats_score (resume_text : text) (skills : list text)
    (job_description : option text) : py ats_result :=
  k <- calculate_keyword_score resume_text job_description ;;
  let '(keyword_score, keyword_details) := k in
  f <- calculate_formatting_score resume_text ;;
  let '(formatting_score, formatting_details) := f in
  s <- calculate_skill_coverage skills job_description ;;
  let '(skill_score, skill_details) := s in
  e <- calculate_experience_quality resume_text ;;
  let '(experience_score, experience_details) := e in
  let total_score :=
    keyword_score + formatting_score + skill_score + experience_score in
  let total_score := Z.min (Z.max (round_half_even total_score) 0) 100 in
  let '(grade, grade_text) := determine_grade total_score in
  let all_suggestions :=
    fd_suggestions formatting_details ++ recommendations skill_details
      ++ ed_suggestions experience_details in
  Ok {| total_score := total_score;
        grade := grade;
        grade_text := grade_text;
        ats_breakdown :=
          {| keyword_score := round1 keyword_score;
             formatting_score := round1 formatting_score;
             skill_score := round1 skill_score;
             experience_score := round1 experience_score |};
        details :=
          {| keywords := keyword_details;
             formatting := formatting_details;
             skills_detail := skill_details;
             experience := experience_details |};
        suggestions := firstn 10 all_suggestions;
        missing_keywords := firstn 15 (kd_missing_keywords keyword_details) |}.

(** ** calculate_job_match *)

Record match_result : Type := {
  overall_match : Q;
  match_level : string;
  keyword_match : Q;
  skill_match : Q;
  matched_keywords : list text;
  mr_missing_keywords : list text;
  matched_skills : list text;
  missing_skills : list text;
  recommendation : string
}.

Definition match_common_words : list text := map T
  [ "the"; "a"; "an"; "and"; "or"; "but"; "in"; "on"; "at"; "to"; "for";
    "of"; "with"; "by"; "is"; "are"; "was"; "were"; "be"; "been"; "have";
    "has"; "had"; "will"; "would"; "should"; "must"; "can"; "this";
    "that"; "we"; "you"; "they"; "it"; "your"; "our"; "their"; "who";
    "what"; "which"; "when"; "where"; "as"; "if"; "about"; "into";
    "through"; "during"; "before"; "after"; "above"; "below"; "between";
    "under"; "again"; "further"; "then"; "once"; "here"; "there"; "all";
    "each"; "few"; "more"; "most"; "other"; "some"; "such"; "no"; "not";
    "only"; "same"; "than"; "too"; "very"; "just"; "also"; "work";
    "working"; "job"; "position"; "role"; "looking"; "seeking";
    "required"; "requirements"; "qualifications"; "responsibilities";
    "experience"; "years"; "ability"; "skills"; "strong"; "excellent";
    "preferred"; "including"; "etc"; "plus"; "bonus" ]%string.

Definition skill_indicators : list text := map T
  [ "python"; "java"; "javascript"; "react"; "angular"; "node"; "sql";
    "aws"; "azure"; "docker"; "kubernetes"; "machine learning"; "data";
    "analysis"; "excel"; "communication"; "leadership"; "agile"; "scrum";
    "git"; "api"; "rest"; "cloud"; "linux"; "tensorflow"; "pytorch" ]%string.

(** [Counter(words)]: the counts, keys in the order first seen. *)
Fixpoint counter_add (c : list (text * Z)) (w : text) : list (text * Z) :=
  match c with
  | [] => [(w, 1%Z)]
  | (k, n) :: c' =>
      if text_eqb k w then (k, (n + 1)%Z) :: c' else (k, n) :: counter_add c' w
  end.

Definition Counter (words : list text) : list (text * Z) :=
  fold_left counter_add words [].

(** [most_common(n)]: the entries by decreasing count, entries of equal
    count in the order first seen (a stable sort), cut at [n]. *)
Fixpoint insert_by_count (e : text * Z) (l : list (text * Z))
  : list (text * Z) :=
  match l with
  | [] => [e]
  | x :: l' =>
      if (snd x <=? snd e)%Z then e :: x :: l'
      else x :: insert_by_count e l'
  end.

Definition most_common (n : nat) (c : list (text * Z)) : list (text * Z) :=
  firstn n (fold_right insert_by_count [] c).

Definition important_keywords_of (jd_lower : text) : list text :=
  let jd_words :=
    filter (fun w => negb (mem w match_common_words))
           (re_findall false WORD3 jd_lower) in
  map fst (most_common 30 (Counter jd_words)).

(** The loop over [skill_indicators] *)
Definition jd_skills_of (jd_lower : text) : list text :=
  filter (fun skill => contains skill jd_lower) skill_indicators.

Definition in_any (s : text) (resume_skills_lower : list text) : bool :=
  existsb (fun rs => contains s rs) resume_skills_lower.

(** The chain of tests on [overall_match]: level and recommendation. *)
Definition determine_level (overall_match : Q) : string * string :=
  if Qle_bool 75 overall_match then
    ("Strong Match",
     "Your resume is well-aligned with this position. Consider applying!")%string
  else if Qle_bool 50 overall_match then
    ("Moderate Match",
     "You have relevant experience. Tailor your resume to highlight matching skills.")%string
  else if Qle_bool 30 overall_match then
    ("Partial Match",
     "Some skills align. Focus on transferable skills and consider upskilling.")%string
  else
    ("Low Match",
     "This role may require significant skill development. Consider related positions.")%string.

Definition combine_match (keyword_match skill_match : Q) : Q :=
  keyword_match * (6 # 10) + skill_match * (4 # 10).

(** The local variables of [calculate_job_match] when the percentages
    have been computed (the values before rounding). *)
Record match_locals : Type := {
  important_keywords : list text;
  l_matched_keywords : list text;
  l_missing_keywords : list text;
  jd_skills : list text;
  l_matched_skills : list text;
  l_missing_skills : list text;
  l_keyword_match : Q;
  l_skill_match : Q;
  l_overall_match : Q
}.

Definition job_match_locals (resume_text : text)
    (resume_skills : list text) (job_description : text) : py match_locals :=
  let jd_lower := lower job_description in
  let resume_lower := lower resume_text in
  let important_keywords := important_keywords_of jd_lower in
  let matched_keywords :=
    filter (fun keyword => contains keyword resume_lower)
           important_keywords in
  let missing_keywords :=
    filter (fun keyword => negb (contains keyword resume_lower))
           important_keywords in
  let resume_skills_lower := map lower resume_skills in
  let jd_skills := jd_skills_of jd_lower in
  let matched_skills :=
    filter (fun s => in_any s resume_skills_lower) jd_skills in
  let missing_skills :=
    filter (fun s => negb (in_any s resume_skills_lower)) jd_skills in
  k <- truediv (len matched_keywords) (Z.max (len important_keywords) 1) ;;
  let keyword_match := k * 100 in
  skill_match <-
    match jd_skills with
    | _ :: _ =>
        q <- truediv (len matched_skills) (Z.max (len jd_skills) 1) ;;
        Ok (q * 100)
    | [] => Ok 50
    end ;;
  let overall_match := combine_match keyword_match skill_match in
  Ok {| important_keywords := important_keywords;
        l_matched_keywords := matched_keywords;
        l_missing_keywords := missing_keywords;
        jd_skills := jd_skills;
        l_matched_skills := matched_skills;
        l_missing_skills := missing_skills;
        l_keyword_match := keyword_match;
        l_skill_match := skill_match;
        l_overall_match := overall_match |}.

Definition calculate_job_match (resume_text : text)
    (resume_skills : list text) (job_description : text) : py match_result :=
  l <- job_match_locals resume_text resume_skills job_description ;;
  let '(match_level, recommendation) :=
    determine_level (l_overall_match l) in
  Ok {| overall_match := round1 (l_overall_match l);
        match_level := match_level;
        keyword_match := round1 (l_keyword_match l);
        skill_match := round1 (l_skill_match l);
        matched_keywords := firstn 15 (l_matched_keywords l);
        mr_missing_keywords := firstn 15 (l_missing_keywords l);
        matched_skills := l_matched_skills l;
        missing_skills := firstn 10 (l_missing_skills l);
        recommendation := recommendation |}.

(** * The scores in binary64: utils/ats_scorer.py

    Python computes the scores in binary64 floats.  This module repeats
    the arithmetic of the five scoring functions as the interpreter does
    it: every operation gives the float nearest to the exact result, a
    tie going to the even mantissa ([SpecFloat] at 53 bits).  The texts,
    the lists and the counts are those of the functions above; an [int]
    that meets a float is converted first, as Python does. *)

Module F64.

Definition float : Type := SpecFloat.spec_float.

Definition prec : Z := 53.
Definition emax : Z := 1024.

(** An integer as an operand of a quotient, not rounded. *)
Definition exact (n : Z) : float :=
  match n with
  | Z0 => SpecFloat.S754_zero false
  | Zpos p => SpecFloat.S754_finite false p 0
  | Zneg p => SpecFloat.S754_finite true p 0
  end.

(** [float(n)] *)
Definition of_int (n : Z) : float :=
  SpecFloat.binary_normalize prec emax n 0 false.

Definition add (a b : float) : float := SpecFloat.SFadd prec emax a b.
Definition sub (a b : float) : float := SpecFloat.SFsub prec emax a b.
Definition mul (a b : float) : float := SpecFloat.SFmul prec emax a b.

(** [a / b] on two integers: the quotient, rounded once. *)
Definition truediv (a b : Z) : py float :=
  if (b =? 0)%Z then Raise ZeroDivisionError
  else Ok (SpecFloat.SFdiv prec emax (exact a) (exact b)).

(** [a <= b] *)
Definition le (a b : float) : bool := SpecFloat.SFleb a b.

(** [min(a, b)] and [max(a, b)]: the first argument wins a tie. *)
Definition pymin (a b : float) : float := if le a b then a else b.
Definition pymax (a b : float) : float := if le b a then a else b.

(** The number a float is. *)
Definition value (x : float) : Q :=
  match x with
  | SpecFloat.S754_finite s m e =>
      let n := if s then Zneg m else Zpos m in
      match e with
      | Z0 => inject_Z n
      | Zpos p => inject_Z (n * 2 ^ Zpos p)
      | Zneg p => n # (2 ^ p)
      end
  | _ => 0
  end.

(** [round(x)]: the integer nearest to the float, a tie going to the
    even one. *)
Definition round (x : float) : Z := round_half_even (value x).

(** [round(x, 1)]: the float nearest to the decimal of one digit that is
    nearest to the float. *)
Definition round1 (x : float) : float :=
  SpecFloat.SFdiv prec emax (exact (round_half_even (value x * 10)))
    (exact 10).

(** The literals [0.6] and [0.4]: the floats nearest to 6/10 and 4/10. *)
Definition lit_0_6 : float := SpecFloat.S754_finite false 5404319552844595 (-53).
Definition lit_0_4 : float := SpecFloat.S754_finite false 7205759403792794 (-54).

(** ** calculate_keyword_score *)

Record keyword_details : Type := {
  action_verbs_found : list text;
  action_verbs_missing : list text;
  keyword_density : float;
  kd_matched_keywords : list text;
  kd_missing_keywords : list text
}.

Definition jd_branch (resume_lower : text) (job_description : option text)
  : py (list text * list text * float) :=
  match job_description with
  | Some jd =>
      match jd with
      | _ :: _ =>
          let jd_lower := lower jd in
          let jd_words :=
            filter (fun w => negb (mem w keyword_common_words))
                   (to_set (re_findall false WORD3 jd_lower)) in
          let resume_words := to_set (re_findall false WORD3 resume_lower) in
          let matched := filter (fun w => mem w resume_words) jd_words in
          let missing :=
            filter (fun w => negb (mem w resume_words)) jd_words in
          match jd_words with
          | _ :: _ =>
              q <- truediv (len matched) (len jd_words) ;;
              Ok (firstn 20 matched, firstn 20 missing, mul q (of_int 25))
          | [] => Ok (firstn 20 matched, firstn 20 missing, of_int 0)
          end
      | [] => Ok ([], [], of_int 15)
      end
  | None => Ok ([], [], of_int 15)
  end.

Definition density (resume_text : text) : py float :=
  let words := split resume_text in
  match words with
  | _ :: _ =>
      let keyword_count :=
        len (filter (fun word => (5 <? len word)%Z) words) in
      q <- truediv keyword_count (len words) ;;
      Ok (round1 (mul q (of_int 100)))
  | [] => Ok (of_int 0)
  end.

Definition calculate_keyword_score (resume_text : text)
    (job_description : option text) : py (float * keyword_details) :=
  let resume_lower := lower resume_text in
  let verbs := check_action_verbs resume_lower in
  q <- truediv (len (fst verbs)) 10 ;;
  let action_verb_score := mul (pymin q (of_int 1)) (of_int 25) in
  jd <- jd_branch resume_lower job_description ;;
  let '(matched, missing, jd_match_score) := jd in
  dens <- density resume_text ;;
  let total_score := add action_verb_score jd_match_score in
  Ok (total_score,
      {| action_verbs_found := fst verbs;
         action_verbs_missing := snd verbs;
         keyword_density := dens;
         kd_matched_keywords := matched;
         kd_missing_keywords := missing |}).

(** ** calculate_formatting_score *)

Definition calculate_formatting_score (resume_text : text)
  : py (float * formatting_details) :=
  let score := of_int 25 in
  let text_lower := lower resume_text in
  let '(status, sections_found, suggestions) :=
    fold_left (section_step text_lower) IMPORTANT_SECTIONS ([], 0%Z, []) in
  q <- truediv sections_found (len IMPORTANT_SECTIONS) ;;
  let section_score := mul q (of_int 10) in
  let '(penalty, issues) :=
    fold_left (issue_step resume_text) FORMATTING_ISSUES (0%Z, []) in
  let word_count := len (split resume_text) in
  let '(penalty, suggestions) :=
    if (word_count <? 200)%Z
    then ((penalty + 5)%Z,
          suggestions ++
          [T "Resume appears too short. Add more details about your experience."])
    else if (1500 <? word_count)%Z
    then ((penalty + 3)%Z,
          suggestions ++
          [T "Resume may be too long. Consider condensing to 1-2 pages."])
    else (penalty, suggestions) in
  let has_bullets :=
    existsb (fun p => re_search false p resume_text) bullet_patterns in
  let '(penalty, suggestions) :=
    if negb has_bullets
    then ((penalty + 2)%Z,
          suggestions ++
          [T "Use bullet points to list achievements and responsibilities"])
    else (penalty, suggestions) in
  let final_score :=
    pymax (of_int 0) (sub (add score section_score) (of_int penalty)) in
  Ok (pymin final_score (of_int 25),
      {| issues := issues;
         fd_suggestions := suggestions;
         section_status := status |}).

(** ** calculate_skill_coverage *)

Definition calculate_skill_coverage (skills : list text)
    (job_description : option text) : py (float * skill_details) :=
  let skills_lower := map lower skills in
  let skill_categories := map (categorize skills_lower) categories in
  q <- truediv (len skills) 10 ;;
  let base_score := mul (pymin q (of_int 1)) (of_int 15) in
  let categories_with_skills :=
    len (filter (fun cat => (0 <? count (snd cat))%Z) skill_categories) in
  d <- truediv categories_with_skills (len categories) ;;
  let diversity_bonus := mul d (of_int 10) in
  programming <- getitem skill_categories (T "programming") ;;
  let recommendations :=
    append_if (count programming =? 0)%Z []
      "Add programming languages to your skills" in
  soft_skills <- getitem skill_categories (T "soft_skills") ;;
  let recommendations :=
    append_if (count soft_skills =? 0)%Z recommendations
      "Include soft skills like leadership and communication" in
  let recommendations :=
    append_if (len skills <? 5)%Z recommendations
      "Add more relevant skills to improve your profile" in
  let total_score := add base_score diversity_bonus in
  Ok (pymin total_score (of_int 25),
      {| total_skills := len skills;
         skill_categories := skill_categories;
         recommendations := recommendations |}).

(** ** calculate_experience_quality *)

Definition calculate_experience_quality (resume_text : text)
  : py (float * experience_details) :=
  let '(metrics_found, achievements) := scan_metrics resume_text in
  q <- truediv (len metrics_found) 5 ;;
  let metrics_score := mul (pymin q (of_int 1)) (of_int 15) in
  let result_count := count_results resume_text in
  r <- truediv result_count 5 ;;
  let result_bonus := mul (pymin r (of_int 1)) (of_int 10) in
  let suggestions :=
    append_if (match metrics_found with [] => true | _ => false end) []
      "Add quantifiable achievements (e.g., 'Increased sales by 25%')" in
  let suggestions :=
    append_if (result_count <? 3)%Z suggestions
      "Use more result-oriented language to describe achievements" in
  let total_score := add metrics_score result_bonus in
  Ok (pymin total_score (of_int 25),
      {| metrics_found := metrics_found;
         achievements := achievements;
         ed_suggestions := suggestions |}).

(** ** calculate_ats_score *)

Record breakdown : Type := {
  keyword_score : float;
  formatting_score : float;
  skill_score : float;
  experience_score : float
}.

Record ats_details : Type := {
  keywords : keyword_details;
  formatting : formatting_details;
  skills_detail : skill_details;
  experience : experience_details
}.

Record ats_result : Type := {
  total_score : Z;
  grade : string;
  grade_text : string;
  ats_breakdown : breakdown;
  details : ats_details;
  suggestions : list text;
  missing_keywords : list text
}.

Definition calculate_ats_score (resume_text : text) (skills : list text)
    (job_description : option text) : py ats_result :=
  k <- calculate_keyword_score resume_text job_description ;;
  let '(keyword_score, keyword_details) := k in
  f <- calculate_formatting_score resume_text ;;
  let '(formatting_score, formatting_details) := f in
  s <- calculate_skill_coverage skills job_description ;;
  let '(skill_score, skill_details) := s in
  e <- calculate_experience_quality resume_text ;;
  let '(experience_score, experience_details) := e in
  let total_score :=
    add (add (add keyword_score formatting_score) skill_score)
        experience_score in
  let total_score := Z.min (Z.max (round total_score) 0) 100 in
  let '(grade, grade_text) := determine_grade total_score in
  let all_suggestions :=
    fd_suggestions formatting_details ++ recommendations skill_details
      ++ ed_suggestions experience_details in
  Ok {| total_score := total_score;
        grade := grade;
        grade_text := grade_text;
        ats_breakdown :=
          {| keyword_score := round1 keyword_score;
             formatting_score := round1 formatting_score;
             skill_score := round1 skill_score;
             experience_score := round1 experience_score |};
        details :=
          {| keywords := keyword_details;
             formatting := formatting_details;
             skills_detail := skill_details;
             experience := experience_details |};
        suggestions := firstn 10 all_suggestions;
        missing_keywords := firstn 15 (kd_missing_keywords keyword_details) |}.

(** ** calculate_job_match *)

Record match_result : Type := {
  overall_match : float;
  match_level : string;
  keyword_match : float;
  skill_match : float;
  matched_keywords : list text;
  mr_missing_keywords : list text;
  matched_skills : list text;
  missing_skills : list text;
  recommendation : string
}.

(** The chain of tests on [overall_match]: level and recommendation. *)
Definition determine_level (overall_match : float) : string * string :=
  if le (of_int 75) overall_match then
    ("Strong Match",
     "Your resume is well-aligned with this position. Consider applying!")%string
  else if le (of_int 50) overall_match then
    ("Moderate Match",
     "You have relevant experience. Tailor your resume to highlight matching skills.")%string
  else if le (of_int 30) overall_match then
    ("Partial Match",
     "Some skills align. Focus on transferable skills and consider upskilling.")%string
  else
    ("Low Match",
     "This role may require significant skill development. Consider related positions.")%string.

Definition combine_match (keyword_match skill_match : float) : float :=
  add (mul keyword_match lit_0_6) (mul skill_match lit_0_4).

(** The local variables of [calculate_job_match] when the percentages
    have been computed (the values before rounding). *)
Record match_locals : Type := {
  important_keywords : list text;
  l_matched_keywords : list text;
  l_missing_keywords : list text;
  jd_skills : list text;
  l_matched_skills : list text;
  l_missing_skills : list text;
  l_keyword_match : float;
  l_skill_match : float;
  l_overall_match : float
}.

Definition job_match_locals (resume_text : text)
    (resume_skills : list text) (job_description : text) : py match_locals :=
  let jd_lower := lower job_description in
  let resume_lower := lower resume_text in
  let important_keywords := important_keywords_of jd_lower in
  let matched_keywords :=
    filter (fun keyword => contains keyword resume_lower)
           important_keywords in
  let missing_keywords :=
    filter (fun keyword => negb (contains keyword resume_lower))
           important_keywords in
  let resume_skills_lower := map lower resume_skills in
  let jd_skills := jd_skills_of jd_lower in
  let matched_skills :=
    filter (fun s => in_any s resume_skills_lower) jd_skills in
  let missing_skills :=
    filter (fun s => negb (in_any s resume_skills_lower)) jd_skills in
  k <- truediv (len matched_keywords) (Z.max (len important_keywords) 1) ;;
  let keyword_match := mul k (of_int 100) in
  skill_match <-
    match jd_skills with
    | _ :: _ =>
        q <- truediv (len matched_skills) (Z.max (len jd_skills) 1) ;;
        Ok (mul q (of_int 100))
    | [] => Ok (of_int 50)
    end ;;
  let overall_match := combine_match keyword_match skill_match in
  Ok {| important_keywords := important_keywords;
        l_matched_keywords := matched_keywords;
        l_missing_keywords := missing_keywords;
        jd_skills := jd_skills;
        l_matched_skills := matched_skills;
        l_missing_skills := missing_skills;
        l_keyword_match := keyword_match;
        l_skill_match := skill_match;
        l_overall_match := overall_match |}.

Definition calculate_job_match (resume_text : text)
    (resume_skills : list text) (job_description : text) : py match_result :=
  l <- job_match_locals resume_text resume_skills job_description ;;
  let '(match_level, recommendation) :=
    determine_level (l_overall_match l) in
  Ok {| overall_match := round1 (l_overall_match l);
        match_level := match_level;
        keyword_match := round1 (l_keyword_match l);
        skill_match := round1 (l_skill_match l);
        matched_keywords := firstn 15 (l_matched_keywords l);
        mr_missing_keywords := firstn 15 (l_missing_keywords l);
        matched_skills := l_matched_skills l;
        missing_skills := firstn 10 (l_missing_skills l);
        recommendation := recommendation |}.

End F64.

(** * The resume parser: utils/resume_parser.py *)

Definition SKILL_KEYWORDS : list text := map T
  [ "python"; "java"; "javascript"; "typescript"; "c++"; "c#"; "ruby";
    "go"; "rust"; "php"; "swift"; "kotlin"; "scala"; "r"; "html"; "css";
    "react"; "angular"; "vue"; "node.js"; "express"; "django"; "flask";
    "fastapi"; "spring"; "asp.net"; "machine learning"; "deep learning";
    "tensorflow"; "pytorch"; "keras"; "scikit-learn"; "pandas"; "numpy";
    "matplotlib"; "data analysis"; "data visualization"; "nlp";
    "computer vision"; "neural networks"; "ai"; "artificial intelligence";
    "sql"; "mysql"; "postgresql"; "mongodb"; "redis"; "elasticsearch";
    "cassandra"; "oracle"; "sqlite"; "aws"; "azure"; "gcp"; "google cloud";
    "docker"; "kubernetes"; "jenkins"; "ci/cd"; "terraform"; "ansible";
    "git"; "github"; "gitlab"; "jira"; "agile"; "scrum"; "rest api";
    "graphql"; "microservices"; "leadership"; "communication";
    "problem solving"; "teamwork"; "project management"; "analytical";
    "aws certified"; "azure certified"; "pmp"; "scrum master";
    "data science"; "machine learning engineer" ]%string.

(** ** extract_skills

    The pattern is [\b] + [re.escape(skill)] + [\b]: the skill read
    literally between two word boundaries.  The result is
    [list(set(found_skills))], whose order Python leaves open. *)
Definition skill_step (text_lower : text) (found_skills : list text)
    (skill : text) : list text :=
  if re_search false (whole_word skill) text_lower
  then found_skills ++ [title skill]
  else found_skills.

Definition extract_skills (resume_text : text) : list text :=
  let text_lower := lower resume_text in
  to_set (fold_left (skill_step text_lower) SKILL_KEYWORDS []).

(** ** String methods of the parser *)

(** [s.lstrip()] and [s.strip()] *)
Fixpoint lstrip (s : text) : text :=
  match s with
  | [] => []
  | c :: s' => if is_space c then lstrip s' else s
  end.

Definition strip (s : text) : text := rev (lstrip (rev (lstrip s))).

(** The truth value of a string: it is not empty. *)
Definition truthy (s : text) : bool :=
  match s with
  | [] => false
  | _ :: _ => true
  end.

(** [s.endswith(suffix)] *)
Definition ends_with (suffix s : text) : bool :=
  starts_with (rev suffix) (rev s).

(** [sep.join(parts)] *)
Fixpoint join (sep : text) (parts : list text) : text :=
  match parts with
  | [] => []
  | [p] => p
  | p :: parts' => p ++ sep ++ join sep parts'
  end.

Definition newline : ascii := ascii_of_N 10.

(** [s.split('\n')]: the pieces between line feeds, at least one.
    [cur] is the piece being read, reversed. *)
Fixpoint split_lines_from (cur : text) (s : text) : list text :=
  match s with
  | [] => [rev cur]
  | c :: s' =>
      if Ascii.eqb c newline then rev cur :: split_lines_from [] s'
      else split_lines_from (c :: cur) s'
  end.

Definition split_lines (s : text) : list text := split_lines_from [] s.

(** [d[key] = value] on a dictionary kept in insertion order *)
Fixpoint dict_set (d : list (text * text)) (key value : text)
  : list (text * text) :=
  match d with
  | [] => [(key, value)]
  | (k, v) :: d' =>
      if text_eqb k key then (k, value) :: d'
      else (k, v) :: dict_set d' key value
  end.

(** ** extract_text

    The document libraries are outside the repository.  Of a PDF library
    the code uses the page texts it yields ([None] or a string each)
    until it finishes or raises, the exception being discarded; of the
    DOCX library the paragraph texts and the table cell texts, or the
    text of the exception it raises. *)
Inductive parsed (A : Type) : Type :=
| Parsed (a : A)
| ValueError (message : text).

Arguments Parsed {A} a.
Arguments ValueError {A} message.

(** The loop over the pages: the text grows by the page text and a line
    feed, for the pages with a text. *)
Definition add_page (txt : text) (page : option text) : text :=
  match page with
  | Some page_text =>
      if truthy page_text then txt ++ page_text ++ [newline] else txt
  | None => txt
  end.

Section ExtractText.

Variable bytes : Type.
Variable pdfplumber_pages : bytes -> list (option text).
Variable pypdf2_pages : bytes -> list (option text).
Variable docx_document : bytes -> text + (list text * list text).

Definition extract_text_from_pdf (file_content : bytes) : text :=
  let txt := fold_left add_page (pdfplumber_pages file_content) [] in
  let txt :=
    if negb (truthy (strip txt))
    then fold_left add_page (pypdf2_pages file_content) txt
    else txt in
  strip txt.

Definition extract_text_from_docx (file_content : bytes) : parsed text :=
  match docx_document file_content with
  | inl e => ValueError (T "Failed to extract text from DOCX: " ++ e)
  | inr (paragraphs, cells) =>
      let text_parts :=
        filter (fun para => truthy (strip para)) paragraphs in
      let text_parts :=
        text_parts ++ filter (fun cell => truthy (strip cell)) cells in
      Parsed (join [newline] text_parts)
  end.

Definition extract_text (file_content : bytes) (filename : text)
  : parsed text :=
  let filename_lower := lower filename in
  let extracted :=
    if ends_with (T ".pdf") filename_lower
    then Parsed (extract_text_from_pdf file_content)
    else if ends_with (T ".docx") filename_lower
    then extract_text_from_docx file_content
    else if ends_with (T ".doc") filename_lower
    then ValueError (T "DOC format not supported. Please use DOCX or PDF.")
    else ValueError (T "Unsupported file format. Please upload PDF or DOCX.")
  in
  match extracted with
  | ValueError message => ValueError message
  | Parsed txt =>
      if negb (truthy (strip txt))
      then ValueError
             (T "Could not extract text from the resume. The file may be corrupted or empty.")
      else Parsed txt
  end.

End ExtractText.

(** ** extract_sections *)

(** a[\s*]b *)
Definition Spaced (a b : string) : regex :=
  Cat (Word a) (Cat (Star Sp) (Word b)).

(** [SECTION_PATTERNS], in the order written; each pattern is read with
    [(?i)]. *)
Definition SECTION_PATTERNS : list (text * regex) :=
  [ (T "experience",
     AltL [Spaced "work" "experience"; Spaced "professional" "experience";
           Spaced "employment" "history"; Word "experience"]);
    (T "education",
     AltL [Word "education"; Spaced "academic" "background";
           Word "qualifications"]);
    (T "skills",
     AltL [Word "skills"; Spaced "technical" "skills"; Word "competencies";
           Word "expertise"]);
    (T "projects",
     AltL [Word "projects"; Spaced "personal" "projects"; Word "portfolio";
           Spaced "key" "projects"]);
    (T "certifications",
     AltL [Word "certifications"; Word "certificates";
           Word "accreditations"]);
    (T "summary",
     AltL [Word "summary"; Word "profile"; Word "objective";
           Spaced "about" "me"]) ].

(** [re.match(pattern, s)] with [(?i)], as a truth value *)
Definition re_match_i (pattern : regex) (s : text) : bool :=
  match match_at true pattern None s with
  | Some _ => true
  | None => false
  end.

(** The inner loop: the first section whose pattern matches the line at
    its start, for a line of fewer than 50 characters. *)
Fixpoint find_section (patterns : list (text * regex)) (line_stripped : text)
  : option text :=
  match patterns with
  | [] => None
  | (section_name, pattern) :: patterns' =>
      if re_match_i pattern line_stripped
         && (len line_stripped <? 50)%Z
      then Some section_name
      else find_section patterns' line_stripped
  end.

(** [sections[current_section] = '\n'.join(current_content)] when there
    is content *)
Definition save_section (sections : list (text * text))
    (current_section : text) (current_content : list text)
  : list (text * text) :=
  match current_content with
  | [] => sections
  | _ :: _ =>
      dict_set sections current_section (join [newline] current_content)
  end.

(** State of the loop over the lines:
    [sections], [current_section], [current_content]. *)
Definition section_line (st : list (text * text) * text * list text)
    (line : text) : list (text * text) * text * list text :=
  let '(sections, current_section, current_content) := st in
  let line_stripped := strip line in
  if negb (truthy line_stripped) then st
  else
    match find_section SECTION_PATTERNS line_stripped with
    | Some found_section =>
        (save_section sections current_section current_content,
         found_section, [])
    | None =>
        (sections, current_section, current_content ++ [line_stripped])
    end.

Definition extract_sections (resume_text : text) : list (text * text) :=
  let lines := split_lines resume_text in
  let '(sections, current_section, current_content) :=
    fold_left section_line lines ([], T "header", []) in
  save_section sections current_section current_content.

(** ** extract_projects *)

(** [d.get(key, default)] *)
Fixpoint dict_get (d : list (text * text)) (key default : text) : text :=
  match d with
  | [] => default
  | (k, v) :: d' => if text_eqb k key then v else dict_get d' key default
  end.

(** projects?\s*[:\n], the part of the pattern before its group *)
Definition PROJECTS_LABEL : regex :=
  Cat (Word "project")
    (Cat (Opt (Chr "s"))
       (Cat (Star Sp)
          (Cls (fun c => Ascii.eqb c ":" || Ascii.eqb c newline)))).

(** [$]: at the end of the text, or before a line feed that ends it *)
Definition at_end (s : text) : bool :=
  match s with
  | [] => true
  | [c] => Ascii.eqb c newline
  | _ :: _ :: _ => false
  end.

(** (?=(?:experience|education|skills|certifications|$)) *)
Definition section_ahead (s : text) : bool :=
  re_match_i (AltL [Word "experience"; Word "education"; Word "skills";
                    Word "certifications"]) s
  || at_end s.

(** (.+?) before the lookahead, with [re.DOTALL]: the shortest text of
    one character or more after which the lookahead holds.  [acc] is the
    text taken, reversed. *)
Fixpoint lazy_until (acc s : text) : option text :=
  if truthy acc && section_ahead s then Some (rev acc)
  else
    match s with
    | [] => None
    | c :: s' => lazy_until (c :: acc) s'
    end.

(** [re.search(pattern, text, re.DOTALL)] and its [group(1)] *)
Fixpoint search_projects_from (prev : option ascii) (s : text)
  : option text :=
  match matcher true PROJECTS_LABEL prev s (fun _ rest => lazy_until [] rest)
  with
  | Some group1 => Some group1
  | None =>
      match s with
      | [] => None
      | c :: s' => search_projects_from (Some c) s'
      end
  end.

(** [re.split(r'\n(?=[A-Z•\-\*])', s)] on a text of ASCII characters,
    where no bullet can follow: the pieces between the line feeds that
    come before a capital letter, a hyphen or an asterisk. *)
Definition entry_start (s : text) : bool :=
  match s with
  | c :: _ => is_upper c || Ascii.eqb c "-" || Ascii.eqb c "*"
  | [] => false
  end.

Fixpoint split_entries_from (cur s : text) : list text :=
  match s with
  | [] => [rev cur]
  | c :: s' =>
      if Ascii.eqb c newline && entry_start s'
      then rev cur :: split_entries_from [] s'
      else split_entries_from (c :: cur) s'
  end.

Definition split_entries (s : text) : list text := split_entries_from [] s.

(** [s.strip(chars)] *)
Fixpoint lstrip_chars (chars : ascii -> bool) (s : text) : text :=
  match s with
  | [] => []
  | c :: s' => if chars c then lstrip_chars chars s' else s
  end.

Definition strip_chars (chars : ascii -> bool) (s : text) : text :=
  rev (lstrip_chars chars (rev (lstrip_chars chars s))).

Record project : Type := {
  name : text;
  description : text
}.

(** The body of the loop over the entries: the project of an entry, if
    it gives one. *)
Definition project_of_entry (entry : text) : option project :=
  let entry := strip entry in
  if (20 <? len entry)%Z then
    let lines := split_lines entry in
    let name := strip_chars (any_of "-* ") (hd [] lines) in
    let description :=
      if (1 <? Z.of_nat (List.length lines))%Z
      then strip (join (T " ") (tl lines)) else [] in
    if truthy name then
      Some {| name := firstn 100 name;
              description :=
                if truthy description then firstn 500 description
                else T "No description available" |}
    else None
  else None.

Fixpoint projects_of_entries (entries : list text) : list project :=
  match entries with
  | [] => []
  | entry :: entries' =>
      match project_of_entry entry with
      | Some p => p :: projects_of_entries entries'
      | None => projects_of_entries entries'
      end
  end.

Definition extract_projects (resume_text : text) : list project :=
  let sections := extract_sections resume_text in
  let project_text := dict_get sections (T "projects") [] in
  let project_text :=
    if negb (truthy project_text) then
      match search_projects_from None resume_text with
      | Some group1 => group1
      | None => project_text
      end
    else project_text in
  let projects :=
    if truthy project_text
    then projects_of_entries (split_entries project_text)
    else [] in
  firstn 10 projects.

(** ** extract_contact_info *)

(** [re.search(r, s)] and the [group()] of the match: the first match
    from the left. *)
Fixpoint search_group_from (ic : bool) (r : regex) (prev : option ascii)
    (s : text) : option text :=
  match match_at ic r prev s with
  | Some rest => Some (firstn (List.length s - List.length rest) s)
  | None =>
      match s with
      | [] => None
      | c :: s' => search_group_from ic r (Some c) s'
      end
  end.

Definition re_search_group (ic : bool) (r : regex) (s : text)
  : option text :=
  search_group_from ic r None s.

(** r{n} *)
Fixpoint Times (n : nat) (r : regex) : regex :=
  match n with
  | O => Eps
  | S n' => Cat r (Times n' r)
  end.

(** r{0,n}, the longest first *)
Fixpoint UpTo (n : nat) (r : regex) : regex :=
  match n with
  | O => Eps
  | S n' => Opt (Cat r (UpTo n' r))
  end.

(** r{lo,hi} *)
Definition Between (lo hi : nat) (r : regex) : regex :=
  Cat (Times lo r) (UpTo (hi - lo) r).

(** [\w\.-], [\w-] and [-\s\.] *)
Definition word_dot_dash (c : ascii) : bool := is_word c || any_of ".-" c.
Definition word_dash (c : ascii) : bool := is_word c || Ascii.eqb c "-".
Definition separator (c : ascii) : bool :=
  Ascii.eqb c "-" || is_space c || Ascii.eqb c ".".

(** [\w\.-]+@[\w\.-]+\.\w+ *)
Definition EMAIL : regex :=
  Cat (Plus (Cls word_dot_dash))
    (Cat (Chr "@")
       (Cat (Plus (Cls word_dot_dash)) (Cat (Chr ".") (Plus (Cls is_word))))).

(** [\+]?[(]?[0-9]{1,3}[)]?[-\s\.]?[0-9]{3}[-\s\.]?[0-9]{4,6} *)
Definition PHONE : regex :=
  Cat (Opt (Chr "+"))
    (Cat (Opt (Chr "("))
       (Cat (Between 1 3 D)
          (Cat (Opt (Chr ")"))
             (Cat (Opt (Cls separator))
                (Cat (Times 3 D)
                   (Cat (Opt (Cls separator)) (Between 4 6 D))))))).

(** linkedin\.com/in/[\w-]+ and github\.com/[\w-]+, read with
    [re.IGNORECASE] *)
Definition LINKEDIN : regex :=
  Cat (Word "linkedin.com/in/") (Plus (Cls word_dash)).

Definition GITHUB : regex := Cat (Word "github.com/") (Plus (Cls word_dash)).

Record contact_info : Type := {
  email : option text;
  phone : option text;
  linkedin : option text;
  github : option text
}.

Definition extract_contact_info (resume_text : text) : contact_info :=
  {| email := re_search_group false EMAIL resume_text;
     phone := re_search_group false PHONE resume_text;
     linkedin := re_search_group true LINKEDIN resume_text;
     github := re_search_group true GITHUB resume_text |}.

(** ** parse_resume *)

(** The dictionary [parse_resume] returns. *)
Record resume_data : Type := {
  raw_text : text;
  skills : list text;
  sections : list (text * text);
  projects : list project;
  contact : contact_info;
  word_count : Z;
  has_projects : bool
}.

Section ParseResume.

Variable bytes : Type.
Variable pdfplumber_pages : bytes -> list (option text).
Variable pypdf2_pages : bytes -> list (option text).
Variable docx_document : bytes -> text + (list text * list text).

Definition parse_resume (file_content : bytes) (filename : text)
  : parsed resume_data :=
  match extract_text pdfplumber_pages pypdf2_pages docx_document
          file_content filename with
  | ValueError message => ValueError message
  | Parsed txt =>
      let skills := extract_skills txt in
      let sections := extract_sections txt in
      let projects := extract_projects txt in
      let contact := extract_contact_info txt in
      Parsed {| raw_text := txt;
                skills := skills;
                sections := sections;
                projects := projects;
                contact := contact;
                word_count := len (split txt);
                has_projects := (0 <? len projects)%Z |}
  end.

End ParseResume.

(** * The AI service: utils/ai_service.py *)

(** The values of the dictionaries the service returns. *)
Unset Elimination Schemes.

Inductive json : Type :=
| JStr (s : text)
| JInt (n : Z)
| JList (l : list json)
| JDict (d : list (text * json)).

Set Elimination Schemes.

Definition strs (l : list text) : json := JList (map JStr l).

(** ** _generate_fallback_roadmap *)

(** The career direction read from the skills: [career_path],
    [next_roles] and [skills_to_learn]. *)
Definition career_direction (skills : list text)
  : text * list text * list text :=
  if existsb
       (fun s => mem (lower s)
                   [T "python"; T "machine learning"; T "tensorflow";
                    T "pytorch"; T "data analysis"]) skills
  then (T "Data Science / ML Engineering",
        [T "Data Scientist"; T "ML Engineer"; T "AI Engineer"],
        [T "Deep Learning"; T "MLOps"; T "Cloud ML Services"])
  else if existsb
            (fun s => mem (lower s)
                        [T "react"; T "javascript"; T "angular"; T "vue";
                         T "node.js"]) skills
  then (T "Full-Stack Development",
        [T "Senior Developer"; T "Tech Lead"; T "Engineering Manager"],
        [T "System Design"; T "Cloud Architecture"; T "DevOps"])
  else if existsb
            (fun s => mem (lower s)
                        [T "aws"; T "azure"; T "docker"; T "kubernetes"])
            skills
  then (T "Cloud / DevOps Engineering",
        [T "DevOps Engineer"; T "Cloud Architect"; T "SRE"],
        [T "Terraform"; T "Security"; T "Cost Optimization"])
  else (T "Software Engineering",
        [T "Software Engineer"; T "Senior Engineer"; T "Tech Lead"],
        [T "System Design"; T "Algorithms"; T "Cloud Services"]).

(** [target_role or default]: the default for [None] and for the empty
    string. *)
Definition or_default (target_role : option text) (default : text) : text :=
  match target_role with
  | Some role => if truthy role then role else default
  | None => default
  end.

Definition roadmap_step (step : Z) (title description duration : text)
    (skills_to_learn resources : list text) : json :=
  JDict [ (T "step", JInt step);
          (T "title", JStr title);
          (T "description", JStr description);
          (T "duration", JStr duration);
          (T "skills_to_learn", strs skills_to_learn);
          (T "resources", strs resources) ].

Definition learning_resource (name type focus : text) : json :=
  JDict [ (T "name", JStr name); (T "type", JStr type);
          (T "focus", JStr focus) ].

Definition _generate_fallback_roadmap (resume_data : resume_data)
    (job_description target_role : option text) : json :=
  let skills := skills resume_data in
  let '(career_path, next_roles, skills_to_learn) :=
    career_direction skills in
  JDict
    [ (T "current_level", JStr (T "Mid-level Professional"));
      (T "target_role", JStr (or_default target_role (hd [] next_roles)));
      (T "timeline", JStr (T "6-12 months"));
      (T "roadmap_steps",
       JList
         [ roadmap_step 1 (T "Skill Assessment & Gap Analysis")
             (T "Identify key skills needed for your target role and assess current proficiency")
             (T "2 weeks")
             [T "Self-assessment"; T "Goal setting"]
             [T "LinkedIn Learning"; T "Coursera"];
           roadmap_step 2 (T "Core Skill Development")
             (T "Focus on building expertise in " ++ career_path)
             (T "2-3 months")
             (firstn 2 skills_to_learn)
             [T "Online courses"; T "Documentation"; T "Practice projects"];
           roadmap_step 3 (T "Portfolio Building")
             (T "Create projects that showcase your skills to potential employers")
             (T "1-2 months")
             [T "Project management"; T "Documentation"]
             [T "GitHub"; T "Personal website"];
           roadmap_step 4 (T "Networking & Job Search")
             (T "Connect with professionals in your target field and start applying")
             (T "Ongoing")
             [T "Networking"; T "Interview skills"]
             [T "LinkedIn"; T "Meetups"; T "Tech conferences"] ]);
      (T "portfolio_ideas",
       strs [T "Build a full-stack web application";
             T "Contribute to open source projects";
             T "Create a technical blog"]);
      (T "learning_resources",
       JList
         [ learning_resource (T "Coursera") (T "Course Platform")
             (T "Structured learning paths");
           learning_resource (T "LeetCode") (T "Practice Platform")
             (T "Coding interviews");
           learning_resource (T "System Design Primer") (T "GitHub Resource")
             (T "Architecture") ]);
      (T "next_roles", strs next_roles);
      (T "key_skills_to_develop", strs skills_to_learn);
      (T "salary_insights",
       JStr (T "With the recommended skill development, expect 15-30% salary increase potential")) ].

(** * The dashboard: app.py *)

(** ** get_score_class *)

Definition get_score_class (score : Z) : string :=
  if (75 <=? score)%Z then "score-excellent"
  else if (55 <=? score)%Z then "score-good"
  else if (40 <=? score)%Z then "score-average"
  else "score-poor".

(** ** The recommendations of skill_gap_analysis_page

    The list built from the breakdown of the stored result: area,
    suggestion, priority. *)
Definition below_15 (x : Q) : bool := negb (Qle_bool 15 x).

Definition add_recommendation (b : bool)
    (l : list (string * string * string)) (r : string * string * string)
  : list (string * string * string) :=
  if b then l ++ [r] else l.

Definition improvement_recommendations (b : breakdown)
  : list (string * string * string) :=
  let recommendations := [] in
  let recommendations :=
    add_recommendation (below_15 (keyword_score b)) recommendations
      ("Keywords",
       "Add more action verbs and industry-specific keywords to your resume.",
       "High")%string in
  let recommendations :=
    add_recommendation (below_15 (formatting_score b)) recommendations
      ("Formatting",
       "Improve resume structure with clear sections and bullet points.",
       "High")%string in
  let recommendations :=
    add_recommendation (below_15 (skill_score b)) recommendations
      ("Skills",
       "Expand your skills section with more technical and soft skills.",
       "Medium")%string in
  let recommendations :=
    add_recommendation (below_15 (experience_score b)) recommendations
      ("Experience",
       "Add quantifiable achievements and metrics to your experience.",
       "High")%string in
  recommendations.

(** * Notions used in the statements *)

(** The test of the action-verb loop: the verb occurs as a whole word. *)
Definition has_verb (resume_lower verb : text) : bool :=
  re_search false (whole_word verb) resume_lower.

(** The verbs found in a resume, and the others. *)
Definition verbs_found (resume_text : text) : list text :=
  filter (has_verb (lower resume_text)) ACTION_VERBS.

Definition verbs_missing (resume_text : text) : list text :=
  filter (fun v => negb (has_verb (lower resume_text) v)) ACTION_VERBS.

(** The test of the section loop: the section name, or its plural, occurs
    as a whole word. *)
Definition has_section (text_lower section : text) : bool :=
  re_search false
    (Cat WordB (Cat (Lit section) (Cat (Opt (Chr "s")) WordB))) text_lower.

(** The value of [sections_found] when the section loop ends. *)
Definition sections_found (resume_text : text) : Z :=
  len (filter (has_section (lower resume_text)) IMPORTANT_SECTIONS).

Definition section_suggestion (section : text) : text :=
  T "Add a '" ++ title section ++ T "' section".

(** Occurrences of the pattern of an issue category in the text. *)
Definition occurrences (pattern : regex) (resume_text : text) : Z :=
  len (re_findall false pattern resume_text).

(** What one issue category adds to the penalty. *)
Definition issue_penalty (resume_text : text) (issue : text * (regex * Z))
  : Z :=
  Z.min (Z.abs (snd (snd issue))
         * occurrences (fst (snd issue)) resume_text) 10.

(** What one issue category appends to [issues]. *)
Definition issue_report (resume_text : text) (issue : text * (regex * Z))
  : list text :=
  let matches := re_findall false (fst (snd issue)) resume_text in
  match matches with
  | [] => []
  | _ :: _ =>
      [T "Found " ++ str_of_nat (List.length matches) ++ T " "
       ++ replace_char "_" " " (fst issue) ++ T " instances"]
  end.

(** The penalty of the word count, and of the missing bullet points. *)
Definition length_penalty (resume_text : text) : Z :=
  let word_count := len (split resume_text) in
  if (word_count <? 200)%Z then 5
  else if (1500 <? word_count)%Z then 3 else 0.

Definition has_bullets (resume_text : text) : bool :=
  existsb (fun p => re_search false p resume_text) bullet_patterns.

Definition bullet_penalty (resume_text : text) : Z :=
  if has_bullets resume_text then 0 else 2.

(** The penalty summed by the analyzer: three capped issue categories,
    then the length and the bullet penalties. *)
Definition total_penalty (resume_text : text) : Z :=
  (Z.min (5 * occurrences tables_pattern resume_text) 10
   + Z.min (2 * occurrences (Cls special_char) resume_text) 10
   + Z.min (3 * occurrences (AtLeast 10 (Cls is_upper)) resume_text) 10
   + length_penalty resume_text
   + bullet_penalty resume_text)%Z.

(** [min(max(lo, x), hi)] *)
Definition clamp (lo hi x : Q) : Q := pymin (pymax lo x) hi.

(** The categories in which a skill of the list is found. *)
Definition categories_with_skills (skills : list text) : Z :=
  len (filter (fun cat => (0 <? count (snd cat))%Z)
              (map (categorize (map lower skills)) categories)).

(** The sample matches one family adds: at most three. *)
Definition family_samples (resume_text : text) (entry : regex * text)
  : list (text * text) :=
  map (fun m => (m, snd entry))
      (firstn 3 (re_findall true (fst entry) resume_text)).

(** All the matches of one family. *)
Definition family_count (resume_text : text) (entry : regex * text) : Z :=
  len (re_findall true (fst entry) resume_text).

Definition sum_Z (l : list Z) : Z := fold_right Z.add 0%Z l.

(** A resume with three action verbs: managed, developed, led. *)
Definition three_verbs_resume : text :=
  T "I managed, developed and led teams".

(** A resume that names every action verb. *)
Definition all_verbs_resume : text :=
  List.concat (map (fun v => v ++ T " ") ACTION_VERBS).

(** The order A > B > C > D > F of the grades. *)
Definition grade_rank (g : string) : nat :=
  if String.eqb g "A" then 4
  else if String.eqb g "B" then 3
  else if String.eqb g "C" then 2
  else if String.eqb g "D" then 1
  else 0.

(** The formatting suggestions for the empty resume. *)
Definition empty_resume_suggestions : list text := map T
  [ "Add a 'Experience' section"; "Add a 'Education' section";
    "Add a 'Skills' section"; "Add a 'Summary' section";
    "Add a 'Objective' section";
    "Resume appears too short. Add more details about your experience.";
    "Use bullet points to list achievements and responsibilities" ]%string.

(** A resume that has every keyword of the job description and none of
    its skills. *)
Definition keywords_only_resume : text := T "python developer".
Definition keywords_only_jd : text := T "Python developer".

(** Two of the eleven keywords of the job description are in the
    resume: the keyword score is 50/11. *)
Definition two_of_eleven_resume : text := T "alpha beta".
Definition two_of_eleven_jd : text :=
  T "alpha beta gamma delta epsilon zeta theta iota kappa lambda sigma".

(** The sum of the four values of a breakdown. *)
Definition breakdown_sum (b : breakdown) : Q :=
  keyword_score b + formatting_score b + skill_score b + experience_score b.

(** A resume with ten action verbs, the five sections, a numbered item,
    five metrics and five result words, and ten skills of all six
    categories. *)
Definition full_marks_resume : text :=
  T "achieved accomplished administered analyzed built collaborated contributed coordinated created delivered experience education skills summary objective 1. teams of 5 users 10 customers 3 projects 12 people 7 years of completed successful results".

Definition full_marks_skills : list text := map T
  [ "Python"; "Pandas"; "HTML"; "AWS"; "SQL"; "Leadership"; "Java"; "CSS";
    "GCP"; "Redis" ]%string.

(** The canonical skills of the two categories the recommendations read. *)
Definition programming_skills : list text := map T
  [ "python"; "java"; "javascript"; "c++"; "c#"; "ruby"; "go"; "rust";
    "typescript" ]%string.

Definition soft_skills : list text := map T
  [ "leadership"; "communication"; "teamwork"; "problem solving";
    "project management" ]%string.

(** The skills of a category found in a skill list, compared in lower
    case. *)
Definition found_in (skills category_skills : list text) : list text :=
  filter (fun s => mem s (map lower skills)) category_skills.

(** The recommendations of the skill analyzer, in the order appended. *)
Definition skill_recommendations (skills : list text) : list text :=
  append_if (len skills <? 5)%Z
    (append_if (len (found_in skills soft_skills) =? 0)%Z
       (append_if (len (found_in skills programming_skills) =? 0)%Z []
          "Add programming languages to your skills")
       "Include soft skills like leadership and communication")
    "Add more relevant skills to improve your profile".

(** The suggestions of the experience analyzer, in the order appended. *)
Definition experience_suggestions (resume_text : text) : list text :=
  append_if (count_results resume_text <? 3)%Z
    (append_if (match fst (scan_metrics resume_text) with
                | [] => true
                | _ :: _ => false
                end) []
       "Add quantifiable achievements (e.g., 'Increased sales by 25%')")
    "Use more result-oriented language to describe achievements".

(** The suggestions of the formatting analyzer, in the order appended. *)
Definition formatting_suggestions (resume_text : text) : list text :=
  map section_suggestion
    (filter (fun s => negb (has_section (lower resume_text) s))
            IMPORTANT_SECTIONS)
  ++ (if (len (split resume_text) <? 200)%Z
      then [T "Resume appears too short. Add more details about your experience."]
      else if (1500 <? len (split resume_text))%Z
      then [T "Resume may be too long. Consider condensing to 1-2 pages."]
      else [])
  ++ (if has_bullets resume_text then []
      else [T "Use bullet points to list achievements and responsibilities"]).

(** The vocabulary of a job description and of a resume in the keyword
    analyzer: the distinct lower-case words of three letters or more,
    without the common words for the job description. *)
Definition jd_vocabulary (job_description : text) : list text :=
  filter (fun w => negb (mem w keyword_common_words))
         (to_set (re_findall false WORD3 (lower job_description))).

Definition resume_vocabulary (resume_text : text) : list text :=
  to_set (re_findall false WORD3 (lower resume_text)).

(** The text holds the character [ch] directly before a word
    character. *)
Fixpoint followed_by_word (ch : ascii) (s : text) : bool :=
  match s with
  | [] => false
  | x :: s' =>
      (Ascii.eqb x ch && opt_word (hd_error s')) || followed_by_word ch s'
  end.

(** The character before the end of [pre], which follows [prev]. *)
Definition last_of (prev : option ascii) (pre : text) : option ascii :=
  match rev pre with
  | [] => prev
  | c :: _ => Some c
  end.

(** The literal [w] stands at the front of [s], between two word
    boundaries, when [prev] is the character before [s]. *)
Definition word_at (w : text) (prev : option ascii) (s : text) : bool :=
  xorb (opt_word prev) (opt_word (hd_error s))
  && starts_with w s
  && xorb (opt_word (last_of prev w))
          (opt_word (hd_error (skipn (List.length w) s))).

(** A literal that begins and ends with a word character. *)
Definition word_edges (w : text) : bool :=
  opt_word (hd_error w) && opt_word (last_of None w).

(** The keywords of the parser found in a resume as whole words. *)
Definition keywords_found (resume_text : text) : list text :=
  filter (has_verb (lower resume_text)) SKILL_KEYWORDS.

(** A resume that names C++, C# and Java. *)
Definition cpp_resume : text := T "Expert in C++, C# and Java.".

(** Stand-ins for the document libraries, for the examples: a PDF whose
    pages are read by the first library, and a DOCX with one paragraph. *)
Definition example_pdf_pages (_ : unit) : list (option text) :=
  [Some (T "  Jane Doe"); None; Some []; Some (T "Engineer  ")].

Definition example_no_pages (_ : unit) : list (option text) := [].

Definition example_docx (_ : unit) : text + (list text * list text) :=
  inr ([T "Jane Doe"; T "   "], [T "Skills"]).

(** The keys a dictionary of sections can have. *)
Definition section_names : list text := T "header" :: map fst SECTION_PATTERNS.

(** A line of content among [lines]: one of the lines, stripped, that is
    not empty and is no section header. *)
Definition content_line (lines : list text) (l : text) : Prop :=
  In l (map strip lines) /\ l <> [] /\
  find_section SECTION_PATTERNS l = None.

(** A section made of lines of content. *)
Definition section_of_lines (lines : list text) (name value : text) : Prop :=
  In name section_names /\ value <> [] /\
  exists content,
    value = join [newline] content /\ content <> [] /\
    Forall (content_line lines) content.

(** The loop of [extract_sections] keeps its state well formed. *)
Definition sections_state_ok (lines : list text)
    (st : list (text * text) * text * list text) : Prop :=
  let '(sections, current_section, current_content) := st in
  NoDup (map fst sections) /\
  (forall name value,
      In (name, value) sections -> section_of_lines lines name value) /\
  In current_section section_names /\
  Forall (content_line lines) current_content.

(** The stripped lines with a character left. *)
Definition stripped_lines (resume_text : text) : list text :=
  filter truthy (map strip (split_lines resume_text)).

(** A line that [extract_sections] takes for a section header. *)
Definition is_header (line : text) : bool :=
  match find_section SECTION_PATTERNS (strip line) with
  | Some _ => true
  | None => false
  end.

(** The loop of [matcher] for [Star r], over a matcher [m] of [r] and a
    continuation [k]. *)
Section StarLoop.

Variable m : option ascii -> text ->
             (option ascii -> text -> option text) -> option text.
Variable k : option ascii -> text -> option text.

Fixpoint star_loop (fuel : nat) (prev : option ascii) (s : text)
  : option text :=
  match fuel with
  | O => k prev s
  | S fuel' =>
      match m prev s
              (fun prev' s' =>
                 if (List.length s' <? List.length s)%nat
                 then star_loop fuel' prev' s' else None) with
      | Some rest => Some rest
      | None => k prev s
      end
  end.

End StarLoop.

(** A dictionary with its values in lower case. *)
Definition lower_values (d : list (text * text)) : list (text * text) :=
  map (fun kv => (fst kv, lower (snd kv))) d.

Definition lower_state (st : list (text * text) * text * list text)
  : list (text * text) * text * list text :=
  let '(sections, current_section, current_content) := st in
  (lower_values sections, current_section, map lower current_content).

(** The texts a pattern can match, read without the text around them
    (so a word boundary matches the empty text). *)
Fixpoint lang (ic : bool) (r : regex) (s : text) : Prop :=
  match r with
  | Eps => s = []
  | Cls p => exists c, s = [c] /\ cls_match ic p c = true
  | Cat r1 r2 =>
      exists s1 s2, s = s1 ++ s2 /\ lang ic r1 s1 /\ lang ic r2 s2
  | Alt r1 r2 => lang ic r1 s \/ lang ic r2 s
  | Star r1 =>
      exists parts, s = List.concat parts /\ Forall (lang ic r1) parts
  | WordB => s = []
  end.

(** [g] is a part of [s]. *)
Definition part_of (g s : text) : Prop := exists pre post, s = pre ++ g ++ post.

(** local@domain.tld *)
Definition email_shape (e : text) : Prop :=
  exists local domain tld,
    e = local ++ "@"%char :: domain ++ "."%char :: tld /\
    local <> [] /\ domain <> [] /\ tld <> [] /\
    forallb word_dot_dash local = true /\
    forallb word_dot_dash domain = true /\
    forallb is_word tld = true.

(** The number of digits of a text. *)
Definition digits (s : text) : nat := List.length (filter is_digit s).

(** The characters a phone number found can hold. *)
Definition phone_char (c : ascii) : bool :=
  is_digit c || any_of "+()" c || separator c.

(** A profile link: the label in any letter case, then a handle. *)
Definition profile_link (label v : text) : Prop :=
  exists l handle,
    v = l ++ handle /\ lower l = label /\ handle <> [] /\
    forallb word_dash handle = true.

(** A text of one line: not empty, and without a line feed. *)
Definition single_line (s : text) : Prop := s <> [] /\ ~ In newline s.

(** What every project extracted satisfies. *)
Definition project_ok (p : project) : Prop :=
  single_line (name p) /\ (List.length (name p) <= 100)%nat /\
  (forall c, hd_error (name p) = Some c -> any_of "-* " c = false) /\
  single_line (description p) /\
  (List.length (description p) <= 500)%nat.

(** A resume of which only the skills are known. *)
Definition resume_with_skills (skills : list text) : resume_data :=
  {| raw_text := [];
     skills := skills;
     sections := [];
     projects := [];
     contact := {| email := None; phone := None; linkedin := None;
                   github := None |};
     word_count := 0;
     has_projects := false |}.

(** The skills that decide the career direction. *)
Definition data_skills : list text :=
  [T "python"; T "machine learning"; T "tensorflow"; T "pytorch";
   T "data analysis"].

Definition web_skills : list text :=
  [T "react"; T "javascript"; T "angular"; T "vue"; T "node.js"].

Definition cloud_skills : list text :=
  [T "aws"; T "azure"; T "docker"; T "kubernetes"].

(** One of the keywords occurs in the resume as a whole word, in any
    letter case. *)
Definition mentions (keywords : list text) (resume_text : text) : bool :=
  existsb (has_verb (lower resume_text)) keywords.

(** The career path for the keywords a resume mentions. *)
Definition path_mentioned (resume_text : text) : text :=
  if mentions data_skills resume_text then T "Data Science / ML Engineering"
  else if mentions web_skills resume_text then T "Full-Stack Development"
  else if mentions cloud_skills resume_text
  then T "Cloud / DevOps Engineering"
  else T "Software Engineering".

(** A PDF of one page, for the examples. *)
Definition example_skills_page (_ : unit) : list (option text) :=
  [Some (T "React developer; some Python, on AWS")].

(** A PDF whose pages hold white space only. *)
Definition example_blank_pages (_ : unit) : list (option text) :=
  [Some (T "   "); None; Some [newline]].

(** The text a PDF library yields: its page texts, each followed by a
    line feed. *)
Definition pages_text (pages : list (option text)) : text :=
  fold_left add_page pages [].

(** The texts of a DOCX document that are not blank: paragraphs, then
    table cells. *)
Definition docx_parts (paragraphs cells : list text) : list text :=
  filter (fun para => truthy (strip para)) paragraphs
  ++ filter (fun cell => truthy (strip cell)) cells.

(** The sum of the four values of a breakdown, in binary64. *)
Definition breakdown_sum64 (b : F64.breakdown) : F64.float :=
  F64.add
    (F64.add (F64.add (F64.keyword_score b) (F64.formatting_score b))
       (F64.skill_score b))
    (F64.experience_score b).

(** A resume with one of the three keywords and one of the four skills
    of the job description: 100/3 * 0.6 + 25 * 0.4 is 30 in exact
    arithmetic. *)
Definition one_third_resume : text := T "I know SQL".
Definition one_third_skills : list text := [T "Sql"].
Definition one_third_jd : text := T "javascript sql docker".

(** A resume whose scores are 25/3, 25, 37/6 and 0 in exact arithmetic:
    their sum is 39.5. *)
Definition half_point_resume : text :=
  T "alpha experience education skills summary objective".
Definition half_point_skills : list text := [T "Python"; T "Java"; T "Ruby"].
Definition half_point_jd : text := T "alpha beta gamma".

(** A text of ASCII characters. *)
Definition is_ascii (s : text) : bool :=
  forallb (fun c => (code c <? 128)%N) s.

Definition is_ascii_opt (o : option text) : bool :=
  match o with
  | Some s => is_ascii s
  | None => true
  end.

(** * Properties *)

(** ** Arithmetic of the scores *)

Lemma pymin_cases (a b : Q) :
  (a <= b /\ pymin a b = a) \/ (b < a /\ pymin a b = b).
Proof.
  unfold pymin. destruct (Qle_bool a b) eqn:E.
  - left. split; [now apply Qle_bool_iff | reflexivity].
  - right. split; [| reflexivity].
    apply Qnot_le_lt. intro H. apply Qle_bool_iff in H. congruence.
Qed.

Lemma pymax_cases (a b : Q) :
  (b <= a /\ pymax a b = a) \/ (a < b /\ pymax a b = b).
Proof.
  unfold pymax. destruct (Qle_bool b a) eqn:E.
  - left. split; [now apply Qle_bool_iff | reflexivity].
  - right. split; [| reflexivity].
    apply Qnot_le_lt. intro H. apply Qle_bool_iff in H. congruence.
Qed.

Lemma pymin_bounds (a b lo : Q) :
  lo <= a -> lo <= b -> lo <= pymin a b /\ pymin a b <= b.
Proof.
  intros Ha Hb. destruct (pymin_cases a b) as [[H ->] | [H ->]]; lra.
Qed.

Lemma pymin_Qeq (a b : Q) :
  pymin a b == Qmin a b.
Proof.
  destruct (pymin_cases a b) as [[H ->] | [H ->]].
  - symmetry. now apply Q.min_l.
  - symmetry. apply Q.min_r. lra.
Qed.

Lemma pymax_Qeq (a b : Q) :
  pymax a b == Qmax a b.
Proof.
  destruct (pymax_cases a b) as [[H ->] | [H ->]].
  - symmetry. now apply Q.max_l.
  - symmetry. apply Q.max_r. lra.
Qed.

Lemma len_nonneg {A : Type} (l : list A) : (0 <= len l)%Z.
Proof. unfold len. lia. Qed.

Lemma len_filter_le {A : Type} (f : A -> bool) (l : list A) :
  (len (filter f l) <= len l)%Z.
Proof.
  unfold len. apply inj_le. induction l as [| x l IH]; simpl.
  - lia.
  - destruct (f x); simpl; lia.
Qed.

Lemma truediv_ok (a b : Z) :
  b <> 0%Z -> truediv a b = Ok (inject_Z a / inject_Z b).
Proof.
  intros H. unfold truediv. destruct (Z.eqb_spec b 0); [contradiction | reflexivity].
Qed.

(** A quotient of a count by a positive count. *)
Lemma ratio_nonneg (a b : Z) :
  (0 <= a)%Z -> (0 < b)%Z -> 0 <= inject_Z a / inject_Z b.
Proof.
  intros Ha Hb. apply Qle_shift_div_l.
  - change 0 with (inject_Z 0). rewrite <- Zlt_Qlt. exact Hb.
  - rewrite Qmult_0_l. change 0 with (inject_Z 0). rewrite <- Zle_Qle. exact Ha.
Qed.

Lemma ratio_le_1 (a b : Z) :
  (a <= b)%Z -> (0 < b)%Z -> inject_Z a / inject_Z b <= 1.
Proof.
  intros Ha Hb. apply Qle_shift_div_r.
  - change 0 with (inject_Z 0). rewrite <- Zlt_Qlt. exact Hb.
  - rewrite Qmult_1_l. rewrite <- Zle_Qle. exact Ha.
Qed.

(** [min(n / d, 1) * w] lies between 0 and [w]. *)
Lemma capped_share_bounds (n d : Z) (w : Q) :
  (0 <= n)%Z -> (0 < d)%Z -> 0 <= w ->
  0 <= pymin (inject_Z n / inject_Z d) 1 * w /\
  pymin (inject_Z n / inject_Z d) 1 * w <= w.
Proof.
  intros Hn Hd Hw.
  pose proof (ratio_nonneg Hn Hd) as H0.
  destruct (pymin_bounds (a := inject_Z n / inject_Z d) (b := 1) (lo := 0) H0)
    as [L U]; [lra |].
  split; nra.
Qed.

(** [round] keeps a value between two integers that enclose it. *)
Lemma round_half_even_bounds (x : Q) (lo hi : Z) :
  inject_Z lo <= x -> x <= inject_Z hi ->
  (lo <= round_half_even x <= hi)%Z.
Proof.
  intros Hlo Hhi.
  pose proof (Qfloor_le x) as Hf.
  pose proof (Qlt_floor x) as Hc.
  assert (Hlof : (lo <= Qfloor x)%Z).
  { apply Z.lt_succ_r. rewrite Zlt_Qlt. unfold Z.succ. lra. }
  assert (Hfhi : (Qfloor x <= hi)%Z).
  { rewrite Zle_Qle. lra. }
  assert (Hup : inject_Z (Qfloor x) < x -> (Qfloor x + 1 <= hi)%Z).
  { intros H. apply Z.lt_succ_r. unfold Z.succ.
    assert (Qfloor x < hi)%Z; [rewrite Zlt_Qlt; lra | lia]. }
  unfold round_half_even.
  destruct (Qcompare (x - inject_Z (Qfloor x)) (1 # 2)) eqn:E.
  - apply Qeq_alt in E. destruct (Z.even (Qfloor x)); [lia |].
    split; [lia | apply Hup; lra].
  - lia.
  - apply Qgt_alt in E. split; [lia | apply Hup; lra].
Qed.

Lemma round1_bounds (x : Q) (lo hi : Z) :
  inject_Z lo <= x -> x <= inject_Z hi ->
  inject_Z lo <= round1 x /\ round1 x <= inject_Z hi.
Proof.
  intros Hlo Hhi. unfold round1.
  destruct (@round_half_even_bounds (x * 10) (lo * 10) (hi * 10)) as [L U].
  - rewrite inject_Z_mult. change (inject_Z 10) with 10. lra.
  - rewrite inject_Z_mult. change (inject_Z 10) with 10. lra.
  - rewrite Zle_Qle in L, U. rewrite inject_Z_mult in L, U.
    change (inject_Z 10) with 10 in L, U.
    split.
    + apply Qle_shift_div_l; lra.
    + apply Qle_shift_div_r; lra.
Qed.

(** ** The keyword analyzer *)

Lemma verb_loop_filter (resume_lower : text) (vs acc_f acc_m : list text) :
  fold_left (verb_step resume_lower) vs (acc_f, acc_m) =
  (acc_f ++ filter (has_verb resume_lower) vs,
   acc_m ++ filter (fun v => negb (has_verb resume_lower v)) vs).
Proof.
  revert acc_f acc_m. induction vs as [| v vs IH]; intros acc_f acc_m.
  - cbn [fold_left filter]. now rewrite !app_nil_r.
  - cbn [fold_left filter]. unfold verb_step at 2. cbn [fst snd].
    fold (has_verb resume_lower v).
    destruct (has_verb resume_lower v); cbn [negb];
      rewrite IH, <- app_assoc; reflexivity.
Qed.

Lemma check_action_verbs_filter (resume_text : text) :
  check_action_verbs (lower resume_text) =
  (verbs_found resume_text, verbs_missing resume_text).
Proof.
  unfold check_action_verbs, verbs_found, verbs_missing.
  now rewrite verb_loop_filter.
Qed.

Lemma jd_branch_ok (resume_lower : text) (job_description : option text) :
  exists matched missing q,
    jd_branch resume_lower job_description = Ok (matched, missing, q) /\
    0 <= q /\ q <= 25.
Proof.
  unfold jd_branch. destruct job_description as [[| c jd] |];
    cbv beta iota zeta.
  - exists [], [], 15. split; [reflexivity | split; lra].
  - set (jd_words := filter (fun w => negb (mem w keyword_common_words))
                        (to_set (re_findall false WORD3 (lower (c :: jd))))).
    set (resume_words := to_set (re_findall false WORD3 resume_lower)).
    set (matched := filter (fun w => mem w resume_words) jd_words).
    set (missing := filter (fun w => negb (mem w resume_words)) jd_words).
    assert (Hm : (len matched <= len jd_words)%Z) by apply len_filter_le.
    pose proof (len_nonneg matched) as Hm0.
    destruct jd_words as [| w ws] eqn:E.
    + exists (firstn 20 matched), (firstn 20 missing), 0.
      split; [reflexivity | split; lra].
    + assert (Hpos : (0 < len (w :: ws))%Z) by (unfold len; cbn; lia).
      rewrite truediv_ok by lia. cbn [bind].
      eexists _, _, _. split; [reflexivity |].
      pose proof (ratio_nonneg Hm0 Hpos). pose proof (ratio_le_1 Hm Hpos).
      split; nra.
  - exists [], [], 15. split; [reflexivity | split; lra].
Qed.

Lemma density_ok (resume_text : text) :
  exists d, density resume_text = Ok d.
Proof.
  unfold density. destruct (split resume_text) as [| w ws] eqn:E.
  - now exists 0.
  - rewrite truediv_ok by (unfold len; cbn; lia). cbn [bind]. eauto.
Qed.

Lemma fst_pair_eq {A B : Type} (a : A) (b : B) : fst (a, b) = a.
Proof. reflexivity. Qed.

Lemma snd_pair_eq {A B : Type} (a : A) (b : B) : snd (a, b) = b.
Proof. reflexivity. Qed.

(** The keyword analyzer returns, and its score is the capped share of
    action verbs plus a job-description score between 0 and 25. *)
Lemma calculate_keyword_score_spec (resume_text : text)
    (job_description : option text) :
  exists matched missing jd_match_score dens,
    jd_branch (lower resume_text) job_description
      = Ok (matched, missing, jd_match_score) /\
    0 <= jd_match_score /\ jd_match_score <= 25 /\
    calculate_keyword_score resume_text job_description =
    Ok (pymin (inject_Z (len (verbs_found resume_text)) / 10) 1 * 25
        + jd_match_score,
        {| action_verbs_found := verbs_found resume_text;
           action_verbs_missing := verbs_missing resume_text;
           keyword_density := dens;
           kd_matched_keywords := matched;
           kd_missing_keywords := missing |}).
Proof.
  destruct (jd_branch_ok (lower resume_text) job_description)
    as (matched & missing & q & Hjd & H0 & H25).
  destruct (density_ok resume_text) as [dens Hd].
  exists matched, missing, q, dens.
  split; [exact Hjd |]. split; [exact H0 |]. split; [exact H25 |].
  unfold calculate_keyword_score.
  rewrite check_action_verbs_filter.
  cbv zeta. rewrite !fst_pair_eq, !snd_pair_eq.
  rewrite truediv_ok by discriminate. cbn [bind].
  rewrite Hjd. cbn [bind]. rewrite Hd. cbn [bind]. reflexivity.
Qed.

Lemma keyword_score_bounds (resume_text : text)
    (job_description : option text) :
  exists s d,
    calculate_keyword_score resume_text job_description = Ok (s, d) /\
    0 <= s /\ s <= 50.
Proof.
  destruct (calculate_keyword_score_spec resume_text job_description)
    as (matched & missing & q & dens & _ & H0 & H25 & ->).
  eexists _, _. split; [reflexivity |].
  destruct (@capped_share_bounds (len (verbs_found resume_text)) 10 25)
    as [L U]; [apply len_nonneg | lia | lra |].
  change (inject_Z 10) with 10 in L, U.
  split; lra.
Qed.

Lemma verbs_found_range (resume_text : text) :
  (0 <= len (verbs_found resume_text) <= 35)%Z.
Proof.
  split; [apply len_nonneg |].
  pose proof (len_filter_le (has_verb (lower resume_text)) ACTION_VERBS) as L.
  assert (L35 : len ACTION_VERBS = 35%Z) by reflexivity.
  rewrite L35 in L. unfold verbs_found. exact L.
Qed.

(** ** The formatting analyzer *)

Lemma section_loop (text_lower : text) (secs : list text)
    (status : list (text * bool)) (n : Z) (sugg : list text) :
  fold_left (section_step text_lower) secs (status, n, sugg) =
  (status ++ map (fun s => (s, has_section text_lower s)) secs,
   (n + len (filter (has_section text_lower) secs))%Z,
   sugg ++ map section_suggestion
             (filter (fun s => negb (has_section text_lower s)) secs)).
Proof.
  revert status n sugg.
  induction secs as [| s secs IH]; intros status n sugg.
  - cbn [fold_left map filter]. rewrite !app_nil_r.
    change (len (@nil text)) with 0%Z. now rewrite Z.add_0_r.
  - cbn [fold_left map filter]. unfold section_step at 2.
    fold (has_section text_lower s).
    destruct (has_section text_lower s); cbn [negb]; rewrite IH.
    + rewrite <- app_assoc. cbn [app]. f_equal. f_equal.
      unfold len. cbn [List.length]. lia.
    + rewrite <- !app_assoc. reflexivity.
Qed.

Lemma issue_loop (resume_text : text) (iss : list (text * (regex * Z)))
    (penalty : Z) (reports : list text) :
  fold_left (issue_step resume_text) iss (penalty, reports) =
  ((penalty + fold_right Z.add 0 (map (issue_penalty resume_text) iss))%Z,
   reports ++ flat_map (issue_report resume_text) iss).
Proof.
  revert penalty reports.
  induction iss as [| [name [pattern value]] iss IH]; intros penalty reports.
  - cbn [fold_left map fold_right flat_map]. now rewrite Z.add_0_r, app_nil_r.
  - cbn [fold_left map fold_right flat_map]. unfold issue_step at 2.
    unfold issue_penalty at 1, issue_report at 1, occurrences.
    cbv zeta. cbn [fst snd].
    destruct (re_findall false pattern resume_text) as [| m ms] eqn:E;
      rewrite IH.
    + change (len (@nil text)) with 0%Z. rewrite Z.mul_0_r.
      change (Z.min 0 10) with 0%Z. cbn [app]. f_equal; lia.
    + rewrite <- app_assoc. f_equal; lia.
Qed.

Lemma clamp_bounds (lo hi x : Q) :
  lo <= hi -> lo <= clamp lo hi x /\ clamp lo hi x <= hi.
Proof.
  intros H. unfold clamp.
  destruct (pymax_cases lo x) as [[H1 ->] | [H1 ->]];
    apply pymin_bounds; lra.
Qed.

Lemma sections_found_range (resume_text : text) :
  (0 <= sections_found resume_text <= 5)%Z.
Proof.
  unfold sections_found. split; [apply len_nonneg |].
  change 5%Z with (len IMPORTANT_SECTIONS). apply len_filter_le.
Qed.

Ltac q_consts :=
  change (inject_Z 0) with 0 in *; change (inject_Z 2) with 2 in *;
  change (inject_Z 3) with 3 in *; change (inject_Z 5) with 5 in *;
  change (inject_Z 10) with 10 in *.

Lemma pymin_compat (a a' b b' : Q) :
  a == a' -> b == b' -> pymin a b == pymin a' b'.
Proof. intros Ha Hb. rewrite !pymin_Qeq. now rewrite Ha, Hb. Qed.

Lemma pymax_compat (a a' b b' : Q) :
  a == a' -> b == b' -> pymax a b == pymax a' b'.
Proof. intros Ha Hb. rewrite !pymax_Qeq. now rewrite Ha, Hb. Qed.

Lemma clamp_compat (lo hi x y : Q) :
  x == y -> clamp lo hi x == clamp lo hi y.
Proof.
  intros H. unfold clamp.
  apply pymin_compat; [apply pymax_compat |]; (reflexivity || exact H).
Qed.

(** The formatting analyzer returns, with the closed form of its score
    and the suggestions in the order they are appended. *)
Lemma calculate_formatting_score_spec (resume_text : text) :
  exists s d,
    calculate_formatting_score resume_text = Ok (s, d) /\
    s == clamp 0 25
           (25 + inject_Z (sections_found resume_text) / 5 * 10
            - inject_Z (total_penalty resume_text)) /\
    section_status d =
      map (fun s => (s, has_section (lower resume_text) s))
          IMPORTANT_SECTIONS /\
    fd_suggestions d =
      map section_suggestion
        (filter (fun s => negb (has_section (lower resume_text) s))
                IMPORTANT_SECTIONS)
      ++ (if (len (split resume_text) <? 200)%Z
          then [T "Resume appears too short. Add more details about your experience."]
          else if (1500 <? len (split resume_text))%Z
          then [T "Resume may be too long. Consider condensing to 1-2 pages."]
          else [])
      ++ (if has_bullets resume_text then []
          else [T "Use bullet points to list achievements and responsibilities"]).
Proof.
  unfold calculate_formatting_score.
  rewrite section_loop, issue_loop. cbv beta iota zeta.
  rewrite truediv_ok by discriminate. cbn [bind].
  fold (has_bullets resume_text).
  assert (Hp : (fold_right Z.add 0
                    (map (issue_penalty resume_text) FORMATTING_ISSUES)
                + length_penalty resume_text + bullet_penalty resume_text)%Z
               = total_penalty resume_text).
  { unfold total_penalty, FORMATTING_ISSUES, issue_penalty.
    cbn [map fold_right fst snd]. fold tables_pattern.
    change (Z.abs (-5)) with 5%Z. change (Z.abs (-2)) with 2%Z.
    change (Z.abs (-3)) with 3%Z. lia. }
  rewrite <- Hp. unfold length_penalty, bullet_penalty, sections_found.
  cbv zeta. cbn [app].
  change (inject_Z (len IMPORTANT_SECTIONS)) with 5.
  destruct (len (split resume_text) <? 200)%Z;
    [| destruct (1500 <? len (split resume_text))%Z];
    destruct (has_bullets resume_text); cbn [negb];
    eexists _, _; (split; [reflexivity |]);
    (split; [apply clamp_compat; rewrite !inject_Z_plus; q_consts; field |]);
    (split; [reflexivity |]);
    cbn [fd_suggestions]; rewrite ?app_nil_r, <- ?app_assoc; reflexivity.
Qed.

Lemma formatting_score_bounds (resume_text : text) :
  exists s d,
    calculate_formatting_score resume_text = Ok (s, d) /\ 0 <= s /\ s <= 25.
Proof.
  destruct (calculate_formatting_score_spec resume_text)
    as (s & d & E & Hs & _).
  exists s, d. split; [exact E |]. rewrite Hs.
  apply clamp_bounds. lra.
Qed.

(** ** The skill-coverage analyzer *)

Lemma getitem_categorize (skills_lower : list text)
    (cats : list (text * list text)) (key : text) :
  getitem (map (categorize skills_lower) cats) key =
  (v <- getitem cats key ;;
   Ok {| found := filter (fun s => mem s skills_lower) v;
         count := len (filter (fun s => mem s skills_lower) v) |}).
Proof.
  induction cats as [| [k v] cats IH].
  - reflexivity.
  - cbn [map getitem]. unfold categorize at 1. cbn [fst snd].
    destruct (text_eqb k key); [reflexivity | exact IH].
Qed.

(** Both keys read by the recommendations are keys of [categories]. *)
Lemma categories_keys :
  (exists v, getitem categories (T "programming") = Ok v) /\
  (exists v, getitem categories (T "soft_skills") = Ok v).
Proof. split; eexists; vm_compute; reflexivity. Qed.

Lemma categories_with_skills_range (skills : list text) :
  (0 <= categories_with_skills skills <= 6)%Z.
Proof.
  unfold categories_with_skills. split; [apply len_nonneg |].
  etransitivity; [apply len_filter_le |].
  unfold len. rewrite length_map. cbn. lia.
Qed.

(** The skill analyzer returns: the capped share of ten skills, worth 15,
    plus the share of the six categories, worth 10, capped at 25. *)
Lemma calculate_skill_coverage_spec (skills : list text)
    (job_description : option text) :
  exists d,
    calculate_skill_coverage skills job_description =
    Ok (pymin (pymin (inject_Z (len skills) / 10) 1 * 15
               + inject_Z (categories_with_skills skills) / 6 * 10) 25, d).
Proof.
  unfold calculate_skill_coverage.
  rewrite truediv_ok by discriminate. cbn [bind].
  rewrite (@truediv_ok _ (len categories)) by discriminate. cbn [bind].
  rewrite !getitem_categorize.
  destruct categories_keys as [[v1 ->] [v2 ->]]. cbn [bind].
  eexists. reflexivity.
Qed.

Lemma skill_score_bounds (skills : list text)
    (job_description : option text) :
  exists s d,
    calculate_skill_coverage skills job_description = Ok (s, d) /\
    0 <= s /\ s <= 25.
Proof.
  destruct (calculate_skill_coverage_spec skills job_description) as [d ->].
  eexists _, d. split; [reflexivity |].
  destruct (@capped_share_bounds (len skills) 10 15) as [L U];
    [apply len_nonneg | lia | lra |].
  pose proof (categories_with_skills_range skills) as [C0 C6].
  assert (D0 : 0 <= inject_Z (categories_with_skills skills) / 6 * 10).
  { pose proof (@ratio_nonneg (categories_with_skills skills) 6 C0 eq_refl).
    q_consts. change (inject_Z 6) with 6 in H. lra. }
  q_consts.
  apply pymin_bounds; lra.
Qed.

(** ** The experience analyzer *)

Lemma metric_loop (resume_text : text) (pats : list (regex * text))
    (found : list (text * text)) (total : Z) :
  fold_left (metric_step resume_text) pats (found, total) =
  (found ++ flat_map (family_samples resume_text) pats,
   (total + sum_Z (map (family_count resume_text) pats))%Z).
Proof.
  revert found total.
  induction pats as [| [pattern ty] pats IH]; intros found total.
  - cbn. now rewrite app_nil_r, Z.add_0_r.
  - cbn [fold_left flat_map map sum_Z fold_right].
    unfold metric_step at 2, family_samples at 1, family_count at 1.
    cbn [fst snd].
    destruct (re_findall true pattern resume_text) as [| m ms] eqn:E;
      rewrite IH.
    + cbn [firstn map app]. change (len (@nil text)) with 0%Z.
      f_equal; unfold sum_Z; lia.
    + rewrite <- app_assoc. f_equal; unfold sum_Z; lia.
Qed.

Lemma scan_metrics_eq (resume_text : text) :
  scan_metrics resume_text =
  (flat_map (family_samples resume_text) metric_patterns,
   sum_Z (map (family_count resume_text) metric_patterns)).
Proof. unfold scan_metrics. now rewrite metric_loop. Qed.

(** The sample list holds, for each family, its matches up to three. *)
Lemma len_samples (resume_text : text) (pats : list (regex * text)) :
  len (flat_map (family_samples resume_text) pats) =
  sum_Z (map (fun e => Z.min 3 (family_count resume_text e)) pats).
Proof.
  induction pats as [| e pats IH].
  - reflexivity.
  - cbn [flat_map map sum_Z fold_right]. fold (sum_Z
      (map (fun e => Z.min 3 (family_count resume_text e)) pats)).
    rewrite <- IH. unfold len, family_samples, family_count, len.
    rewrite length_app, length_map, length_firstn. lia.
Qed.

Lemma count_results_nonneg (resume_text : text) :
  (0 <= count_results resume_text)%Z.
Proof.
  unfold count_results.
  assert (H : forall l acc, (0 <= acc)%Z ->
            (0 <= fold_left Z.add
                    (map (fun p => len (re_findall true p resume_text)) l)
                    acc)%Z).
  { induction l as [| p l IH]; intros acc Hacc; cbn [map fold_left].
    - exact Hacc.
    - apply IH. pose proof (len_nonneg (re_findall true p resume_text)). lia. }
  apply H. lia.
Qed.

(** The experience analyzer returns; the metrics part of its score is
    computed from the length of the sample list. *)
Lemma calculate_experience_quality_spec (resume_text : text) :
  exists d,
    calculate_experience_quality resume_text =
    Ok (pymin
          (pymin (inject_Z (len (fst (scan_metrics resume_text))) / 5) 1 * 15
           + pymin (inject_Z (count_results resume_text) / 5) 1 * 10) 25,
        d) /\
    metrics_found d = fst (scan_metrics resume_text) /\
    achievements d = snd (scan_metrics resume_text).
Proof.
  unfold calculate_experience_quality.
  destruct (scan_metrics resume_text) as [found total]. cbn [fst snd].
  rewrite !truediv_ok by discriminate. cbn [bind].
  eexists. split; [reflexivity |]. split; reflexivity.
Qed.

Lemma experience_score_bounds (resume_text : text) :
  exists s d,
    calculate_experience_quality resume_text = Ok (s, d) /\
    0 <= s /\ s <= 25.
Proof.
  destruct (calculate_experience_quality_spec resume_text) as (d & -> & _).
  eexists _, d. split; [reflexivity |].
  destruct (@capped_share_bounds (len (fst (scan_metrics resume_text))) 5 15)
    as [L U]; [apply len_nonneg | lia | lra |].
  destruct (@capped_share_bounds (count_results resume_text) 5 10)
    as [L' U']; [apply count_results_nonneg | lia | lra |].
  q_consts.
  apply pymin_bounds; lra.
Qed.

(** ** The aggregator *)

(** The aggregator returns whenever the four analyzers do, and builds its
    result from their scores. *)
Lemma calculate_ats_score_eq (resume_text : text) (skills : list text)
    (job_description : option text)
    (ks fs ss es : Q) (kd : keyword_details) (fd : formatting_details)
    (sd : skill_details) (ed : experience_details) :
  calculate_keyword_score resume_text job_description = Ok (ks, kd) ->
  calculate_formatting_score resume_text = Ok (fs, fd) ->
  calculate_skill_coverage skills job_description = Ok (ss, sd) ->
  calculate_experience_quality resume_text = Ok (es, ed) ->
  let total :=
    Z.min (Z.max (round_half_even (ks + fs + ss + es)) 0) 100 in
  calculate_ats_score resume_text skills job_description =
  Ok {| total_score := total;
        grade := fst (determine_grade total);
        grade_text := snd (determine_grade total);
        ats_breakdown :=
          {| keyword_score := round1 ks;
             formatting_score := round1 fs;
             skill_score := round1 ss;
             experience_score := round1 es |};
        details :=
          {| keywords := kd; formatting := fd;
             skills_detail := sd; experience := ed |};
        suggestions :=
          firstn 10 (fd_suggestions fd ++ recommendations sd
                     ++ ed_suggestions ed);
        missing_keywords := firstn 15 (kd_missing_keywords kd) |}.
Proof.
  intros Hk Hf Hs He total. unfold calculate_ats_score.
  rewrite Hk, Hf, Hs, He. cbn [bind]. fold total.
  destruct (determine_grade total) as [g gt]. reflexivity.
Qed.

(** C1.  For every resume text, skill list and optional job description
    the aggregator returns a result; the four analyzer scores, and the
    four sub-scores of the breakdown (each rounded to one decimal), lie
    in [0, 50], [0, 25], [0, 25] and [0, 25]; and the total score is an
    integer of [0, 100]. *)
Theorem C1_score_bounds (resume_text : text) (skills : list text)
    (job_description : option text) :
  exists ks kd fs fd ss sd es ed r,
    calculate_keyword_score resume_text job_description = Ok (ks, kd) /\
    calculate_formatting_score resume_text = Ok (fs, fd) /\
    calculate_skill_coverage skills job_description = Ok (ss, sd) /\
    calculate_experience_quality resume_text = Ok (es, ed) /\
    calculate_ats_score resume_text skills job_description = Ok r /\
    (0 <= ks /\ ks <= 50) /\ (0 <= fs /\ fs <= 25) /\
    (0 <= ss /\ ss <= 25) /\ (0 <= es /\ es <= 25) /\
    (0 <= keyword_score (ats_breakdown r)
     /\ keyword_score (ats_breakdown r) <= 50) /\
    (0 <= formatting_score (ats_breakdown r)
     /\ formatting_score (ats_breakdown r) <= 25) /\
    (0 <= skill_score (ats_breakdown r)
     /\ skill_score (ats_breakdown r) <= 25) /\
    (0 <= experience_score (ats_breakdown r)
     /\ experience_score (ats_breakdown r) <= 25) /\
    (0 <= total_score r <= 100)%Z.
Proof.
  destruct (keyword_score_bounds resume_text job_description)
    as (ks & kd & Hk & K0 & K1).
  destruct (formatting_score_bounds resume_text) as (fs & fd & Hf & F0 & F1).
  destruct (skill_score_bounds skills job_description)
    as (ss & sd & Hs & S0 & S1).
  destruct (experience_score_bounds resume_text) as (es & ed & He & E0 & E1).
  exists ks, kd, fs, fd, ss, sd, es, ed.
  eexists. split; [exact Hk |]. split; [exact Hf |].
  split; [exact Hs |]. split; [exact He |].
  split; [exact (@calculate_ats_score_eq resume_text skills job_description
                   ks fs ss es kd fd sd ed Hk Hf Hs He) |].
  cbn [ats_breakdown keyword_score formatting_score skill_score
       experience_score total_score].
  repeat match goal with |- _ /\ _ => split end;
    try assumption;
    try (apply (@round1_bounds _ 0 50); assumption);
    try (apply (@round1_bounds _ 0 25); assumption);
    lia.
Qed.

(** ** Claims about the experience analyzer *)

(** C2, as the code has it.  For every resume text the experience
    analyzer returns, and the metrics part of its score is
    min(n / 5, 1) * 15 where n is the length of the sample list
    [metrics_found]: for each of the 7 families, its matches up to three
    (so n is at most 21 and at most the accumulated [achievements]
    count, which does not enter the score). *)
Theorem C2_metrics_score_from_samples (resume_text : text) :
  exists s d,
    calculate_experience_quality resume_text = Ok (s, d) /\
    List.length metric_patterns = 7%nat /\
    metrics_found d = flat_map (family_samples resume_text) metric_patterns /\
    len (metrics_found d) =
      sum_Z (map (fun e => Z.min 3 (family_count resume_text e))
                 metric_patterns) /\
    achievements d = sum_Z (map (family_count resume_text) metric_patterns) /\
    (len (metrics_found d) <= achievements d)%Z /\
    (len (metrics_found d) <= 21)%Z /\
    s = pymin (pymin (inject_Z (len (metrics_found d)) / 5) 1 * 15
               + pymin (inject_Z (count_results resume_text) / 5) 1 * 10) 25.
Proof.
  destruct (calculate_experience_quality_spec resume_text)
    as (d & E & Hm & Ha).
  rewrite scan_metrics_eq in Hm, Ha, E. cbn [fst snd] in Hm, Ha, E.
  eexists _, d. split; [exact E |].
  split; [reflexivity |]. split; [exact Hm |].
  assert (L : len (metrics_found d) =
              sum_Z (map (fun e => Z.min 3 (family_count resume_text e))
                         metric_patterns)).
  { rewrite Hm. apply len_samples. }
  split; [exact L |]. split; [exact Ha |].
  assert (N : forall e, (0 <= family_count resume_text e)%Z)
    by (intros e; apply len_nonneg).
  split; [| split].
  - rewrite L, Ha. unfold metric_patterns. cbn [map sum_Z fold_right].
    repeat match goal with
           | |- context [family_count resume_text ?e] =>
               let H := fresh in
               pose proof (N e) as H;
               generalize dependent (family_count resume_text e); intros
           end.
    lia.
  - rewrite L. unfold metric_patterns. cbn [map sum_Z fold_right]. lia.
  - rewrite Hm. reflexivity.
Qed.

(** C2, as stated, fails: on five percentages the accumulated count is 5,
    for which the claimed formula gives 15, and the analyzer scores the
    three recorded samples, 9. *)
Lemma C2_counterexample :
  exists s d,
    calculate_experience_quality (T "10% 20% 30% 40% 50%") = Ok (s, d) /\
    achievements d = 5%Z /\
    len (metrics_found d) = 3%Z /\
    count_results (T "10% 20% 30% 40% 50%") = 0%Z /\
    s == 9 /\
    pymin (pymin (inject_Z (achievements d) / 5) 1 * 15
           + pymin (inject_Z 0 / 5) 1 * 10) 25 == 15 /\
    ~ s == pymin (pymin (inject_Z (achievements d) / 5) 1 * 15
                  + pymin (inject_Z 0 / 5) 1 * 10) 25.
Proof.
  eexists _, _. split; [vm_compute; reflexivity |].
  cbn [achievements metrics_found].
  repeat split; try (vm_compute; reflexivity).
  vm_compute. discriminate.
Qed.

(** ** Claims about the keyword analyzer *)

Lemma ACTION_VERBS_length : List.length ACTION_VERBS = 35%nat.
Proof. reflexivity. Qed.

(** C3, with the vocabulary as the code has it.  Without a job
    description the keyword score is min(found / 10, 1) * 25 + 15, where
    [found] counts the verbs of the 35-verb vocabulary that occur as whole
    words in the lower-cased resume; with exactly 3 of them the score is
    22.5. *)
Theorem C3_keyword_score_without_jd (resume_text : text) :
  exists d,
    calculate_keyword_score resume_text None =
      Ok (pymin (inject_Z (len (verbs_found resume_text)) / 10) 1 * 25 + 15,
          d) /\
    action_verbs_found d = verbs_found resume_text /\
    List.length ACTION_VERBS = 35%nat /\
    (0 <= len (verbs_found resume_text) <= 35)%Z /\
    (len (verbs_found resume_text) = 3%Z ->
     pymin (inject_Z (len (verbs_found resume_text)) / 10) 1 * 25 + 15
     == 45 # 2).
Proof.
  destruct (calculate_keyword_score_spec resume_text None)
    as (matched & missing & q & dens & Hjd & _ & _ & E).
  assert (Hn : jd_branch (lower resume_text) None = Ok ([], [], 15))
    by reflexivity.
  rewrite Hn in Hjd. injection Hjd as <- <- <-.
  eexists. split; [exact E |]. split; [reflexivity |].
  split; [exact ACTION_VERBS_length |].
  split; [apply verbs_found_range |].
  intros H. rewrite H. vm_compute. reflexivity.
Qed.

(** A resume with three action verbs: the score is 22.5. *)
Lemma C3_witness :
  len (verbs_found three_verbs_resume) = 3%Z /\
  exists d,
    calculate_keyword_score three_verbs_resume None =
      Ok (pymin (inject_Z (len (verbs_found three_verbs_resume)) / 10) 1 * 25
          + 15, d) /\
    pymin (inject_Z (len (verbs_found three_verbs_resume)) / 10) 1 * 25 + 15
    == 45 # 2.
Proof.
  assert (H3 : len (verbs_found three_verbs_resume) = 3%Z)
    by (vm_compute; reflexivity).
  split; [exact H3 |].
  destruct (C3_keyword_score_without_jd three_verbs_resume)
    as (d & E & _ & _ & _ & H).
  exists d. split; [exact E | exact (H H3)].
Defined.

(** C3, as stated, fails on the size of the vocabulary: the verbs matched
    in a resume are not counted among 34 verbs, for in this resume 35 are
    matched. *)
Lemma C3_counterexample :
  exists s d,
    calculate_keyword_score all_verbs_resume None = Ok (s, d) /\
    List.length (action_verbs_found d) = 35%nat /\
    (34 < List.length (action_verbs_found d))%nat /\
    s == 40.
Proof.
  eexists _, _. split; [vm_compute; reflexivity |].
  cbn [action_verbs_found]. split; [reflexivity |].
  split; [vm_compute; lia | vm_compute; reflexivity].
Qed.

Lemma ACTION_VERBS_NoDup : NoDup ACTION_VERBS.
Proof.
  assert (H : forall l : list text,
            (fix distinct (l : list text) : bool :=
               match l with
               | [] => true
               | x :: l' => negb (mem x l') && distinct l'
               end) l = true -> NoDup l).
  { induction l as [| x l IH]; intros H.
    - constructor.
    - apply andb_prop in H as [Hx Hl]. constructor; [| now apply IH].
      intros Hin. apply negb_true_iff in Hx.
      assert (Hm : mem x l = true).
      { unfold mem. apply existsb_exists. exists x. split; [exact Hin |].
        clear. induction x as [| c x IHx]; cbn; [reflexivity |].
        now rewrite Ascii.eqb_refl. }
      congruence. }
  apply H. vm_compute. reflexivity.
Qed.

Lemma filter_partition_length {A : Type} (f : A -> bool) (l : list A) :
  (List.length (filter f l)
   + List.length (filter (fun x => negb (f x)) l))%nat = List.length l.
Proof.
  induction l as [| x l IH]; cbn [filter]; [reflexivity |].
  destruct (f x); cbn [negb List.length]; lia.
Qed.

(** C9, with the vocabulary as the code has it.  For every resume text
    (and job description) the lists [action_verbs_found] and
    [action_verbs_missing] are the verbs of the vocabulary that pass,
    respectively fail, the whole-word test, each in the order of the
    vocabulary; every verb of the vocabulary is in exactly one of the two
    lists; and their lengths sum to 35, the size of the vocabulary. *)
Theorem C9_action_verbs_partition (resume_text : text)
    (job_description : option text) :
  exists s d,
    calculate_keyword_score resume_text job_description = Ok (s, d) /\
    action_verbs_found d =
      filter (has_verb (lower resume_text)) ACTION_VERBS /\
    action_verbs_missing d =
      filter (fun v => negb (has_verb (lower resume_text) v)) ACTION_VERBS /\
    NoDup ACTION_VERBS /\
    Forall (fun v =>
              (In v (action_verbs_found d)
               /\ ~ In v (action_verbs_missing d)) \/
              (~ In v (action_verbs_found d)
               /\ In v (action_verbs_missing d))) ACTION_VERBS /\
    (List.length (action_verbs_found d)
     + List.length (action_verbs_missing d))%nat = 35%nat.
Proof.
  destruct (calculate_keyword_score_spec resume_text job_description)
    as (matched & missing & q & dens & _ & _ & _ & E).
  eexists _, _. split; [exact E |].
  cbn [action_verbs_found action_verbs_missing].
  unfold verbs_found, verbs_missing.
  split; [reflexivity |]. split; [reflexivity |].
  split; [exact ACTION_VERBS_NoDup |]. split.
  - apply Forall_forall. intros v Hv.
    destruct (has_verb (lower resume_text) v) eqn:Hb.
    + left. split.
      * apply filter_In. now split.
      * intros Hin. apply filter_In in Hin as [_ Hn].
        rewrite Hb in Hn. discriminate.
    + right. split.
      * intros Hin. apply filter_In in Hin as [_ Hn]. congruence.
      * apply filter_In. split; [exact Hv | now rewrite Hb].
  - rewrite filter_partition_length. exact ACTION_VERBS_length.
Qed.

(** C9, as stated, fails on the sum of the lengths: for the empty resume
    no verb is found and 35 are missing, so the sum is 35 and not 34. *)
Lemma C9_counterexample :
  exists s d,
    calculate_keyword_score [] None = Ok (s, d) /\
    List.length (action_verbs_found d) = 0%nat /\
    List.length (action_verbs_missing d) = 35%nat /\
    (List.length (action_verbs_found d)
     + List.length (action_verbs_missing d))%nat <> 34%nat.
Proof.
  eexists _, _. split; [vm_compute; reflexivity |].
  cbn [action_verbs_found action_verbs_missing].
  split; [reflexivity |]. split; [reflexivity |].
  vm_compute. discriminate.
Qed.

(** ** Claims about the formatting analyzer *)

(** C5.  For every resume text the formatting analyzer returns
    clamp(25 + (sections_found / 5) * 10 - total_penalty, 0, 25), where
    the three issue categories (tables, special characters, excessive
    capitals) add min(5 * count, 10), min(2 * count, 10) and
    min(3 * count, 10) to the penalty, each between 0 and 10, before the
    length and bullet penalties are added. *)
Theorem C5_formatting_score (resume_text : text) :
  exists s d,
    calculate_formatting_score resume_text = Ok (s, d) /\
    let tables := Z.min (5 * occurrences tables_pattern resume_text) 10 in
    let special :=
      Z.min (2 * occurrences (Cls special_char) resume_text) 10 in
    let caps :=
      Z.min (3 * occurrences (AtLeast 10 (Cls is_upper)) resume_text) 10 in
    let penalty :=
      (tables + special + caps
       + length_penalty resume_text + bullet_penalty resume_text)%Z in
    s == pymin (pymax 0 (25 + inject_Z (sections_found resume_text) / 5 * 10
                         - inject_Z penalty)) 25 /\
    (0 <= sections_found resume_text <= 5)%Z /\
    (0 <= tables <= 10)%Z /\ (0 <= special <= 10)%Z /\
    (0 <= caps <= 10)%Z /\
    (0 <= tables + special + caps <= 30)%Z /\
    (0 <= s /\ s <= 25).
Proof.
  destruct (calculate_formatting_score_spec resume_text)
    as (s & d & E & Hs & _).
  exists s, d. split; [exact E |]. cbv zeta.
  split; [exact Hs |].
  split; [apply sections_found_range |].
  assert (N : forall r, (0 <= occurrences r resume_text)%Z)
    by (intros r; apply len_nonneg).
  pose proof (N tables_pattern). pose proof (N (Cls special_char)).
  pose proof (N (AtLeast 10 (Cls is_upper))).
  repeat (split; [lia |]).
  rewrite Hs. apply clamp_bounds. lra.
Qed.

(** ** Claims about the aggregator *)

(** The aggregator never raises: the analyzers return, and the result is
    built from their scores. *)
Lemma calculate_ats_score_ok (resume_text : text) (skills : list text)
    (job_description : option text) :
  exists ks kd fs fd ss sd es ed r,
    calculate_keyword_score resume_text job_description = Ok (ks, kd) /\
    calculate_formatting_score resume_text = Ok (fs, fd) /\
    calculate_skill_coverage skills job_description = Ok (ss, sd) /\
    calculate_experience_quality resume_text = Ok (es, ed) /\
    calculate_ats_score resume_text skills job_description = Ok r /\
    total_score r = Z.min (Z.max (round_half_even (ks + fs + ss + es)) 0) 100 /\
    grade r = fst (determine_grade (total_score r)) /\
    grade_text r = snd (determine_grade (total_score r)) /\
    ats_breakdown r =
      {| keyword_score := round1 ks; formatting_score := round1 fs;
         skill_score := round1 ss; experience_score := round1 es |}.
Proof.
  destruct (keyword_score_bounds resume_text job_description)
    as (ks & kd & Hk & _).
  destruct (formatting_score_bounds resume_text) as (fs & fd & Hf & _).
  destruct (skill_score_bounds skills job_description) as (ss & sd & Hs & _).
  destruct (experience_score_bounds resume_text) as (es & ed & He & _).
  exists ks, kd, fs, fd, ss, sd, es, ed. eexists.
  split; [exact Hk |]. split; [exact Hf |].
  split; [exact Hs |]. split; [exact He |].
  split; [exact (@calculate_ats_score_eq resume_text skills job_description
                   ks fs ss es kd fd sd ed Hk Hf Hs He) |].
  cbn [total_score grade grade_text ats_breakdown].
  repeat split.
Qed.

(** C4.  The grade of a result is a function of its total score alone:
    at least 85 gives A, at least 70 gives B, at least 55 gives C, at
    least 40 gives D, anything less gives F; hence a larger total score
    never has a lower grade, and the boundaries are exact (85 is an A,
    84 a B). *)
Theorem C4_grade_thresholds :
  (forall resume_text skills job_description,
     exists r,
       calculate_ats_score resume_text skills job_description = Ok r /\
       grade r = fst (determine_grade (total_score r)) /\
       grade_text r = snd (determine_grade (total_score r))) /\
  (forall s : Z,
     (85 <= s /\ determine_grade s = ("A", "Excellent"))%Z%string \/
     (70 <= s < 85 /\ determine_grade s = ("B", "Good"))%Z%string \/
     (55 <= s < 70 /\ determine_grade s = ("C", "Average"))%Z%string \/
     (40 <= s < 55
      /\ determine_grade s = ("D", "Needs Improvement"))%Z%string \/
     (s < 40 /\ determine_grade s = ("F", "Poor"))%Z%string) /\
  (forall s1 s2 : Z,
     (s1 < s2)%Z ->
     (grade_rank (fst (determine_grade s1))
      <= grade_rank (fst (determine_grade s2)))%nat) /\
  fst (determine_grade 85) = "A"%string /\
  fst (determine_grade 84) = "B"%string.
Proof.
  split; [| split; [| split; [| split; reflexivity]]].
  - intros resume_text skills job_description.
    destruct (calculate_ats_score_ok resume_text skills job_description)
      as (ks & kd & fs & fd & ss & sd & es & ed & r & _ & _ & _ & _
          & E & _ & G & GT & _).
    exists r. repeat split; assumption.
  - intros s. unfold determine_grade.
    destruct (Z.leb_spec 85 s); [left; split; [lia | reflexivity] |].
    destruct (Z.leb_spec 70 s); [right; left; split; [lia | reflexivity] |].
    destruct (Z.leb_spec 55 s);
      [right; right; left; split; [lia | reflexivity] |].
    destruct (Z.leb_spec 40 s);
      [right; right; right; left; split; [lia | reflexivity] |].
    right; right; right; right. split; [lia | reflexivity].
  - intros s1 s2 H. unfold determine_grade.
    destruct (Z.leb_spec 85 s1), (Z.leb_spec 70 s1), (Z.leb_spec 55 s1),
      (Z.leb_spec 40 s1), (Z.leb_spec 85 s2), (Z.leb_spec 70 s2),
      (Z.leb_spec 55 s2), (Z.leb_spec 40 s2);
      try lia; vm_compute; lia.
Qed.

(** Scores 84 and 85: a B, then an A. *)
Lemma C4_witness :
  (84 < 85)%Z /\
  (grade_rank (fst (determine_grade 84))
   <= grade_rank (fst (determine_grade 85)))%nat.
Proof.
  split; [reflexivity |].
  exact (proj1 (proj2 (proj2 C4_grade_thresholds)) 84%Z 85%Z eq_refl).
Defined.

(** *** The empty resume *)

Lemma filter_mem_nil (l : list text) : filter (fun w => mem w []) l = [].
Proof. induction l as [| w l IH]; [reflexivity | exact IH]. Qed.

(** Against the empty resume no keyword of a job description matches. *)
Lemma jd_branch_empty_resume (job_description : option text) :
  exists matched missing q,
    jd_branch [] job_description = Ok (matched, missing, q) /\
    q == match job_description with
         | Some (_ :: _) => 0
         | _ => 15
         end.
Proof.
  unfold jd_branch. destruct job_description as [[| c jd] |];
    cbv beta iota zeta.
  - eexists _, _, _. split; reflexivity.
  - assert (Hr : to_set (re_findall false WORD3 []) = []) by reflexivity.
    rewrite Hr, filter_mem_nil.
    destruct (filter (fun w => negb (mem w keyword_common_words))
                (to_set (re_findall false WORD3 (lower (c :: jd)))))
      as [| w ws] eqn:E.
    + eexists _, _, _. split; reflexivity.
    + rewrite truediv_ok by (unfold len; cbn [List.length]; lia).
      cbn [bind]. eexists _, _, _. split; [reflexivity |].
      change (len (@nil text)) with 0%Z. unfold Qdiv.
      change (inject_Z 0) with 0. now rewrite !Qmult_0_l.
  - eexists _, _, _. split; reflexivity.
Qed.

(** C6.  With the empty resume and the empty skill list the aggregator
    returns a result, whatever the job description: the skill score is 0,
    the formatting suggestions are the five missing-section suggestions,
    the short-resume suggestion and the bullet-point suggestion (the first
    seven of the result's suggestions), the total score is the integer 33
    without a job description (or with an empty one) and 18 with one,
    and the grade is F. *)
Theorem C6_degenerate_input (job_description : option text) :
  exists r,
    calculate_ats_score [] [] job_description = Ok r /\
    skill_score (ats_breakdown r) == 0 /\
    fd_suggestions (formatting (details r)) = empty_resume_suggestions /\
    firstn 7 (suggestions r) = empty_resume_suggestions /\
    total_score r = match job_description with
                    | Some (_ :: _) => 18%Z
                    | _ => 33%Z
                    end /\
    (0 <= total_score r)%Z /\
    grade r = "F"%string /\
    grade_text r = "Poor"%string.
Proof.
  destruct (calculate_keyword_score_spec [] job_description)
    as (matched & missing & q & dens & Hjd & _ & _ & Ek).
  change (lower []) with (@nil ascii) in Hjd.
  destruct (jd_branch_empty_resume job_description)
    as (matched' & missing' & q' & Hjd' & Hq).
  rewrite Hjd' in Hjd. injection Hjd as <- <- <-.
  assert (Hv : pymin (inject_Z (len (verbs_found [])) / 10) 1 * 25 == 0)
    by (vm_compute; reflexivity).
  destruct (calculate_formatting_score []) as [[fs fd] | e] eqn:Ef;
    [| vm_compute in Ef; discriminate].
  pose proof Ef as Ef'. vm_compute in Ef'. injection Ef' as Hfs Hfd.
  destruct (calculate_skill_coverage [] job_description)
    as [[ss sd] | e] eqn:Es; [| vm_compute in Es; discriminate].
  pose proof Es as Es'. vm_compute in Es'. injection Es' as Hss Hsd.
  destruct (calculate_experience_quality []) as [[es ed] | e] eqn:Ee;
    [| vm_compute in Ee; discriminate].
  pose proof Ee as Ee'. vm_compute in Ee'. injection Ee' as Hes Hed.
  pose proof (@calculate_ats_score_eq [] [] job_description _ _ _ _ _ _ _ _
                Ek Ef Es Ee) as E.
  subst fs fd ss sd es ed.
  cbv zeta in E. eexists. split; [exact E |].
  cbn [ats_breakdown skill_score details formatting fd_suggestions
       suggestions total_score grade grade_text recommendations
       ed_suggestions].
  split; [vm_compute; reflexivity |].
  split; [vm_compute; reflexivity |].
  split; [vm_compute; reflexivity |].
  match goal with
  | |- context [round_half_even ?x] =>
      assert (Hr : round_half_even x =
                   match job_description with
                   | Some (_ :: _) => 18%Z
                   | _ => 33%Z
                   end)
  end.
  { destruct job_description as [[| c jd] |].
    - apply Z.le_antisymm;
        apply (@round_half_even_bounds _ 33 33); rewrite Hv, Hq; vm_compute;
        discriminate.
    - apply Z.le_antisymm;
        apply (@round_half_even_bounds _ 18 18); rewrite Hv, Hq; vm_compute;
        discriminate.
    - apply Z.le_antisymm;
        apply (@round_half_even_bounds _ 33 33); rewrite Hv, Hq; vm_compute;
        discriminate. }
  rewrite Hr.
  destruct job_description as [[| c jd] |]; repeat split; try reflexivity;
    vm_compute; discriminate.
Qed.

(** ** Claims about the job matcher *)

(** The matcher never raises, and these are its local variables. *)
Lemma job_match_locals_ok (resume_text : text) (resume_skills : list text)
    (job_description : text) :
  let imp := important_keywords_of (lower job_description) in
  let matched :=
    filter (fun keyword => contains keyword (lower resume_text)) imp in
  let jds := jd_skills_of (lower job_description) in
  let mskills := filter (fun s => in_any s (map lower resume_skills)) jds in
  exists l,
    job_match_locals resume_text resume_skills job_description = Ok l /\
    important_keywords l = imp /\
    l_matched_keywords l = matched /\
    jd_skills l = jds /\
    l_matched_skills l = mskills /\
    l_keyword_match l =
      inject_Z (len matched) / inject_Z (Z.max (len imp) 1) * 100 /\
    l_skill_match l =
      match jds with
      | _ :: _ => inject_Z (len mskills) / inject_Z (Z.max (len jds) 1) * 100
      | [] => 50
      end /\
    l_overall_match l = combine_match (l_keyword_match l) (l_skill_match l).
Proof.
  intros imp matched jds mskills.
  unfold job_match_locals. cbv zeta.
  fold imp. fold matched. fold jds. fold mskills.
  rewrite truediv_ok by lia. cbn [bind].
  destruct jds as [| j js] eqn:E.
  - cbn [bind]. eexists. split; [reflexivity |]. cbn. repeat split.
  - rewrite truediv_ok by lia. cbn [bind].
    eexists. split; [reflexivity |]. cbn. repeat split.
Qed.

Lemma calculate_job_match_eq (resume_text : text)
    (resume_skills : list text) (job_description : text) (l : match_locals) :
  job_match_locals resume_text resume_skills job_description = Ok l ->
  calculate_job_match resume_text resume_skills job_description =
  Ok {| overall_match := round1 (l_overall_match l);
        match_level := fst (determine_level (l_overall_match l));
        keyword_match := round1 (l_keyword_match l);
        skill_match := round1 (l_skill_match l);
        matched_keywords := firstn 15 (l_matched_keywords l);
        mr_missing_keywords := firstn 15 (l_missing_keywords l);
        matched_skills := l_matched_skills l;
        missing_skills := firstn 10 (l_missing_skills l);
        recommendation := snd (determine_level (l_overall_match l)) |}.
Proof.
  intros H. unfold calculate_job_match. rewrite H. cbn [bind].
  destruct (determine_level (l_overall_match l)). reflexivity.
Qed.

Lemma Qle_bool_false (a b : Q) : Qle_bool a b = false -> b < a.
Proof.
  intros H. apply Qnot_le_lt. intros L. apply Qle_bool_iff in L. congruence.
Qed.

(** The tier and its sentence, by the thresholds 75, 50 and 30. *)
Lemma determine_level_cases (o : Q) :
  (75 <= o /\
   determine_level o =
   ("Strong Match",
    "Your resume is well-aligned with this position. Consider applying!")%string)
  \/
  (50 <= o /\ o < 75 /\
   determine_level o =
   ("Moderate Match",
    "You have relevant experience. Tailor your resume to highlight matching skills.")%string)
  \/
  (30 <= o /\ o < 50 /\
   determine_level o =
   ("Partial Match",
    "Some skills align. Focus on transferable skills and consider upskilling.")%string)
  \/
  (o < 30 /\
   determine_level o =
   ("Low Match",
    "This role may require significant skill development. Consider related positions.")%string).
Proof.
  unfold determine_level.
  destruct (Qle_bool 75 o) eqn:E75.
  { left. split; [now apply Qle_bool_iff | reflexivity]. }
  apply Qle_bool_false in E75.
  destruct (Qle_bool 50 o) eqn:E50.
  { right; left. split; [now apply Qle_bool_iff |]. split; [exact E75 |].
    reflexivity. }
  apply Qle_bool_false in E50.
  destruct (Qle_bool 30 o) eqn:E30.
  { right; right; left. split; [now apply Qle_bool_iff |].
    split; [exact E50 | reflexivity]. }
  apply Qle_bool_false in E30.
  right; right; right. split; [exact E30 | reflexivity].
Qed.

(** *** The matcher in binary64 *)

Lemma F64_truediv_ok (a b : Z) :
  b <> 0%Z ->
  F64.truediv a b
  = Ok (SpecFloat.SFdiv F64.prec F64.emax (F64.exact a) (F64.exact b)).
Proof.
  intros H. unfold F64.truediv.
  destruct (Z.eqb_spec b 0); [contradiction | reflexivity].
Qed.

(** The matcher returns, and the overall match is the weighted sum of
    the two percentages it has computed. *)
Lemma F64_job_match_locals_returns (resume_text : text)
    (resume_skills : list text) (job_description : text) :
  exists l,
    F64.job_match_locals resume_text resume_skills job_description = Ok l /\
    F64.l_overall_match l
    = F64.combine_match (F64.l_keyword_match l) (F64.l_skill_match l).
Proof.
  unfold F64.job_match_locals. cbv zeta.
  rewrite F64_truediv_ok by lia. cbn [bind].
  destruct (jd_skills_of (lower job_description)) as [| j js] eqn:E.
  - cbn [bind]. eexists. split; reflexivity.
  - rewrite F64_truediv_ok by lia. cbn [bind].
    eexists. split; reflexivity.
Qed.

Lemma F64_calculate_job_match_eq (resume_text : text)
    (resume_skills : list text) (job_description : text)
    (l : F64.match_locals) :
  F64.job_match_locals resume_text resume_skills job_description = Ok l ->
  F64.calculate_job_match resume_text resume_skills job_description =
  Ok {| F64.overall_match := F64.round1 (F64.l_overall_match l);
        F64.match_level := fst (F64.determine_level (F64.l_overall_match l));
        F64.keyword_match := F64.round1 (F64.l_keyword_match l);
        F64.skill_match := F64.round1 (F64.l_skill_match l);
        F64.matched_keywords := firstn 15 (F64.l_matched_keywords l);
        F64.mr_missing_keywords := firstn 15 (F64.l_missing_keywords l);
        F64.matched_skills := F64.l_matched_skills l;
        F64.missing_skills := firstn 10 (F64.l_missing_skills l);
        F64.recommendation :=
          snd (F64.determine_level (F64.l_overall_match l)) |}.
Proof.
  intros H. unfold F64.calculate_job_match. rewrite H. cbn [bind].
  destruct (F64.determine_level (F64.l_overall_match l)). reflexivity.
Qed.

(** The tier and its sentence, by the tests on 75, 50 and 30 in the
    order of the code. *)
Lemma F64_determine_level_cases (o : F64.float) :
  (F64.le (F64.of_int 75) o = true /\
   F64.determine_level o =
   ("Strong Match",
    "Your resume is well-aligned with this position. Consider applying!")%string)
  \/
  (F64.le (F64.of_int 75) o = false /\ F64.le (F64.of_int 50) o = true /\
   F64.determine_level o =
   ("Moderate Match",
    "You have relevant experience. Tailor your resume to highlight matching skills.")%string)
  \/
  (F64.le (F64.of_int 50) o = false /\ F64.le (F64.of_int 30) o = true /\
   F64.determine_level o =
   ("Partial Match",
    "Some skills align. Focus on transferable skills and consider upskilling.")%string)
  \/
  (F64.le (F64.of_int 30) o = false /\
   F64.determine_level o =
   ("Low Match",
    "This role may require significant skill development. Consider related positions.")%string).
Proof.
  unfold F64.determine_level.
  destruct (F64.le (F64.of_int 75) o) eqn:E75; [left; now split |].
  destruct (F64.le (F64.of_int 50) o) eqn:E50; [right; left; now split |].
  destruct (F64.le (F64.of_int 30) o) eqn:E30;
    [right; right; left; now split |].
  right; right; right. now split.
Qed.

(** C7.  In the arithmetic of the interpreter: for every resume text,
    skill list and job description the matcher returns; [overall_match]
    is the float keyword_match * 0.6 + skill_match * 0.4 rounded to one
    decimal, 0.6 and 0.4 being the floats nearest to 6/10 and 4/10; the
    tier, tested on the float before that rounding, is Strong Match from
    75, Moderate Match from 50, Partial Match from 30 and Low Match
    below, each with its sentence.  With keyword_match = 100 and
    skill_match = 0 the overall match is 60.0 and the tier is Moderate
    Match, as for a resume that has the keywords and not the skill.
    Because the test is on the float before rounding, a resume with one
    keyword of three and one skill of four has the float just below 30:
    it is reported with overall_match 30.0 and Low Match. *)
Theorem C7_overall_match_and_tier :
  (forall resume_text resume_skills job_description,
     exists l r,
       F64.job_match_locals resume_text resume_skills job_description
         = Ok l /\
       F64.calculate_job_match resume_text resume_skills job_description
         = Ok r /\
       F64.l_overall_match l
         = F64.add (F64.mul (F64.l_keyword_match l) F64.lit_0_6)
                   (F64.mul (F64.l_skill_match l) F64.lit_0_4) /\
       F64.overall_match r = F64.round1 (F64.l_overall_match l) /\
       F64.keyword_match r = F64.round1 (F64.l_keyword_match l) /\
       F64.skill_match r = F64.round1 (F64.l_skill_match l) /\
       ((F64.le (F64.of_int 75) (F64.l_overall_match l) = true /\
         F64.match_level r = "Strong Match"%string /\
         F64.recommendation r =
         "Your resume is well-aligned with this position. Consider applying!"%string)
        \/
        (F64.le (F64.of_int 75) (F64.l_overall_match l) = false /\
         F64.le (F64.of_int 50) (F64.l_overall_match l) = true /\
         F64.match_level r = "Moderate Match"%string /\
         F64.recommendation r =
         "You have relevant experience. Tailor your resume to highlight matching skills."%string)
        \/
        (F64.le (F64.of_int 50) (F64.l_overall_match l) = false /\
         F64.le (F64.of_int 30) (F64.l_overall_match l) = true /\
         F64.match_level r = "Partial Match"%string /\
         F64.recommendation r =
         "Some skills align. Focus on transferable skills and consider upskilling."%string)
        \/
        (F64.le (F64.of_int 30) (F64.l_overall_match l) = false /\
         F64.match_level r = "Low Match"%string /\
         F64.recommendation r =
         "This role may require significant skill development. Consider related positions."%string)))
  /\
  (F64.truediv 6 10 = Ok F64.lit_0_6 /\ F64.truediv 4 10 = Ok F64.lit_0_4)
  /\
  (F64.combine_match (F64.of_int 100) (F64.of_int 0) = F64.of_int 60 /\
   F64.round1 (F64.combine_match (F64.of_int 100) (F64.of_int 0))
   = F64.of_int 60 /\
   fst (F64.determine_level
          (F64.combine_match (F64.of_int 100) (F64.of_int 0)))
   = "Moderate Match"%string)
  /\
  (exists l r,
     F64.job_match_locals keywords_only_resume [] keywords_only_jd = Ok l /\
     F64.calculate_job_match keywords_only_resume [] keywords_only_jd
       = Ok r /\
     F64.l_keyword_match l = F64.of_int 100 /\
     F64.l_skill_match l = F64.of_int 0 /\
     F64.overall_match r = F64.of_int 60 /\
     F64.match_level r = "Moderate Match"%string)
  /\
  (exists l r,
     F64.job_match_locals one_third_resume one_third_skills one_third_jd
       = Ok l /\
     F64.calculate_job_match one_third_resume one_third_skills one_third_jd
       = Ok r /\
     F64.value (F64.l_overall_match l) < 30 /\
     F64.le (F64.of_int 30) (F64.l_overall_match l) = false /\
     F64.overall_match r = F64.of_int 30 /\
     F64.match_level r = "Low Match"%string).
Proof.
  split; [| split; [| split; [| split]]].
  - intros resume_text resume_skills job_description.
    destruct (F64_job_match_locals_returns resume_text resume_skills
                job_description) as (l & El & Ho).
    exists l. eexists. split; [exact El |].
    split; [exact (F64_calculate_job_match_eq _ _ _ El) |].
    cbn [F64.overall_match F64.keyword_match F64.skill_match
         F64.match_level F64.recommendation].
    split; [exact Ho |]. repeat (split; [reflexivity |]).
    destruct (F64_determine_level_cases (F64.l_overall_match l))
      as [[H1 ->] | [[H1 [H2 ->]] | [[H1 [H2 ->]] | [H1 ->]]]];
      cbn [fst snd]; tauto.
  - split; vm_compute; reflexivity.
  - repeat split; vm_compute; reflexivity.
  - eexists _, _. split; [vm_compute; reflexivity |].
    split; [vm_compute; reflexivity |].
    cbn [F64.l_keyword_match F64.l_skill_match F64.overall_match
         F64.match_level].
    repeat split; vm_compute; reflexivity.
  - eexists _, _. split; [vm_compute; reflexivity |].
    split; [vm_compute; reflexivity |].
    cbn [F64.l_overall_match F64.overall_match F64.match_level].
    repeat split; vm_compute; reflexivity.
Qed.

(** C8.  The matcher never divides by zero.  For every resume text,
    skill list and job description it returns; [keyword_match] is
    |matched_keywords| / max(|important_keywords|, 1) * 100, with a
    positive denominator; [skill_match] is the constant 50 when no skill
    indicator occurs in the job description, and
    |matched_skills| / |jd_skills| * 100 otherwise.  For the empty job
    description [keyword_match] is 0 and [skill_match] is 50. *)
Theorem C8_job_match_no_zero_division :
  (forall resume_text resume_skills job_description,
     exists l r,
       job_match_locals resume_text resume_skills job_description = Ok l /\
       calculate_job_match resume_text resume_skills job_description = Ok r /\
       important_keywords l = important_keywords_of (lower job_description) /\
       jd_skills l = jd_skills_of (lower job_description) /\
       (0 < Z.max (len (important_keywords l)) 1)%Z /\
       l_keyword_match l =
         inject_Z (len (l_matched_keywords l))
         / inject_Z (Z.max (len (important_keywords l)) 1) * 100 /\
       ((jd_skills l = [] /\ l_skill_match l = 50) \/
        ((0 < len (jd_skills l))%Z /\
         l_skill_match l =
           inject_Z (len (l_matched_skills l))
           / inject_Z (len (jd_skills l)) * 100)))
  /\
  (forall resume_text resume_skills,
     exists l r,
       job_match_locals resume_text resume_skills [] = Ok l /\
       calculate_job_match resume_text resume_skills [] = Ok r /\
       important_keywords l = [] /\ jd_skills l = [] /\
       l_keyword_match l == 0 /\ l_skill_match l = 50 /\
       keyword_match r == 0 /\ skill_match r == 50).
Proof.
  split.
  - intros resume_text resume_skills job_description.
    destruct (job_match_locals_ok resume_text resume_skills job_description)
      as (l & El & Hi & Hm & Hj & Hs & Hk & Hsm & _).
    exists l. eexists. split; [exact El |].
    split; [exact (calculate_job_match_eq _ _ _ El) |].
    split; [exact Hi |]. split; [exact Hj |]. split; [lia |].
    split; [rewrite Hk, Hm, Hi; reflexivity |].
    rewrite Hsm, Hj, Hs.
    destruct (jd_skills_of (lower job_description)) as [| j js] eqn:E.
    + left. split; reflexivity.
    + right.
      assert (Hpos : (0 < len (j :: js))%Z)
        by (unfold len; cbn [List.length]; lia).
      split; [exact Hpos |]. rewrite Z.max_l by lia. reflexivity.
  - intros resume_text resume_skills.
    destruct (job_match_locals_ok resume_text resume_skills [])
      as (l & El & Hi & Hm & Hj & Hs & Hk & Hsm & _).
    change (important_keywords_of (lower [])) with (@nil text) in Hi, Hm, Hk.
    change (jd_skills_of (lower [])) with (@nil text) in Hj, Hs, Hsm.
    cbn [filter] in Hk.
    exists l. eexists. split; [exact El |].
    split; [exact (calculate_job_match_eq _ _ _ El) |].
    cbn [keyword_match skill_match].
    split; [exact Hi |]. split; [exact Hj |].
    rewrite Hk, Hsm.
    repeat split; vm_compute; reflexivity.
Qed.

(** ** Rounding in the aggregator *)

(** *** The analyzers in binary64 *)

Lemma F64_jd_branch_returns (resume_lower : text)
    (job_description : option text) :
  exists matched missing q,
    F64.jd_branch resume_lower job_description = Ok (matched, missing, q).
Proof.
  unfold F64.jd_branch. destruct job_description as [[| c jd] |];
    cbv beta iota zeta.
  - eexists _, _, _. reflexivity.
  - set (jd_words := filter (fun w => negb (mem w keyword_common_words))
                        (to_set (re_findall false WORD3 (lower (c :: jd))))).
    destruct jd_words as [| w ws] eqn:E.
    + eexists _, _, _. reflexivity.
    + rewrite F64_truediv_ok by (unfold len; cbn [List.length]; lia).
      cbn [bind]. eexists _, _, _. reflexivity.
  - eexists _, _, _. reflexivity.
Qed.

Lemma F64_density_returns (resume_text : text) :
  exists d, F64.density resume_text = Ok d.
Proof.
  unfold F64.density. destruct (split resume_text) as [| w ws] eqn:E.
  - eexists. reflexivity.
  - rewrite F64_truediv_ok by (unfold len; cbn [List.length]; lia).
    cbn [bind]. eexists. reflexivity.
Qed.

Lemma F64_keyword_score_returns (resume_text : text)
    (job_description : option text) :
  exists s d,
    F64.calculate_keyword_score resume_text job_description = Ok (s, d).
Proof.
  destruct (F64_jd_branch_returns (lower resume_text) job_description)
    as (matched & missing & q & Hjd).
  destruct (F64_density_returns resume_text) as [dens Hd].
  unfold F64.calculate_keyword_score. cbv zeta.
  rewrite F64_truediv_ok by discriminate. cbn [bind].
  rewrite Hjd. cbn [bind]. rewrite Hd. cbn [bind].
  eexists _, _. reflexivity.
Qed.

Lemma F64_formatting_score_returns (resume_text : text) :
  exists s d, F64.calculate_formatting_score resume_text = Ok (s, d).
Proof.
  unfold F64.calculate_formatting_score.
  rewrite section_loop, issue_loop. cbv beta iota zeta.
  rewrite F64_truediv_ok by discriminate. cbn [bind].
  destruct (len (split resume_text) <? 200)%Z;
    [| destruct (1500 <? len (split resume_text))%Z];
    destruct (negb _); eexists _, _; reflexivity.
Qed.

Lemma F64_skill_coverage_returns (skills : list text)
    (job_description : option text) :
  exists s d,
    F64.calculate_skill_coverage skills job_description = Ok (s, d).
Proof.
  unfold F64.calculate_skill_coverage.
  rewrite F64_truediv_ok by discriminate. cbn [bind].
  rewrite (@F64_truediv_ok _ (len categories)) by discriminate. cbn [bind].
  rewrite !getitem_categorize.
  destruct categories_keys as [[v1 ->] [v2 ->]]. cbn [bind].
  eexists _, _. reflexivity.
Qed.

Lemma F64_experience_quality_returns (resume_text : text) :
  exists s d, F64.calculate_experience_quality resume_text = Ok (s, d).
Proof.
  unfold F64.calculate_experience_quality.
  destruct (scan_metrics resume_text) as [found total].
  rewrite !F64_truediv_ok by discriminate. cbn [bind].
  eexists _, _. reflexivity.
Qed.

Lemma F64_calculate_ats_score_eq (resume_text : text) (skills : list text)
    (job_description : option text)
    (ks fs ss es : F64.float) (kd : F64.keyword_details)
    (fd : formatting_details) (sd : skill_details)
    (ed : experience_details) :
  F64.calculate_keyword_score resume_text job_description = Ok (ks, kd) ->
  F64.calculate_formatting_score resume_text = Ok (fs, fd) ->
  F64.calculate_skill_coverage skills job_description = Ok (ss, sd) ->
  F64.calculate_experience_quality resume_text = Ok (es, ed) ->
  let total :=
    Z.min (Z.max (F64.round (F64.add (F64.add (F64.add ks fs) ss) es)) 0)
          100 in
  F64.calculate_ats_score resume_text skills job_description =
  Ok {| F64.total_score := total;
        F64.grade := fst (determine_grade total);
        F64.grade_text := snd (determine_grade total);
        F64.ats_breakdown :=
          {| F64.keyword_score := F64.round1 ks;
             F64.formatting_score := F64.round1 fs;
             F64.skill_score := F64.round1 ss;
             F64.experience_score := F64.round1 es |};
        F64.details :=
          {| F64.keywords := kd; F64.formatting := fd;
             F64.skills_detail := sd; F64.experience := ed |};
        F64.suggestions :=
          firstn 10 (fd_suggestions fd ++ recommendations sd
                     ++ ed_suggestions ed);
        F64.missing_keywords := firstn 15 (F64.kd_missing_keywords kd) |}.
Proof.
  intros Hk Hf Hs He total. unfold F64.calculate_ats_score.
  rewrite Hk, Hf, Hs, He. cbn [bind]. fold total.
  destruct (determine_grade total). reflexivity.
Qed.

(** C10.  In the arithmetic of the interpreter: the total score is the
    rounded and clamped sum of the four analyzer scores as the analyzers
    return them, added from left to right, while the breakdown holds
    each score rounded to one decimal; so the total can differ from the
    rounded sum of the breakdown.  For a resume with two of the eleven
    keywords of a job description the total is 23, and the breakdown
    4.5, 18.0, 0.0, 0.0 sums to 22.5, which rounds to 22.  The sum is a
    sum of floats: for a resume whose scores are 25/3, 25, 37/6 and 0 it
    is just below 39.5, and the total is 39 with grade F, where exact
    arithmetic gives 39.5 and the total 40. *)
Theorem C10_total_from_unrounded_scores :
  (forall resume_text skills job_description,
     exists ks kd fs fd ss sd es ed r,
       F64.calculate_keyword_score resume_text job_description
         = Ok (ks, kd) /\
       F64.calculate_formatting_score resume_text = Ok (fs, fd) /\
       F64.calculate_skill_coverage skills job_description = Ok (ss, sd) /\
       F64.calculate_experience_quality resume_text = Ok (es, ed) /\
       F64.calculate_ats_score resume_text skills job_description = Ok r /\
       F64.total_score r =
         Z.min
           (Z.max (F64.round (F64.add (F64.add (F64.add ks fs) ss) es)) 0)
           100 /\
       F64.keyword_score (F64.ats_breakdown r) = F64.round1 ks /\
       F64.formatting_score (F64.ats_breakdown r) = F64.round1 fs /\
       F64.skill_score (F64.ats_breakdown r) = F64.round1 ss /\
       F64.experience_score (F64.ats_breakdown r) = F64.round1 es)
  /\
  (exists r,
     F64.calculate_ats_score two_of_eleven_resume []
       (Some two_of_eleven_jd) = Ok r /\
     F64.total_score r = 23%Z /\
     F64.value (F64.keyword_score (F64.ats_breakdown r)) == 45 # 10 /\
     F64.value (F64.formatting_score (F64.ats_breakdown r)) == 18 /\
     F64.value (F64.skill_score (F64.ats_breakdown r)) == 0 /\
     F64.value (F64.experience_score (F64.ats_breakdown r)) == 0 /\
     F64.value (breakdown_sum64 (F64.ats_breakdown r)) == 225 # 10 /\
     F64.round (breakdown_sum64 (F64.ats_breakdown r)) = 22%Z /\
     F64.total_score r <> F64.round (breakdown_sum64 (F64.ats_breakdown r)) /\
     F64.total_score r <>
       Z.min
         (Z.max (F64.round (breakdown_sum64 (F64.ats_breakdown r))) 0) 100)
  /\
  (exists ks kd fs fd ss sd es ed r r',
     F64.calculate_keyword_score half_point_resume (Some half_point_jd)
       = Ok (ks, kd) /\
     F64.calculate_formatting_score half_point_resume = Ok (fs, fd) /\
     F64.calculate_skill_coverage half_point_skills (Some half_point_jd)
       = Ok (ss, sd) /\
     F64.calculate_experience_quality half_point_resume = Ok (es, ed) /\
     F64.calculate_ats_score half_point_resume half_point_skills
       (Some half_point_jd) = Ok r /\
     F64.value (F64.add (F64.add (F64.add ks fs) ss) es) < 79 # 2 /\
     F64.total_score r = 39%Z /\ F64.grade r = "F"%string /\
     calculate_ats_score half_point_resume half_point_skills
       (Some half_point_jd) = Ok r' /\
     total_score r' = 40%Z).
Proof.
  split; [| split].
  - intros resume_text skills job_description.
    destruct (F64_keyword_score_returns resume_text job_description)
      as (ks & kd & Hk).
    destruct (F64_formatting_score_returns resume_text) as (fs & fd & Hf).
    destruct (F64_skill_coverage_returns skills job_description)
      as (ss & sd & Hs).
    destruct (F64_experience_quality_returns resume_text) as (es & ed & He).
    exists ks, kd, fs, fd, ss, sd, es, ed. eexists.
    split; [exact Hk |]. split; [exact Hf |].
    split; [exact Hs |]. split; [exact He |].
    split; [exact (@F64_calculate_ats_score_eq resume_text skills
                     job_description ks fs ss es kd fd sd ed Hk Hf Hs He) |].
    cbn [F64.total_score F64.ats_breakdown F64.keyword_score
         F64.formatting_score F64.skill_score F64.experience_score].
    repeat split.
  - eexists. split; [vm_compute; reflexivity |].
    cbn [F64.total_score F64.ats_breakdown].
    repeat split; vm_compute; (reflexivity || discriminate).
  - eexists _, _, _, _, _, _, _, _, _, _.
    split; [vm_compute; reflexivity |].
    split; [vm_compute; reflexivity |].
    split; [vm_compute; reflexivity |].
    split; [vm_compute; reflexivity |].
    split; [vm_compute; reflexivity |].
    split; [vm_compute; reflexivity |].
    cbn [F64.total_score F64.grade].
    split; [vm_compute; reflexivity |].
    split; [vm_compute; reflexivity |].
    split; vm_compute; reflexivity.
Qed.

(** The analyzer scores can sum to more than 100 before the clamp:
    here 50 + 25 + 25 + 25. *)
Lemma unclamped_sum_exceeds_100 :
  exists ks kd fs fd ss sd es ed r,
    calculate_keyword_score full_marks_resume (Some (T "achieved built"))
      = Ok (ks, kd) /\
    calculate_formatting_score full_marks_resume = Ok (fs, fd) /\
    calculate_skill_coverage full_marks_skills (Some (T "achieved built"))
      = Ok (ss, sd) /\
    calculate_experience_quality full_marks_resume = Ok (es, ed) /\
    calculate_ats_score full_marks_resume full_marks_skills
      (Some (T "achieved built")) = Ok r /\
    ks + fs + ss + es == 125 /\
    total_score r = 100%Z /\ grade r = "A"%string.
Proof.
  eexists _, _, _, _, _, _, _, _, _.
  split; [vm_compute; reflexivity |].
  split; [vm_compute; reflexivity |].
  split; [vm_compute; reflexivity |].
  split; [vm_compute; reflexivity |].
  split; [vm_compute; reflexivity |].
  cbn [total_score grade].
  split; [vm_compute; reflexivity |].
  split; vm_compute; reflexivity.
Qed.

(** * Further properties of the scorer *)

(** ** Strings and lists *)

Lemma text_eqb_eq (a b : text) : text_eqb a b = true <-> a = b.
Proof.
  revert b. induction a as [| x a IH]; intros [| y b]; cbn [text_eqb].
  - tauto.
  - split; discriminate.
  - split; discriminate.
  - rewrite andb_true_iff, Ascii.eqb_eq, IH. split.
    + intros [-> ->]. reflexivity.
    + intros H. injection H as -> ->. tauto.
Qed.

Lemma mem_In (x : text) (l : list text) : mem x l = true <-> In x l.
Proof.
  unfold mem. rewrite existsb_exists. split.
  - intros (y & Hy & E). apply text_eqb_eq in E. now subst.
  - intros H. exists x. split; [exact H | now apply text_eqb_eq].
Qed.

Lemma lower_char_idempotent (c : ascii) :
  lower_char (lower_char c) = lower_char c.
Proof. destruct c as [[] [] [] [] [] [] [] []]; reflexivity. Qed.

Lemma is_space_lower_char (c : ascii) : is_space (lower_char c) = is_space c.
Proof. destruct c as [[] [] [] [] [] [] [] []]; reflexivity. Qed.

Lemma lower_idempotent (s : text) : lower (lower s) = lower s.
Proof.
  unfold lower. rewrite map_map. apply map_ext. exact lower_char_idempotent.
Qed.

Lemma lower_length (s : text) : List.length (lower s) = List.length s.
Proof. apply length_map. Qed.

Lemma rev_lower (s : text) : rev (lower s) = lower (rev s).
Proof. unfold lower. symmetry. apply map_rev. Qed.

(** Lower-casing a text lower-cases its words and keeps their number. *)
Lemma split_from_lower (cur s : text) :
  split_from (lower cur) (lower s) = map lower (split_from cur s).
Proof.
  revert cur. induction s as [| c s IH]; intros cur.
  - destruct cur as [| x cur]; [reflexivity |].
    change (split_from (lower (x :: cur)) (lower []))
      with [rev (lower (x :: cur))].
    change (split_from (x :: cur) []) with [rev (x :: cur)].
    now rewrite rev_lower.
  - change (lower (c :: s)) with (lower_char c :: lower s).
    cbn [split_from]. rewrite is_space_lower_char.
    destruct (is_space c).
    + destruct cur as [| x cur].
      * apply (IH []).
      * change (lower (x :: cur)) with (lower_char x :: lower cur).
        cbv beta iota.
        change (lower_char x :: lower cur) with (lower (x :: cur)).
        rewrite rev_lower. cbn [map]. f_equal. apply (IH []).
    + apply (IH (c :: cur)).
Qed.

Lemma split_lower (s : text) : split (lower s) = map lower (split s).
Proof. exact (split_from_lower [] s). Qed.

Lemma firstn_app_within {A : Type} (n : nat) (l1 l2 : list A) :
  (List.length l1 <= n)%nat ->
  firstn n (l1 ++ l2) = l1 ++ firstn (n - List.length l1) l2.
Proof.
  intros H. rewrite firstn_app. f_equal. now apply firstn_all2.
Qed.

Lemma to_set_In (l : list text) (x : text) : In x (to_set l) <-> In x l.
Proof.
  induction l as [| y l IH]; [reflexivity |].
  cbn [to_set In]. rewrite filter_In, IH. split.
  - intros [H | [H _]]; tauto.
  - intros [H | H]; [now left |].
    destruct (text_eqb y x) eqn:E.
    + apply text_eqb_eq in E. now left.
    + right. now split.
Qed.

Lemma to_set_NoDup (l : list text) : NoDup (to_set l).
Proof.
  induction l as [| y l IH]; [constructor |].
  cbn [to_set]. constructor.
  - intros H. apply filter_In in H as [_ H].
    assert (text_eqb y y = true) by now apply text_eqb_eq.
    rewrite H0 in H. discriminate.
  - now apply NoDup_filter.
Qed.

Lemma NoDup_firstn_of {A : Type} (n : nat) (l : list A) :
  NoDup l -> NoDup (firstn n l).
Proof.
  intros H. rewrite <- (firstn_skipn n l) in H.
  now apply NoDup_app_remove_r in H.
Qed.

Lemma In_firstn {A : Type} (n : nat) (l : list A) (x : A) :
  In x (firstn n l) -> In x l.
Proof.
  intros H. rewrite <- (firstn_skipn n l). apply in_or_app. now left.
Qed.

(** ** The details the analyzers return *)

Lemma calculate_skill_coverage_details (skills : list text)
    (job_description : option text) :
  calculate_skill_coverage skills job_description =
  Ok (pymin (pymin (inject_Z (len skills) / 10) 1 * 15
             + inject_Z (categories_with_skills skills) / 6 * 10) 25,
      {| total_skills := len skills;
         skill_categories := map (categorize (map lower skills)) categories;
         recommendations := skill_recommendations skills |}).
Proof.
  unfold calculate_skill_coverage.
  rewrite truediv_ok by discriminate. cbn [bind].
  rewrite (@truediv_ok _ (len categories)) by discriminate. cbn [bind].
  rewrite !getitem_categorize.
  assert (Hp : getitem categories (T "programming") = Ok programming_skills)
    by (vm_compute; reflexivity).
  assert (Hs : getitem categories (T "soft_skills") = Ok soft_skills)
    by (vm_compute; reflexivity).
  rewrite Hp, Hs. cbn [bind count]. reflexivity.
Qed.

Lemma calculate_experience_quality_details (resume_text : text) :
  calculate_experience_quality resume_text =
  Ok (pymin
        (pymin (inject_Z (len (fst (scan_metrics resume_text))) / 5) 1 * 15
         + pymin (inject_Z (count_results resume_text) / 5) 1 * 10) 25,
      {| metrics_found := fst (scan_metrics resume_text);
         achievements := snd (scan_metrics resume_text);
         ed_suggestions := experience_suggestions resume_text |}).
Proof.
  unfold calculate_experience_quality, experience_suggestions.
  destruct (scan_metrics resume_text) as [found total].
  rewrite !fst_pair_eq, !snd_pair_eq.
  rewrite !truediv_ok by discriminate. cbn [bind]. reflexivity.
Qed.

Lemma skill_recommendations_length (skills : list text) :
  (List.length (skill_recommendations skills) <= 3)%nat.
Proof.
  unfold skill_recommendations.
  unfold append_if.
  repeat match goal with
         | |- context [if ?b then _ else _] => destruct b
         end;
    cbn [List.length app]; lia.
Qed.

Lemma experience_suggestions_length (resume_text : text) :
  (List.length (experience_suggestions resume_text) <= 2)%nat.
Proof.
  unfold experience_suggestions.
  unfold append_if.
  repeat match goal with
         | |- context [if ?b then _ else _] => destruct b
         end;
    cbn [List.length app]; lia.
Qed.

Lemma formatting_suggestions_length (resume_text : text) :
  (List.length (formatting_suggestions resume_text) <= 7)%nat.
Proof.
  unfold formatting_suggestions. rewrite !length_app, length_map.
  pose proof (filter_length_le
                (fun s => negb (has_section (lower resume_text) s))
                IMPORTANT_SECTIONS) as H.
  change (List.length IMPORTANT_SECTIONS) with 5%nat in H.
  destruct (len (split resume_text) <? 200)%Z;
    [| destruct (1500 <? len (split resume_text))%Z];
    destruct (has_bullets resume_text); cbn [List.length]; lia.
Qed.

(** ** The consolidated suggestions *)

(** X1.  The cut of the consolidated suggestions at ten never drops a
    formatting suggestion or a skill recommendation: there are at most
    seven of the first and three of the second, so only the suggestions
    of the experience analyzer, which come last, can be cut. *)
Theorem X1_suggestions_cut (resume_text : text) (skills : list text)
    (job_description : option text) :
  exists r,
    calculate_ats_score resume_text skills job_description = Ok r /\
    fd_suggestions (formatting (details r))
      = formatting_suggestions resume_text /\
    recommendations (skills_detail (details r))
      = skill_recommendations skills /\
    ed_suggestions (experience (details r))
      = experience_suggestions resume_text /\
    (List.length (formatting_suggestions resume_text) <= 7)%nat /\
    (List.length (skill_recommendations skills) <= 3)%nat /\
    (List.length (experience_suggestions resume_text) <= 2)%nat /\
    suggestions r =
      formatting_suggestions resume_text ++ skill_recommendations skills
      ++ firstn (10 - List.length (formatting_suggestions resume_text)
                 - List.length (skill_recommendations skills))
                (experience_suggestions resume_text) /\
    (List.length (suggestions r) <= 10)%nat.
Proof.
  destruct (keyword_score_bounds resume_text job_description)
    as (ks & kd & Hk & _).
  destruct (calculate_formatting_score_spec resume_text)
    as (fs & fd & Hf & _ & _ & Hsug).
  fold (formatting_suggestions resume_text) in Hsug.
  pose proof (calculate_skill_coverage_details skills job_description) as Hs.
  pose proof (calculate_experience_quality_details resume_text) as He.
  pose proof (formatting_suggestions_length resume_text) as L7.
  pose proof (skill_recommendations_length skills) as L3.
  pose proof (experience_suggestions_length resume_text) as L2.
  eexists. split.
  { exact (@calculate_ats_score_eq resume_text skills job_description
             _ _ _ _ _ _ _ _ Hk Hf Hs He). }
  cbn [details formatting skills_detail experience suggestions
       recommendations ed_suggestions].
  split; [exact Hsug |]. split; [reflexivity |]. split; [reflexivity |].
  split; [exact L7 |]. split; [exact L3 |]. split; [exact L2 |].
  rewrite Hsug.
  assert (E : firstn 10
                (formatting_suggestions resume_text
                 ++ skill_recommendations skills
                 ++ experience_suggestions resume_text) =
              formatting_suggestions resume_text
              ++ skill_recommendations skills
              ++ firstn (10 - List.length (formatting_suggestions resume_text)
                         - List.length (skill_recommendations skills))
                        (experience_suggestions resume_text)).
  { rewrite firstn_app_within by lia. f_equal.
    rewrite firstn_app_within by lia. reflexivity. }
  split; [exact E |].
  rewrite E, !length_app, length_firstn. lia.
Qed.

(** ** Scores in closed form *)

#[global] Instance pymin_Proper :
  Morphisms.Proper (Qeq ==> Qeq ==> Qeq)%signature pymin.
Proof. intros a a' Ha b b' Hb. now apply pymin_compat. Qed.

#[global] Instance pymax_Proper :
  Morphisms.Proper (Qeq ==> Qeq ==> Qeq)%signature pymax.
Proof. intros a a' Ha b b' Hb. now apply pymax_compat. Qed.

Lemma pymin_inject_Z (a b : Z) :
  pymin (inject_Z a) (inject_Z b) == inject_Z (Z.min a b).
Proof.
  destruct (pymin_cases (inject_Z a) (inject_Z b)) as [[H ->] | [H ->]].
  - rewrite <- Zle_Qle in H. now rewrite Z.min_l.
  - rewrite <- Zlt_Qlt in H. now rewrite Z.min_r by lia.
Qed.

Lemma pymax_inject_Z (a b : Z) :
  pymax (inject_Z a) (inject_Z b) == inject_Z (Z.max a b).
Proof.
  destruct (pymax_cases (inject_Z a) (inject_Z b)) as [[H ->] | [H ->]].
  - rewrite <- Zle_Qle in H. now rewrite Z.max_l.
  - rewrite <- Zlt_Qlt in H. now rewrite Z.max_r by lia.
Qed.

Lemma pymin_above (x hi : Q) : x <= hi -> pymin x hi == x.
Proof.
  intros H. destruct (pymin_cases x hi) as [[_ ->] | [H' ->]];
    [reflexivity | lra].
Qed.

(** [min(n / d, 1)] is [min(n, d) / d]. *)
Lemma capped_share (n d : Z) :
  (0 < d)%Z ->
  pymin (inject_Z n / inject_Z d) 1 == inject_Z (Z.min n d) / inject_Z d.
Proof.
  intros Hd.
  assert (Hq : 0 < inject_Z d)
    by (change 0 with (inject_Z 0); now rewrite <- Zlt_Qlt).
  destruct (Z.le_gt_cases n d) as [H | H].
  - rewrite Z.min_l by exact H. apply pymin_above.
    apply ratio_le_1; assumption.
  - rewrite Z.min_r by lia.
    destruct (pymin_cases (inject_Z n / inject_Z d) 1) as [[H1 ->] | [H1 ->]].
    + exfalso. apply (Qmult_le_r _ _ _ Hq) in H1.
      rewrite Qmult_1_l in H1. unfold Qdiv in H1.
      rewrite <- Qmult_assoc, (Qmult_comm (/ inject_Z d)), Qmult_inv_r,
        Qmult_1_r in H1 by lra.
      rewrite <- Zle_Qle in H1. lia.
    + field. lra.
Qed.

(** X3.  The experience score is a whole number: three points for each
    of the first five recorded metric samples and two for each of the
    first five result words; the final cap at 25 never cuts. *)
Theorem X3_experience_score_steps (resume_text : text) :
  exists s d,
    calculate_experience_quality resume_text = Ok (s, d) /\
    s == inject_Z (3 * Z.min (len (metrics_found d)) 5
                   + 2 * Z.min (count_results resume_text) 5) /\
    (s == 25 <->
     (5 <= len (metrics_found d))%Z /\ (5 <= count_results resume_text)%Z).
Proof.
  eexists _, _. split; [apply calculate_experience_quality_details |].
  cbn [metrics_found].
  set (n := len (fst (scan_metrics resume_text))).
  set (r := count_results resume_text).
  assert (Hn : (0 <= n)%Z) by apply len_nonneg.
  assert (Hr : (0 <= r)%Z) by apply count_results_nonneg.
  assert (E : pymin (pymin (inject_Z n / 5) 1 * 15
                     + pymin (inject_Z r / 5) 1 * 10) 25
              == inject_Z (3 * Z.min n 5 + 2 * Z.min r 5)).
  { assert (A : pymin (inject_Z n / 5) 1 * 15 == inject_Z (3 * Z.min n 5)).
    { change 5 with (inject_Z 5). rewrite capped_share by lia.
      rewrite inject_Z_mult. change (inject_Z 5) with 5.
      change (inject_Z 3) with 3. field. }
    assert (B : pymin (inject_Z r / 5) 1 * 10 == inject_Z (2 * Z.min r 5)).
    { change 5 with (inject_Z 5). rewrite capped_share by lia.
      rewrite inject_Z_mult. change (inject_Z 5) with 5.
      change (inject_Z 2) with 2. field. }
    rewrite A, B.
    rewrite <- inject_Z_plus. change 25 with (inject_Z 25).
    rewrite pymin_inject_Z. apply inject_Z_injective. lia. }
  split; [exact E |].
  rewrite E. change 25 with (inject_Z 25). rewrite inject_Z_injective. lia.
Qed.

(** X4.  The formatting score is a whole number: 25, plus two points for
    each section found, less the penalties, kept between 0 and 25. *)
Theorem X4_formatting_score_integer (resume_text : text) :
  exists s d,
    calculate_formatting_score resume_text = Ok (s, d) /\
    s == inject_Z (Z.min (Z.max 0 (25 + 2 * sections_found resume_text
                                   - total_penalty resume_text)) 25) /\
    (0 <= total_penalty resume_text <= 37)%Z.
Proof.
  destruct (calculate_formatting_score_spec resume_text)
    as (s & d & E & Hs & _).
  exists s, d. split; [exact E |]. split.
  - rewrite Hs. unfold clamp.
    assert (A : 25 + inject_Z (sections_found resume_text) / 5 * 10
                - inject_Z (total_penalty resume_text)
                == inject_Z (25 + 2 * sections_found resume_text
                             - total_penalty resume_text)).
    { unfold Z.sub. rewrite !inject_Z_plus, inject_Z_opp, inject_Z_mult.
      change (inject_Z 25) with 25. change (inject_Z 2) with 2. field. }
    rewrite A. change 0 with (inject_Z 0). rewrite pymax_inject_Z.
    change 25 with (inject_Z 25) at 1. now rewrite pymin_inject_Z.
  - unfold total_penalty, length_penalty, bullet_penalty, occurrences.
    cbv zeta.
    pose proof (len_nonneg (re_findall false tables_pattern resume_text)).
    pose proof (len_nonneg (re_findall false (Cls special_char) resume_text)).
    pose proof (len_nonneg
                  (re_findall false (AtLeast 10 (Cls is_upper)) resume_text)).
    destruct (len (split resume_text) <? 200)%Z;
      [| destruct (1500 <? len (split resume_text))%Z];
      destruct (has_bullets resume_text); lia.
Qed.

(** ** Skill lists with repeated entries *)




(** ** Letter case in the keyword analyzer *)

Lemma len_lower (w : text) : len (lower w) = len w.
Proof. unfold len. now rewrite lower_length. Qed.

Lemma long_words_lower (l : list text) :
  filter (fun word => (5 <? len word)%Z) (map lower l)
  = map lower (filter (fun word => (5 <? len word)%Z) l).
Proof.
  induction l as [| w l IH]; [reflexivity |].
  cbn [map filter]. rewrite len_lower.
  destruct (5 <? len w)%Z; cbn [map]; now rewrite IH.
Qed.

Lemma len_map {A B : Type} (f : A -> B) (l : list A) : len (map f l) = len l.
Proof. unfold len. now rewrite length_map. Qed.

Lemma density_lower (resume_text : text) :
  density (lower resume_text) = density resume_text.
Proof.
  unfold density. rewrite split_lower.
  destruct (split resume_text) as [| w ws]; [reflexivity |].
  change (map lower (w :: ws)) with (lower w :: map lower ws) at 1.
  cbv beta iota.
  change (lower w :: map lower ws) with (map lower (w :: ws)).
  now rewrite long_words_lower, !len_map.
Qed.

Lemma jd_branch_lower (resume_lower : text) (jd jd' : option text) :
  option_map lower jd = option_map lower jd' ->
  jd_branch resume_lower jd = jd_branch resume_lower jd'.
Proof.
  intros H. destruct jd as [j |], jd' as [j' |]; try discriminate H;
    [| reflexivity].
  injection H as H.
  destruct j as [| c j], j' as [| c' j']; try discriminate H;
    [reflexivity |].
  unfold jd_branch. cbv beta iota zeta. now rewrite H.
Qed.

Lemma F64_density_lower (resume_text : text) :
  F64.density (lower resume_text) = F64.density resume_text.
Proof.
  unfold F64.density. rewrite split_lower.
  destruct (split resume_text) as [| w ws]; [reflexivity |].
  change (map lower (w :: ws)) with (lower w :: map lower ws) at 1.
  cbv beta iota.
  change (lower w :: map lower ws) with (map lower (w :: ws)).
  now rewrite long_words_lower, !len_map.
Qed.

Lemma F64_jd_branch_lower (resume_lower : text) (jd jd' : option text) :
  option_map lower jd = option_map lower jd' ->
  F64.jd_branch resume_lower jd = F64.jd_branch resume_lower jd'.
Proof.
  intros H. destruct jd as [j |], jd' as [j' |]; try discriminate H;
    [| reflexivity].
  injection H as H.
  destruct j as [| c j], j' as [| c' j']; try discriminate H;
    [reflexivity |].
  unfold F64.jd_branch. cbv beta iota zeta. now rewrite H.
Qed.

(** X5.  On ASCII text the keyword analyzer ignores letter case: two
    resumes, and two job descriptions, of ASCII characters that differ
    only in the case of their letters get the same score and the same
    details, in exact arithmetic and in binary64. *)
Theorem X5_keyword_score_ignores_case (t t' : text) (jd jd' : option text) :
  is_ascii t = true -> is_ascii t' = true ->
  is_ascii_opt jd = true -> is_ascii_opt jd' = true ->
  lower t = lower t' ->
  option_map lower jd = option_map lower jd' ->
  calculate_keyword_score t jd = calculate_keyword_score t' jd' /\
  F64.calculate_keyword_score t jd = F64.calculate_keyword_score t' jd'.
Proof.
  intros _ _ _ _ Ht Hjd. split.
  - unfold calculate_keyword_score. cbv zeta.
    rewrite <- (density_lower t), <- (density_lower t'), Ht.
    now rewrite (jd_branch_lower (lower t') jd jd' Hjd).
  - unfold F64.calculate_keyword_score. cbv zeta.
    rewrite <- (F64_density_lower t), <- (F64_density_lower t'), Ht.
    now rewrite (F64_jd_branch_lower (lower t') jd jd' Hjd).
Qed.

Lemma X5_witness :
  lower (T "Led Teams") = lower (T "LED teams") /\
  option_map lower (Some (T "Team LEAD")) = option_map lower (Some (T "team lead")) /\
  calculate_keyword_score (T "Led Teams") (Some (T "Team LEAD"))
  = calculate_keyword_score (T "LED teams") (Some (T "team lead")) /\
  F64.calculate_keyword_score (T "Led Teams") (Some (T "Team LEAD"))
  = F64.calculate_keyword_score (T "LED teams") (Some (T "team lead")).
Proof.
  assert (H1 : lower (T "Led Teams") = lower (T "LED teams")) by reflexivity.
  assert (H2 : option_map lower (Some (T "Team LEAD"))
               = option_map lower (Some (T "team lead"))) by reflexivity.
  split; [exact H1 |]. split; [exact H2 |].
  exact (@X5_keyword_score_ignores_case (T "Led Teams") (T "LED teams")
           (Some (T "Team LEAD")) (Some (T "team lead"))
           eq_refl eq_refl eq_refl eq_refl H1 H2).
Defined.

(** ** A job description covered by the resume *)

Lemma jd_branch_vocabulary (resume_text : text) (c : ascii) (j : text) :
  jd_branch (lower resume_text) (Some (c :: j)) =
  let vocab := jd_vocabulary (c :: j) in
  let matched := filter (fun w => mem w (resume_vocabulary resume_text)) vocab in
  let missing :=
    filter (fun w => negb (mem w (resume_vocabulary resume_text))) vocab in
  match vocab with
  | _ :: _ =>
      q <- truediv (len matched) (len vocab) ;;
      Ok (firstn 20 matched, firstn 20 missing, q * 25)
  | [] => Ok (firstn 20 matched, firstn 20 missing, 0)
  end.
Proof. reflexivity. Qed.

Lemma filter_all {A : Type} (f : A -> bool) (l : list A) :
  (forall x, In x l -> f x = true) -> filter f l = l.
Proof.
  induction l as [| x l IH]; intros H; [reflexivity |].
  cbn [filter]. rewrite (H x (or_introl eq_refl)). f_equal.
  apply IH. intros y Hy. apply H. now right.
Qed.

Lemma filter_none {A : Type} (f : A -> bool) (l : list A) :
  (forall x, In x l -> f x = false) -> filter f l = [].
Proof.
  induction l as [| x l IH]; intros H; [reflexivity |].
  cbn [filter]. rewrite (H x (or_introl eq_refl)).
  apply IH. intros y Hy. apply H. now right.
Qed.

(** In the model, where a set is listed in the order of first
    occurrence, the matched keywords are the first twenty of the
    vocabulary. *)
Lemma covered_job_description_details (resume_text job_description : text) :
  jd_vocabulary job_description <> [] ->
  (forall w, In w (jd_vocabulary job_description) ->
             In w (resume_vocabulary resume_text)) ->
  exists s d,
    calculate_keyword_score resume_text (Some job_description) = Ok (s, d) /\
    s == pymin (inject_Z (len (verbs_found resume_text)) / 10) 1 * 25 + 25 /\
    kd_missing_keywords d = [] /\
    kd_matched_keywords d = firstn 20 (jd_vocabulary job_description).
Proof.
  intros Hne Hall.
  destruct (calculate_keyword_score_spec resume_text (Some job_description))
    as (matched & missing & q & dens & Hjd & _ & _ & E).
  destruct job_description as [| c j]; [now elim Hne |].
  rewrite jd_branch_vocabulary in Hjd. cbv zeta in Hjd.
  rewrite (filter_all _ _ (fun w Hw => proj2 (mem_In w _) (Hall w Hw))) in Hjd.
  rewrite (filter_none (fun w => negb (mem w (resume_vocabulary resume_text))))
    in Hjd
    by (intros w Hw; now rewrite (proj2 (mem_In w _) (Hall w Hw))).
  destruct (jd_vocabulary (c :: j)) as [| w ws] eqn:V; [now elim Hne |].
  assert (Hpos : (0 < len (w :: ws))%Z)
    by (unfold len; cbn [List.length]; lia).
  rewrite truediv_ok in Hjd by lia. cbn [bind] in Hjd.
  injection Hjd as <- <- <-.
  eexists _, _. split; [exact E |].
  cbn [kd_missing_keywords kd_matched_keywords].
  split; [| split; reflexivity].
  assert (Q1 : inject_Z (len (w :: ws)) / inject_Z (len (w :: ws)) == 1).
  { field. intros H0. change 0 with (inject_Z 0) in H0.
    apply (proj1 (inject_Z_injective _ _)) in H0. lia. }
  rewrite Q1. reflexivity.
Qed.

Lemma jd_vocabulary_NoDup (job_description : text) :
  NoDup (jd_vocabulary job_description).
Proof. unfold jd_vocabulary. apply NoDup_filter, to_set_NoDup. Qed.

(** X6.  When every word of the vocabulary of a job description is a
    word of the resume, the job-description part of the keyword score is
    the full 25, no keyword is reported missing, and the matched
    keywords are distinct words of the vocabulary: all of them when the
    vocabulary has at most twenty words, and twenty of them otherwise. *)
Theorem X6_covered_job_description (resume_text job_description : text) :
  jd_vocabulary job_description <> [] ->
  (forall w, In w (jd_vocabulary job_description) ->
             In w (resume_vocabulary resume_text)) ->
  exists s d,
    calculate_keyword_score resume_text (Some job_description) = Ok (s, d) /\
    s == pymin (inject_Z (len (verbs_found resume_text)) / 10) 1 * 25 + 25 /\
    kd_missing_keywords d = [] /\
    NoDup (kd_matched_keywords d) /\
    (forall w, In w (kd_matched_keywords d) ->
               In w (jd_vocabulary job_description)) /\
    List.length (kd_matched_keywords d)
    = Nat.min 20 (List.length (jd_vocabulary job_description)).
Proof.
  intros Hne Hall.
  destruct (@covered_job_description_details resume_text job_description
              Hne Hall)
    as (s & d & E & Hs & Hm & Hk).
  exists s, d. split; [exact E |]. split; [exact Hs |].
  split; [exact Hm |]. rewrite Hk. split; [| split].
  - apply NoDup_firstn_of, jd_vocabulary_NoDup.
  - intros w Hw. exact (In_firstn _ _ _ Hw).
  - apply length_firstn.
Qed.

Lemma X6_witness :
  jd_vocabulary (T "The Python, SQL and leadership") <> [] /\
  exists s d,
    calculate_keyword_score (T "python sql leadership and more")
      (Some (T "The Python, SQL and leadership")) = Ok (s, d) /\
    s == pymin (inject_Z (len (verbs_found
                                 (T "python sql leadership and more"))) / 10)
               1 * 25 + 25 /\
    kd_missing_keywords d = [] /\
    NoDup (kd_matched_keywords d) /\
    (forall w, In w (kd_matched_keywords d) ->
               In w (jd_vocabulary (T "The Python, SQL and leadership"))) /\
    List.length (kd_matched_keywords d)
    = Nat.min 20
        (List.length (jd_vocabulary (T "The Python, SQL and leadership"))).
Proof.
  assert (H1 : jd_vocabulary (T "The Python, SQL and leadership") <> [])
    by (vm_compute; discriminate).
  split; [exact H1 |].
  apply (@X6_covered_job_description (T "python sql leadership and more")
           (T "The Python, SQL and leadership") H1).
  assert (H : forallb (fun w => mem w (resume_vocabulary
                                         (T "python sql leadership and more")))
                      (jd_vocabulary (T "The Python, SQL and leadership"))
              = true) by (vm_compute; reflexivity).
  rewrite forallb_forall in H.
  intros w Hw. apply mem_In. exact (H w Hw).
Defined.

(** ** The percentages and lists of the job matcher *)

Lemma percent_bounds (a b : Z) :
  (0 <= a <= b)%Z -> (0 < b)%Z ->
  0 <= inject_Z a / inject_Z b * 100 /\ inject_Z a / inject_Z b * 100 <= 100.
Proof.
  intros [Ha Hab] Hb.
  pose proof (ratio_nonneg Ha Hb). pose proof (ratio_le_1 Hab Hb).
  split; lra.
Qed.

Lemma length_firstn_le {A : Type} (n : nat) (l : list A) :
  (List.length (firstn n l) <= n)%nat.
Proof. rewrite length_firstn. lia. Qed.

(** The lists of the matcher that hold what was not matched. *)
Lemma job_match_locals_missing (resume_text : text)
    (resume_skills : list text) (job_description : text) :
  exists l,
    job_match_locals resume_text resume_skills job_description = Ok l /\
    l_missing_keywords l =
      filter (fun keyword => negb (contains keyword (lower resume_text)))
             (important_keywords_of (lower job_description)) /\
    l_missing_skills l =
      filter (fun s => negb (in_any s (map lower resume_skills)))
             (jd_skills_of (lower job_description)).
Proof.
  unfold job_match_locals. cbv zeta.
  rewrite truediv_ok by lia. cbn [bind].
  destruct (jd_skills_of (lower job_description)) as [| j js] eqn:E.
  - cbn [bind]. eexists. split; [reflexivity |]. cbn. split; reflexivity.
  - rewrite truediv_ok by lia. cbn [bind].
    eexists. split; [reflexivity |]. cbn. split; reflexivity.
Qed.

(** X7.  The three percentages of a job match lie between 0 and 100,
    before and after rounding; the matched and the missing keywords
    split the important keywords, and the matched and missing skills
    split the skills found in the job description; the reported lists
    hold at most 15, 15 and 10 entries. *)
Theorem X7_job_match_ranges (resume_text : text) (resume_skills : list text)
    (job_description : text) :
  exists l r,
    job_match_locals resume_text resume_skills job_description = Ok l /\
    calculate_job_match resume_text resume_skills job_description = Ok r /\
    (0 <= l_keyword_match l /\ l_keyword_match l <= 100) /\
    (0 <= l_skill_match l /\ l_skill_match l <= 100) /\
    (0 <= l_overall_match l /\ l_overall_match l <= 100) /\
    (0 <= keyword_match r /\ keyword_match r <= 100) /\
    (0 <= skill_match r /\ skill_match r <= 100) /\
    (0 <= overall_match r /\ overall_match r <= 100) /\
    (List.length (l_matched_keywords l) + List.length (l_missing_keywords l)
     = List.length (important_keywords l))%nat /\
    (List.length (l_matched_skills l) + List.length (l_missing_skills l)
     = List.length (jd_skills l))%nat /\
    (List.length (jd_skills l) <= 26)%nat /\
    (List.length (matched_keywords r) <= 15)%nat /\
    (List.length (mr_missing_keywords r) <= 15)%nat /\
    (List.length (missing_skills r) <= 10)%nat.
Proof.
  destruct (job_match_locals_ok resume_text resume_skills job_description)
    as (l & El & Hi & Hm & Hj & Hs & Hk & Hsm & Ho).
  assert (Em : l_missing_keywords l =
               filter (fun keyword =>
                         negb (contains keyword (lower resume_text)))
                      (important_keywords l) /\
               l_missing_skills l =
               filter (fun s => negb (in_any s (map lower resume_skills)))
                      (jd_skills l)).
  { destruct (job_match_locals_missing resume_text resume_skills
                job_description) as (l' & El' & M1 & M2).
    rewrite El in El'. injection El' as <-.
    rewrite Hi, Hj. split; assumption. }
  destruct Em as [Emk Ems].
  exists l. eexists. split; [exact El |].
  split; [exact (calculate_job_match_eq _ _ _ El) |].
  cbn [keyword_match skill_match overall_match matched_keywords
       mr_missing_keywords missing_skills].
  assert (K : 0 <= l_keyword_match l /\ l_keyword_match l <= 100).
  { rewrite Hk. apply percent_bounds; [| lia].
    split; [apply len_nonneg |].
    etransitivity; [apply len_filter_le | lia]. }
  assert (S : 0 <= l_skill_match l /\ l_skill_match l <= 100).
  { rewrite Hsm.
    destruct (jd_skills_of (lower job_description)) as [| j js] eqn:E.
    - split; lra.
    - assert (Hpos : (0 < len (j :: js))%Z)
        by (unfold len; cbn [List.length]; lia).
      apply percent_bounds; [| lia].
      split; [apply len_nonneg |].
      etransitivity; [apply len_filter_le | lia]. }
  assert (O : 0 <= l_overall_match l /\ l_overall_match l <= 100).
  { rewrite Ho. unfold combine_match. destruct K, S. split; lra. }
  split; [exact K |]. split; [exact S |]. split; [exact O |].
  split; [apply (@round1_bounds _ 0 100); apply K |].
  split; [apply (@round1_bounds _ 0 100); apply S |].
  split; [apply (@round1_bounds _ 0 100); apply O |].
  split; [rewrite Hm, Emk, Hi; apply filter_partition_length |].
  split; [rewrite Hs, Ems, Hj; apply filter_partition_length |].
  split.
  { rewrite Hj. unfold jd_skills_of.
    etransitivity; [apply filter_length_le | reflexivity]. }
  repeat split; apply length_firstn_le.
Qed.

(** ** The important keywords of a job description *)

Lemma counter_add_keys (c : list (text * Z)) (w : text) :
  map fst (counter_add c w) =
  if mem w (map fst c) then map fst c else map fst c ++ [w].
Proof.
  induction c as [| [k n] c IH]; [reflexivity |].
  cbn [counter_add map fst]. unfold mem. cbn [existsb].
  fold (mem w (map fst c)).
  destruct (text_eqb k w) eqn:E.
  - apply text_eqb_eq in E. subst k.
    assert (R : text_eqb w w = true) by now apply text_eqb_eq.
    rewrite R. reflexivity.
  - assert (R : text_eqb w k = false).
    { destruct (text_eqb w k) eqn:E'; [| reflexivity].
      apply text_eqb_eq in E'. subst k.
      assert (text_eqb w w = true) by now apply text_eqb_eq. congruence. }
    rewrite R. cbn [orb map fst]. rewrite IH.
    destruct (mem w (map fst c)); reflexivity.
Qed.

Lemma counter_keys (words : list text) (c : list (text * Z)) :
  NoDup (map fst c) ->
  NoDup (map fst (fold_left counter_add words c)) /\
  (forall w, In w (map fst (fold_left counter_add words c)) ->
             In w (map fst c) \/ In w words).
Proof.
  revert c. induction words as [| x words IH]; intros c Hc.
  - cbn [fold_left]. split; [exact Hc | tauto].
  - cbn [fold_left].
    assert (Hc' : NoDup (map fst (counter_add c x))).
    { rewrite counter_add_keys. destruct (mem x (map fst c)) eqn:M;
        [exact Hc |].
      apply NoDup_app; [exact Hc | repeat constructor; intros [] |].
      intros y Hy [<- | []].
      apply mem_In in Hy. congruence. }
    destruct (IH _ Hc') as [N I]. split; [exact N |].
    intros w Hw. destruct (I w Hw) as [H | H]; [| right; now right].
    rewrite counter_add_keys in H.
    destruct (mem x (map fst c)); [now left |].
    apply in_app_or in H as [H | [<- | []]]; [now left | right; now left].
Qed.

Lemma insert_by_count_perm (e : text * Z) (l : list (text * Z)) :
  Permutation (insert_by_count e l) (e :: l).
Proof.
  induction l as [| x l IH]; [reflexivity |].
  cbn [insert_by_count]. destruct (snd x <=? snd e)%Z; [reflexivity |].
  rewrite IH. apply perm_swap.
Qed.

Lemma sort_by_count_perm (c : list (text * Z)) :
  Permutation (fold_right insert_by_count [] c) c.
Proof.
  induction c as [| e c IH]; [reflexivity |].
  cbn [fold_right]. rewrite insert_by_count_perm. now constructor.
Qed.

(** X8.  The important keywords of a job description are at most thirty
    distinct words; each is a word of three letters or more of the
    lower-cased description and none is a stop word of the matcher. *)
Theorem X8_important_keywords (job_description : text) :
  NoDup (important_keywords_of (lower job_description)) /\
  (List.length (important_keywords_of (lower job_description)) <= 30)%nat /\
  Forall (fun w =>
            In w (re_findall false WORD3 (lower job_description)) /\
            ~ In w match_common_words)
         (important_keywords_of (lower job_description)).
Proof.
  unfold important_keywords_of. cbv zeta.
  set (words := filter (fun w => negb (mem w match_common_words))
                       (re_findall false WORD3 (lower job_description))).
  destruct (@counter_keys words [] (NoDup_nil _)) as [N I].
  fold (Counter words) in N, I.
  assert (P : Permutation (map fst (fold_right insert_by_count [] (Counter words)))
                          (map fst (Counter words)))
    by (apply Permutation_map, sort_by_count_perm).
  unfold most_common. rewrite <- firstn_map.
  split; [| split].
  - apply NoDup_firstn_of.
    apply (Permutation_NoDup (Permutation_sym P)). exact N.
  - apply length_firstn_le.
  - apply Forall_forall. intros w Hw. apply In_firstn in Hw.
    apply (Permutation_in _ P) in Hw.
    destruct (I w Hw) as [[] | Hin].
    unfold words in Hin. apply filter_In in Hin as [H1 H2].
    split; [exact H1 |].
    intros Hc. apply mem_In in Hc. rewrite Hc in H2. discriminate.
Qed.

(** ** Substring tests in the job matcher *)

Lemma starts_with_app (p q s : text) :
  starts_with (p ++ q) s = true -> starts_with p s = true.
Proof.
  revert s. induction p as [| x p IH]; intros s H; [reflexivity |].
  destruct s as [| y s]; [discriminate H |].
  cbn [app starts_with] in *. apply andb_prop in H as [H1 H2].
  rewrite H1. now apply IH.
Qed.

(** A text that contains a string contains its beginning. *)
Lemma contains_app (p q s : text) :
  contains (p ++ q) s = true -> contains p s = true.
Proof.
  induction s as [| y s IH]; intros H.
  - cbn [contains] in *. rewrite orb_false_r in *.
    now apply starts_with_app in H.
  - cbn [contains] in *. apply orb_prop in H as [H | H].
    + apply starts_with_app in H. now rewrite H.
    + rewrite (IH H). apply orb_true_r.
Qed.

(** X9.  Skills are compared as substrings, so "java" is found wherever
    "javascript" is: a job description that names JavaScript also counts
    as asking for Java, and a resume skill that contains "javascript" (in
    any case) satisfies a job's Java requirement. *)
Theorem X9_java_in_javascript (resume_text : text)
    (resume_skills : list text) (job_description : text) (rs : text) :
  In rs resume_skills ->
  contains (T "javascript") (lower rs) = true ->
  exists l,
    job_match_locals resume_text resume_skills job_description = Ok l /\
    (In (T "javascript") (jd_skills l) -> In (T "java") (jd_skills l)) /\
    (In (T "java") (jd_skills l) -> In (T "java") (l_matched_skills l)).
Proof.
  intros Hrs Hc.
  destruct (job_match_locals_ok resume_text resume_skills job_description)
    as (l & El & _ & _ & Hj & Hs & _).
  exists l. split; [exact El |]. rewrite Hs, Hj. unfold jd_skills_of.
  split.
  - intros H. apply filter_In in H as [_ H]. apply filter_In.
    split; [vm_compute; tauto |].
    now apply (contains_app (T "java") (T "script")).
  - intros H. apply filter_In. split; [exact H |].
    unfold in_any. apply existsb_exists. exists (lower rs).
    split; [now apply in_map |].
    now apply (contains_app (T "java") (T "script")).
Qed.

(** A job that asks for Java and a resume that lists JavaScript. *)
Lemma X9_witness :
  In (T "JavaScript") [T "JavaScript"] /\
  contains (T "javascript") (lower (T "JavaScript")) = true /\
  exists l,
    job_match_locals (T "Web developer") [T "JavaScript"]
      (T "Java developer wanted") = Ok l /\
    (In (T "javascript") (jd_skills l) -> In (T "java") (jd_skills l)) /\
    (In (T "java") (jd_skills l) -> In (T "java") (l_matched_skills l)) /\
    l_matched_skills l = [T "java"].
Proof.
  assert (H1 : In (T "JavaScript") [T "JavaScript"]) by (left; reflexivity).
  assert (H2 : contains (T "javascript") (lower (T "JavaScript")) = true)
    by reflexivity.
  split; [exact H1 |]. split; [exact H2 |].
  destruct (X9_java_in_javascript (T "Web developer") [T "JavaScript"]
              (T "Java developer wanted") (T "JavaScript") H1 H2)
    as (l & El & A & B).
  exists l. split; [exact El |]. split; [exact A |]. split; [exact B |].
  assert (E : job_match_locals (T "Web developer") [T "JavaScript"]
                (T "Java developer wanted") = Ok l) by exact El.
  vm_compute in E. injection E as <-. reflexivity.
Defined.

(** * Properties of the dashboard *)

(** X10.  The colour class of a total score and its grade agree at the
    bottom and differ at the top: "score-poor" is exactly grade F and
    "score-average" exactly grade D, grades C and A are always shown as
    "score-good" and "score-excellent", but grade B is shown as
    "score-good" below 75 and as "score-excellent" from 75. *)
Theorem X10_score_class_and_grade (score : Z) :
  (get_score_class score = "score-poor"%string
   <-> fst (determine_grade score) = "F"%string) /\
  (get_score_class score = "score-average"%string
   <-> fst (determine_grade score) = "D"%string) /\
  (fst (determine_grade score) = "C"%string ->
   get_score_class score = "score-good"%string) /\
  (fst (determine_grade score) = "A"%string ->
   get_score_class score = "score-excellent"%string) /\
  (fst (determine_grade score) = "B"%string ->
   (score < 75 /\ get_score_class score = "score-good"%string)%Z \/
   (75 <= score /\ get_score_class score = "score-excellent"%string)%Z) /\
  (fst (determine_grade 74) = "B"%string
   /\ get_score_class 74 = "score-good"%string) /\
  (fst (determine_grade 75) = "B"%string
   /\ get_score_class 75 = "score-excellent"%string).
Proof.
  unfold get_score_class, determine_grade.
  destruct (Z.leb_spec 85 score), (Z.leb_spec 75 score),
    (Z.leb_spec 70 score), (Z.leb_spec 55 score), (Z.leb_spec 40 score);
    try lia; cbn [fst];
    repeat split; try discriminate; try reflexivity; intros; try discriminate;
    (left; split; [lia | reflexivity]) || (right; split; [lia | reflexivity]).
Qed.

Lemma round1_at_least (x : Q) (lo : Z) : inject_Z lo <= x -> inject_Z lo <= round1 x.
Proof.
  intros H.
  set (hi := Z.max lo (Qceiling x)).
  assert (Hhi : x <= inject_Z hi).
  { pose proof (Qle_ceiling x) as C. unfold hi.
    assert (inject_Z (Qceiling x) <= inject_Z (Z.max lo (Qceiling x)))
      by (rewrite <- Zle_Qle; lia).
    lra. }
  exact (proj1 (round1_bounds H Hhi)).
Qed.

(** X11.  The dashboard scores a resume without a job description; the
    keyword score of the breakdown is then at least 15 and the total at
    least 15, whatever the resume, so the recommendation of the area
    "Keywords", shown when that score is below 15, is never shown. *)
Theorem X11_keywords_recommendation_never_shown (resume_text : text)
    (skills : list text) :
  exists r,
    calculate_ats_score resume_text skills None = Ok r /\
    15 <= keyword_score (ats_breakdown r) /\
    (15 <= total_score r)%Z /\
    Forall (fun rec => fst (fst rec) <> "Keywords"%string)
           (improvement_recommendations (ats_breakdown r)).
Proof.
  destruct (calculate_keyword_score_spec resume_text None)
    as (matched & missing & q & dens & Hjd & _ & _ & Ek).
  assert (Hn : jd_branch (lower resume_text) None = Ok ([], [], 15))
    by reflexivity.
  rewrite Hn in Hjd. injection Hjd as <- <- <-.
  destruct (formatting_score_bounds resume_text) as (fs & fd & Hf & F0 & _).
  destruct (skill_score_bounds skills None) as (ss & sd & Hs & S0 & _).
  destruct (experience_score_bounds resume_text) as (es & ed & He & E0 & _).
  destruct (@capped_share_bounds (len (verbs_found resume_text)) 10 25)
    as [L _]; [apply len_nonneg | lia | lra |].
  change (inject_Z 10) with 10 in L.
  eexists. split.
  { exact (@calculate_ats_score_eq resume_text skills None
             _ _ _ _ _ _ _ _ Ek Hf Hs He). }
  cbn [ats_breakdown keyword_score total_score].
  set (ks := pymin (inject_Z (len (verbs_found resume_text)) / 10) 1 * 25 + 15)
    in *.
  assert (Hks : 15 <= ks) by (unfold ks; lra).
  assert (K15 : inject_Z 15 <= round1 ks)
    by (apply round1_at_least; change (inject_Z 15) with 15; exact Hks).
  change (inject_Z 15) with 15 in K15.
  split; [exact K15 |]. split.
  - assert (R : (15 <= round_half_even (ks + fs + ss + es))%Z).
    { set (x := ks + fs + ss + es).
      assert (Hx : inject_Z 15 <= x)
        by (change (inject_Z 15) with 15; unfold x; lra).
      assert (Hhi : x <= inject_Z (Z.max 15 (Qceiling x))).
      { pose proof (Qle_ceiling x).
        assert (inject_Z (Qceiling x) <= inject_Z (Z.max 15 (Qceiling x)))
          by (rewrite <- Zle_Qle; lia).
        lra. }
      exact (proj1 (round_half_even_bounds Hx Hhi)). }
    lia.
  - unfold improvement_recommendations. cbv zeta.
    cbn [keyword_score formatting_score skill_score experience_score].
    assert (B : below_15 (round1 ks) = false).
    { unfold below_15. apply negb_false_iff. now apply Qle_bool_iff. }
    rewrite B. unfold add_recommendation at 4.
    unfold add_recommendation.
    repeat match goal with
           | |- context [if ?b then _ else _] => destruct b
           end;
      cbn [app]; repeat constructor; cbn [fst]; discriminate.
Qed.

(** * Properties of the resume parser *)

(** ** Literals between word boundaries *)

Lemma last_of_cons (prev : option ascii) (c : ascii) (w : text) :
  last_of prev (c :: w) = last_of (Some c) w.
Proof.
  unfold last_of. cbn [rev].
  destruct (rev w) as [| x r] eqn:E; reflexivity.
Qed.

Lemma matcher_Lit (w : text) (prev : option ascii) (s : text)
    (k : option ascii -> text -> option text) :
  matcher false (Lit w) prev s k =
  if starts_with w s then k (last_of prev w) (skipn (List.length w) s)
  else None.
Proof.
  revert prev s. induction w as [| c w IH]; intros prev s.
  - reflexivity.
  - cbn [Lit matcher]. unfold Chr. cbn [matcher].
    destruct s as [| x s]; [reflexivity |].
    unfold cls_match. cbn [andb]. rewrite orb_false_r.
    cbn [starts_with List.length skipn].
    destruct (Ascii.eqb c x) eqn:E; [| reflexivity].
    apply Ascii.eqb_eq in E. subst x.
    cbn [andb]. rewrite IH, last_of_cons. reflexivity.
Qed.

(** A match of [\b w \b] at a position is [word_at]. *)
Lemma match_at_whole_word (w : text) (prev : option ascii) (s : text) :
  match_at false (whole_word w) prev s =
  if word_at w prev s then Some (skipn (List.length w) s) else None.
Proof.
  unfold match_at, whole_word, word_at. cbn [matcher].
  destruct (xorb (opt_word prev) (opt_word (hd_error s))); [| reflexivity].
  rewrite matcher_Lit.
  destruct (starts_with w s); [| reflexivity].
  cbn [matcher andb].
  destruct (xorb (opt_word (last_of prev w))
              (opt_word (hd_error (skipn (List.length w) s))));
    reflexivity.
Qed.

Lemma last_of_app1 (prev : option ascii) (pre : text) (c : ascii) :
  last_of prev (pre ++ [c]) = Some c.
Proof. unfold last_of. now rewrite rev_app_distr. Qed.

(** A search for [\b w \b] succeeds exactly when [w] stands between two
    word boundaries somewhere in the text. *)
Lemma search_whole_word (w : text) (prev : option ascii) (s : text) :
  search_from false (whole_word w) prev s = true <->
  exists pre post,
    s = pre ++ post /\ word_at w (last_of prev pre) post = true.
Proof.
  revert prev. induction s as [| c s IH]; intros prev.
  - cbn [search_from]. rewrite match_at_whole_word.
    destruct (word_at w prev []) eqn:E.
    + split; [| reflexivity]. intros _. exists [], []. now split.
    + split; [discriminate |].
      intros (pre & post & H & Hw).
      symmetry in H. apply app_eq_nil in H as [-> ->].
      cbn in Hw. congruence.
  - cbn [search_from]. rewrite match_at_whole_word.
    destruct (word_at w prev (c :: s)) eqn:E.
    + split; [| reflexivity]. intros _. exists [], (c :: s). now split.
    + rewrite IH. split.
      * intros (pre & post & -> & Hw). exists (c :: pre), post.
        split; [reflexivity |]. now rewrite last_of_cons.
      * intros (pre & post & H & Hw).
        destruct pre as [| x pre].
        -- cbn [app] in H. subst post. cbn in Hw. congruence.
        -- cbn [app] in H. injection H as <- ->.
           exists pre, post. split; [reflexivity |].
           now rewrite last_of_cons in Hw.
Qed.

Lemma starts_with_iff (w s : text) :
  starts_with w s = true <-> exists post, s = w ++ post.
Proof.
  revert s. induction w as [| c w IH]; intros s.
  - split; [intros _; now exists s | reflexivity].
  - destruct s as [| x s]; cbn [starts_with].
    + split; [discriminate | intros [post H]; discriminate H].
    + rewrite andb_true_iff, Ascii.eqb_eq, IH. split.
      * intros [-> [post ->]]. now exists post.
      * intros [post H]. injection H as -> ->. split; [reflexivity |].
        now exists post.
Qed.

Lemma skipn_app_exact {A : Type} (w post : list A) :
  skipn (List.length w) (w ++ post) = post.
Proof. induction w as [| c w IH]; [reflexivity | exact IH]. Qed.

(** For a literal with word characters at both ends, the two boundaries
    say that no word character stands before or after it. *)
Lemma word_at_edges (w : text) (prev : option ascii) (s : text) :
  word_edges w = true ->
  (word_at w prev s = true <->
   opt_word prev = false /\
   exists post, s = w ++ post /\ opt_word (hd_error post) = false).
Proof.
  intros He. unfold word_edges in He. apply andb_prop in He as [H1 H2].
  assert (Hl : opt_word (last_of prev w) = true).
  { destruct w as [| c w]; [discriminate H1 |].
    rewrite last_of_cons in *. exact H2. }
  unfold word_at. rewrite !andb_true_iff, starts_with_iff. split.
  - intros [[Hx [post ->]] Hy].
    rewrite skipn_app_exact in Hy. rewrite Hl in Hy.
    assert (Hh : opt_word (hd_error (w ++ post)) = true)
      by (destruct w; [discriminate H1 | exact H1]).
    rewrite Hh in Hx.
    split; [now destruct (opt_word prev) |].
    exists post. split; [reflexivity |].
    now destruct (opt_word (hd_error post)).
  - intros [Hp (post & -> & Hq)].
    rewrite skipn_app_exact, Hl, Hq, Hp.
    assert (Hh : opt_word (hd_error (w ++ post)) = true)
      by (destruct w; [discriminate H1 | exact H1]).
    rewrite Hh. repeat split. now exists post.
Qed.

(** ** Whole words in the keyword analyzer *)

(** X12.  An action verb is found in a resume exactly when the
    lower-cased text holds the verb with no word character (letter,
    digit or underscore) directly before it and none directly after. *)
Theorem X12_action_verb_whole_word (resume_text v : text) :
  In v ACTION_VERBS ->
  (In v (verbs_found resume_text) <->
   exists pre post,
     lower resume_text = pre ++ v ++ post /\
     opt_word (last_of None pre) = false /\
     opt_word (hd_error post) = false).
Proof.
  intros Hv.
  assert (He : word_edges v = true).
  { assert (A : forallb word_edges ACTION_VERBS = true)
      by (vm_compute; reflexivity).
    rewrite forallb_forall in A. exact (A v Hv). }
  unfold verbs_found. rewrite filter_In. unfold has_verb, re_search.
  rewrite search_whole_word. split.
  - intros [_ (pre & post & E & W)].
    apply (@word_at_edges v _ _ He) in W as [Hp (post' & -> & Hq)].
    now exists pre, post'.
  - intros (pre & post & E & Hp & Hq). split; [exact Hv |].
    exists pre, (v ++ post). split; [exact E |].
    apply (@word_at_edges v _ _ He). split; [exact Hp |]. now exists post.
Qed.

(** "led" is found in "Team Led": between a space and the end. *)
Lemma X12_witness :
  In (T "led") ACTION_VERBS /\
  (In (T "led") (verbs_found (T "Team Led")) <->
   exists pre post,
     lower (T "Team Led") = pre ++ T "led" ++ post /\
     opt_word (last_of None pre) = false /\
     opt_word (hd_error post) = false).
Proof.
  assert (H : In (T "led") ACTION_VERBS).
  { apply mem_In. vm_compute. reflexivity. }
  split; [exact H |].
  exact (@X12_action_verb_whole_word (T "Team Led") (T "led") H).
Defined.

(** ** extract_skills *)

Lemma skill_loop (text_lower : text) (kws acc : list text) :
  fold_left (skill_step text_lower) kws acc =
  acc ++ map title (filter (has_verb text_lower) kws).
Proof.
  revert acc. induction kws as [| k kws IH]; intros acc.
  - cbn. now rewrite app_nil_r.
  - cbn [fold_left filter]. unfold skill_step at 2.
    fold (has_verb text_lower k).
    destruct (has_verb text_lower k); rewrite IH;
      [rewrite <- app_assoc |]; reflexivity.
Qed.

Lemma to_set_of_NoDup (l : list text) : NoDup l -> to_set l = l.
Proof.
  induction 1 as [| y l Hy Hl IH]; [reflexivity |].
  cbn [to_set]. rewrite IH. f_equal. apply filter_all.
  intros x Hx. apply negb_true_iff.
  destruct (text_eqb y x) eqn:E; [| reflexivity].
  apply text_eqb_eq in E. subst x. contradiction.
Qed.

(** Images that are distinct stay distinct when entries are dropped. *)
Lemma distinct_images_kept {A B : Type} (keep : A -> bool) (image : A -> B)
    (xs : list A) (D : NoDup (map image xs)) :
  NoDup (map image (filter keep xs)).
Proof.
  induction xs as [| x xs IH]; [constructor |].
  cbn [map] in D. apply NoDup_cons_iff in D as [Hx Hxs].
  cbn [filter]. destruct (keep x); [| exact (IH Hxs)].
  cbn [map]. apply NoDup_cons; [| exact (IH Hxs)].
  intros Hin. apply Hx. apply in_map_iff in Hin as (y & E & Hy).
  apply filter_In in Hy as [Hy _]. apply in_map_iff. now exists y.
Qed.

(** The titles of the keywords are distinct, and lower-casing a title
    gives the keyword back. *)
Lemma SKILL_KEYWORDS_titles :
  NoDup (map title SKILL_KEYWORDS) /\
  (forall k, In k SKILL_KEYWORDS -> lower (title k) = k).
Proof.
  split.
  - assert (E : to_set (map title SKILL_KEYWORDS) = map title SKILL_KEYWORDS)
      by (vm_compute; reflexivity).
    rewrite <- E. apply to_set_NoDup.
  - assert (A : forallb (fun k => text_eqb (lower (title k)) k)
                        SKILL_KEYWORDS = true) by (vm_compute; reflexivity).
    rewrite forallb_forall in A. intros k Hk. now apply text_eqb_eq, A.
Qed.

Lemma extract_skills_eq (resume_text : text) :
  extract_skills resume_text = map title (keywords_found resume_text).
Proof.
  unfold extract_skills, keywords_found. cbv zeta.
  rewrite skill_loop, app_nil_l.
  apply to_set_of_NoDup. apply distinct_images_kept.
  exact (proj1 SKILL_KEYWORDS_titles).
Qed.

Lemma lower_extract_skills (resume_text : text) :
  map lower (extract_skills resume_text) = keywords_found resume_text.
Proof.
  rewrite extract_skills_eq, map_map. unfold keywords_found.
  generalize (has_verb (lower resume_text)). intros f.
  transitivity (map (fun k : text => k) (filter f SKILL_KEYWORDS));
    [| apply map_id].
  apply map_ext_in. intros k Hk. apply filter_In in Hk as [Hk _].
  exact (proj2 SKILL_KEYWORDS_titles k Hk).
Qed.


(** ** Keywords that end with a symbol *)

Lemma is_word_lower_char (c : ascii) : is_word (lower_char c) = is_word c.
Proof. destruct c as [[] [] [] [] [] [] [] []]; reflexivity. Qed.

Lemma followed_by_word_lower (ch : ascii) (s : text) :
  is_upper ch = false -> is_lower ch = false ->
  followed_by_word ch (lower s) = followed_by_word ch s.
Proof.
  intros Hu Hl. induction s as [| x s IH]; [reflexivity |].
  change (lower (x :: s)) with (lower_char x :: lower s).
  cbn [followed_by_word]. rewrite IH. f_equal. f_equal.
  - unfold lower_char. destruct (is_upper x) eqn:Ux; [| reflexivity].
    destruct (Ascii.eqb x ch) eqn:E1.
    + apply Ascii.eqb_eq in E1. subst. congruence.
    + destruct (Ascii.eqb (ascii_of_N (code x + 32)) ch) eqn:E2;
        [| reflexivity].
      apply Ascii.eqb_eq in E2. subst ch. exfalso. clear - Ux Hl.
      destruct x as [[] [] [] [] [] [] [] []]; discriminate.
  - destruct s as [| y s]; [reflexivity |]. cbn. apply is_word_lower_char.
Qed.

Lemma followed_by_word_app (ch : ascii) (pre post : text) :
  followed_by_word ch post = true -> followed_by_word ch (pre ++ post) = true.
Proof.
  intros H. induction pre as [| x pre IH]; [exact H |].
  cbn [app followed_by_word]. rewrite IH. apply orb_true_r.
Qed.

(** A keyword that ends with a symbol is found only where the symbol is
    directly followed by a word character. *)
Lemma symbol_keyword_needs_word (k : text) (ch : ascii) (s : text) :
  last_of None k = Some ch -> is_word ch = false ->
  has_verb s k = true -> followed_by_word ch s = true.
Proof.
  intros Hl Hw H. unfold has_verb, re_search in H.
  apply search_whole_word in H as (pre & post & -> & W).
  apply followed_by_word_app.
  unfold word_at in W. apply andb_prop in W as [W Hend].
  apply andb_prop in W as [_ Hs].
  apply starts_with_iff in Hs as [rest ->].
  rewrite skipn_app_exact in Hend.
  assert (Hk : exists k0, k = k0 ++ [ch]).
  { unfold last_of in Hl. destruct (rev k) as [| c r] eqn:E; [discriminate |].
    injection Hl as ->. exists (rev r).
    rewrite <- (rev_involutive k), E. reflexivity. }
  destruct Hk as [k0 ->].
  assert (Hlast : forall p, last_of p (k0 ++ [ch]) = Some ch)
    by (intros p; apply last_of_app1).
  rewrite Hlast in Hend. cbn [opt_word] in Hend. rewrite Hw in Hend.
  cbn [xorb] in Hend. rewrite <- app_assoc.
  apply followed_by_word_app. cbn [app followed_by_word].
  rewrite Ascii.eqb_refl.
  destruct (opt_word (hd_error rest)); [reflexivity | discriminate].
Qed.

Lemma keywords_found_In (resume_text k : text) :
  In k (keywords_found resume_text) ->
  has_verb (lower resume_text) k = true.
Proof.
  unfold keywords_found. generalize (has_verb (lower resume_text)).
  intros f H. now apply filter_In in H.
Qed.

Lemma symbol_keyword_not_extracted (resume_text k : text) (ch : ascii) :
  In k SKILL_KEYWORDS ->
  last_of None k = Some ch -> is_word ch = false ->
  is_upper ch = false -> is_lower ch = false ->
  followed_by_word ch resume_text = false ->
  ~ In (title k) (extract_skills resume_text).
Proof.
  intros Hk Hl Hw Hu Hlo Hf Hin.
  pose proof (in_map lower _ _ Hin) as Hin'.
  rewrite lower_extract_skills in Hin'.
  rewrite (proj2 SKILL_KEYWORDS_titles k Hk) in Hin'.
  apply keywords_found_In in Hin'.
  apply (@symbol_keyword_needs_word k ch (lower resume_text) Hl Hw) in Hin'.
  rewrite (@followed_by_word_lower ch resume_text Hu Hlo) in Hin'.
  congruence.
Qed.

(** X14.  The parser looks for "c++" and "c#" between two word
    boundaries, and a boundary after a symbol needs a word character:
    in a resume where no "+" and no "#" is directly followed by a
    letter, digit or underscore, the skills C++ and C# are never
    extracted, however often they are written. *)
Theorem X14_symbol_skills_not_extracted (resume_text : text) :
  followed_by_word "+" resume_text = false ->
  followed_by_word "#" resume_text = false ->
  ~ In (T "C++") (extract_skills resume_text) /\
  ~ In (T "C#") (extract_skills resume_text).
Proof.
  intros Hplus Hsharp.
  assert (K1 : In (T "c++") SKILL_KEYWORDS)
    by (apply mem_In; vm_compute; reflexivity).
  assert (K2 : In (T "c#") SKILL_KEYWORDS)
    by (apply mem_In; vm_compute; reflexivity).
  split.
  - exact (@symbol_keyword_not_extracted resume_text (T "c++") "+"%char
             K1 eq_refl eq_refl eq_refl eq_refl Hplus).
  - exact (@symbol_keyword_not_extracted resume_text (T "c#") "#"%char
             K2 eq_refl eq_refl eq_refl eq_refl Hsharp).
Qed.

(** A resume that names C++, C# and Java: only Java is extracted. *)
Lemma X14_witness :
  followed_by_word "+" cpp_resume = false /\
  followed_by_word "#" cpp_resume = false /\
  (~ In (T "C++") (extract_skills cpp_resume) /\
   ~ In (T "C#") (extract_skills cpp_resume)) /\
  extract_skills cpp_resume = [T "Java"].
Proof.
  assert (H1 : followed_by_word "+" cpp_resume = false) by reflexivity.
  assert (H2 : followed_by_word "#" cpp_resume = false) by reflexivity.
  split; [exact H1 |]. split; [exact H2 |].
  split; [exact (X14_symbol_skills_not_extracted cpp_resume H1 H2) |].
  vm_compute. reflexivity.
Defined.

(** ** White space at the ends of a text *)

Lemma lstrip_blank (s : text) : lstrip s = [] <-> forallb is_space s = true.
Proof.
  induction s as [| c s IH]; [now split |].
  cbn [lstrip forallb]. destruct (is_space c); cbn [andb].
  - exact IH.
  - split; discriminate.
Qed.

(** What [lstrip] leaves begins with a character that is no white
    space, and was preceded by white space only. *)
Lemma lstrip_spec (s : text) :
  exists pre, s = pre ++ lstrip s /\ forallb is_space pre = true /\
              (lstrip s = [] \/
               exists c r, lstrip s = c :: r /\ is_space c = false).
Proof.
  induction s as [| c s (pre & E & Hp & Hl)].
  - exists []. repeat split. now left.
  - cbn [lstrip]. destruct (is_space c) eqn:Hc.
    + exists (c :: pre). cbn [app forallb]. rewrite Hc, Hp.
      split; [now rewrite <- E | split; [reflexivity | exact Hl]].
    + exists []. repeat split. right. now exists c, s.
Qed.

Lemma forallb_rev {A : Type} (f : A -> bool) (l : list A) :
  forallb f (rev l) = forallb f l.
Proof.
  induction l as [| x l IH]; [reflexivity |].
  cbn [rev forallb]. rewrite forallb_app, IH. cbn [forallb].
  rewrite andb_true_r. apply andb_comm.
Qed.

Lemma forallb_lstrip (s : text) :
  forallb is_space (lstrip s) = forallb is_space s.
Proof.
  induction s as [| c s IH]; [reflexivity |].
  cbn [lstrip forallb]. destruct (is_space c) eqn:Hc; cbn [andb].
  - exact IH.
  - cbn [forallb]. now rewrite Hc.
Qed.

(** A text strips to the empty string exactly when it is blank. *)
Lemma truthy_strip (s : text) :
  truthy (strip s) = negb (forallb is_space s).
Proof.
  assert (B : forallb is_space (strip s) = forallb is_space s).
  { unfold strip. now rewrite forallb_rev, forallb_lstrip, forallb_rev,
      forallb_lstrip. }
  destruct (strip s) as [| c r] eqn:E.
  - cbn [forallb] in B. now rewrite <- B.
  - cbn [truthy].
    destruct (forallb is_space s) eqn:F; [| reflexivity].
    exfalso.
    assert (H : strip s = []).
    { unfold strip. apply (proj2 (lstrip_blank s)) in F. rewrite F.
      reflexivity. }
    congruence.
Qed.

Lemma split_from_blank (cur s : text) :
  split_from cur s = [] <-> cur = [] /\ forallb is_space s = true.
Proof.
  revert cur. induction s as [| c s IH]; intros cur.
  - cbn [split_from forallb]. destruct cur; split; try tauto;
      try discriminate. intros [H _]. discriminate.
  - cbn [split_from forallb]. destruct (is_space c); cbn [andb].
    + destruct cur as [| x cur].
      * apply IH.
      * split; [discriminate | intros [H _]; discriminate].
    + rewrite IH. split; [intros [H _]; discriminate | intros [_ H];
        discriminate].
Qed.

Lemma split_blank (s : text) : split s = [] <-> forallb is_space s = true.
Proof. unfold split. rewrite split_from_blank. tauto. Qed.

Lemma lstrip_fixed (s : text) :
  (s = [] \/ exists c r, s = c :: r /\ is_space c = false) -> lstrip s = s.
Proof.
  intros [-> | (c & r & -> & Hc)]; [reflexivity |].
  cbn [lstrip]. now rewrite Hc.
Qed.

(** A stripped text is not changed by stripping. *)
Lemma strip_idempotent (s : text) : strip (strip s) = strip s.
Proof.
  unfold strip.
  destruct (lstrip_spec s) as (p1 & E1 & _ & H1).
  set (a := lstrip s) in *.
  destruct (lstrip_spec (rev a)) as (p2 & E2 & _ & H2).
  set (b := lstrip (rev a)) in *.
  assert (A : lstrip (rev b) = rev b).
  { apply lstrip_fixed. destruct (rev b) as [| x r] eqn:Eb; [now left |].
    right. exists x, r. split; [reflexivity |].
    assert (Ea : a = (x :: r) ++ rev p2).
    { rewrite <- (rev_involutive a), E2, rev_app_distr, Eb. reflexivity. }
    destruct H1 as [H1 | (c & r' & H1 & Hc)].
    - rewrite H1 in Ea. discriminate.
    - rewrite H1 in Ea. cbn [app] in Ea. injection Ea as -> _. exact Hc. }
  rewrite A, rev_involutive. f_equal. apply lstrip_fixed. exact H2.
Qed.

(** ** extract_text *)

Lemma ends_with_doc (s : text) :
  ends_with (T ".doc") s = true ->
  ends_with (T ".pdf") s = false /\ ends_with (T ".docx") s = false.
Proof.
  unfold ends_with.
  change (rev (T ".doc")) with ("c" :: "o" :: "d" :: "." :: nil)%char.
  destruct (rev s) as [| c r]; [discriminate |].
  cbn [starts_with].
  destruct (Ascii.eqb_spec "c" c) as [<- | _]; [| discriminate].
  intros _. split; reflexivity.
Qed.

Lemma ends_with_docx (s : text) :
  ends_with (T ".docx") s = true -> ends_with (T ".pdf") s = false.
Proof.
  unfold ends_with.
  change (rev (T ".docx")) with ("x" :: "c" :: "o" :: "d" :: "." :: nil)%char.
  destruct (rev s) as [| c r]; [discriminate |].
  cbn [starts_with].
  destruct (Ascii.eqb_spec "x" c) as [<- | _]; [| discriminate].
  intros _. reflexivity.
Qed.

(** X15.  Whatever the document libraries yield, a text returned by
    [extract_text] is never blank, so it has at least one word, and the
    file name ends in ".pdf" or ".docx" in any letter case; the text of
    a PDF has no white space at either end. *)
Theorem X15_extract_text_not_blank (bytes : Type)
    (pdfplumber_pages pypdf2_pages : bytes -> list (option text))
    (docx_document : bytes -> text + (list text * list text))
    (file_content : bytes) (filename txt : text) :
  extract_text pdfplumber_pages pypdf2_pages docx_document
    file_content filename = Parsed txt ->
  forallb is_space txt = false /\
  split txt <> [] /\
  ((ends_with (T ".pdf") (lower filename) = true /\ strip txt = txt) \/
   (ends_with (T ".pdf") (lower filename) = false /\
    ends_with (T ".docx") (lower filename) = true)).
Proof.
  unfold extract_text. cbv zeta. intros H.
  assert (G : forall e : parsed text,
            match e with
            | Parsed t =>
                if negb (truthy (strip t))
                then ValueError
                       (T "Could not extract text from the resume. The file may be corrupted or empty.")
                else Parsed t
            | ValueError m => ValueError m
            end = Parsed txt ->
            e = Parsed txt /\ forallb is_space txt = false).
  { intros [t | m] Ht; [| discriminate].
    rewrite truthy_strip, negb_involutive in Ht.
    destruct (forallb is_space t) eqn:F; [discriminate |].
    injection Ht as ->. now split. }
  destruct (ends_with (T ".pdf") (lower filename)) eqn:Epdf.
  - apply (G (Parsed _)) in H as [H B]. injection H as <-.
    split; [exact B |]. split.
    + intros S. apply split_blank in S. congruence.
    + left. split; [reflexivity |]. unfold extract_text_from_pdf. cbv zeta.
      apply strip_idempotent.
  - destruct (ends_with (T ".docx") (lower filename)) eqn:Edocx.
    + apply G in H as [_ B]. split; [exact B |]. split.
      * intros S. apply split_blank in S. congruence.
      * right. now split.
    + destruct (ends_with (T ".doc") (lower filename)); discriminate H.
Qed.

Lemma X15_witness :
  extract_text example_pdf_pages example_no_pages example_docx tt
    (T "Resume.PDF") = Parsed (T "Jane Doe" ++ [newline] ++ T "Engineer") /\
  forallb is_space (T "Jane Doe" ++ [newline] ++ T "Engineer") = false /\
  split (T "Jane Doe" ++ [newline] ++ T "Engineer") <> [] /\
  ((ends_with (T ".pdf") (lower (T "Resume.PDF")) = true /\
    strip (T "Jane Doe" ++ [newline] ++ T "Engineer")
    = T "Jane Doe" ++ [newline] ++ T "Engineer") \/
   (ends_with (T ".pdf") (lower (T "Resume.PDF")) = false /\
    ends_with (T ".docx") (lower (T "Resume.PDF")) = true)).
Proof.
  assert (H : extract_text example_pdf_pages example_no_pages example_docx tt
                (T "Resume.PDF")
              = Parsed (T "Jane Doe" ++ [newline] ++ T "Engineer"))
    by (vm_compute; reflexivity).
  split; [exact H |].
  exact (X15_extract_text_not_blank _ _ _ _ _ H).
Defined.

(** X16.  A file whose name ends in ".doc", in any letter case, is
    refused with the message for the DOC format before any library is
    called, whatever the content; ".docx" names are not taken for it. *)
Theorem X16_doc_files_refused (bytes : Type)
    (pdfplumber_pages pypdf2_pages : bytes -> list (option text))
    (docx_document : bytes -> text + (list text * list text))
    (file_content : bytes) (filename : text) :
  ends_with (T ".doc") (lower filename) = true ->
  extract_text pdfplumber_pages pypdf2_pages docx_document
    file_content filename
  = ValueError (T "DOC format not supported. Please use DOCX or PDF.").
Proof.
  intros H. unfold extract_text. cbv zeta.
  destruct (ends_with_doc _ H) as [-> ->]. now rewrite H.
Qed.

Lemma X16_witness :
  ends_with (T ".doc") (lower (T "CV.Doc")) = true /\
  extract_text example_pdf_pages example_no_pages example_docx tt (T "CV.Doc")
  = ValueError (T "DOC format not supported. Please use DOCX or PDF.").
Proof.
  assert (H : ends_with (T ".doc") (lower (T "CV.Doc")) = true)
    by reflexivity.
  split; [exact H |].
  exact (X16_doc_files_refused example_pdf_pages example_no_pages
           example_docx tt (T "CV.Doc") H).
Defined.

Lemma add_pages_app (pages : list (option text)) (txt : text) :
  fold_left add_page pages txt = txt ++ pages_text pages.
Proof.
  unfold pages_text. revert txt.
  induction pages as [| page pages IH]; intros txt; cbn [fold_left].
  - now rewrite app_nil_r.
  - rewrite IH, (IH (add_page [] page)).
    rewrite app_assoc. f_equal.
    destruct page as [page_text |]; cbn [add_page];
      [destruct (truthy page_text) |]; cbn [app];
      now rewrite ?app_nil_r.
Qed.

Lemma lstrip_blank_prefix (w s : text) :
  forallb is_space w = true -> lstrip (w ++ s) = lstrip s.
Proof.
  induction w as [| c w IH]; [reflexivity |].
  cbn [forallb app lstrip]. destruct (is_space c); [exact IH | discriminate].
Qed.

Lemma strip_blank_prefix (w s : text) :
  forallb is_space w = true -> strip (w ++ s) = strip s.
Proof. intros H. unfold strip. now rewrite lstrip_blank_prefix. Qed.

(** The text of a PDF: that of the first library, stripped, unless it is
    blank, and then that of the second. *)
Lemma extract_text_from_pdf_eq (bytes : Type)
    (pdfplumber_pages pypdf2_pages : bytes -> list (option text))
    (file_content : bytes) :
  extract_text_from_pdf pdfplumber_pages pypdf2_pages file_content
  = if truthy (strip (pages_text (pdfplumber_pages file_content)))
    then strip (pages_text (pdfplumber_pages file_content))
    else strip (pages_text (pypdf2_pages file_content)).
Proof.
  unfold extract_text_from_pdf. cbv zeta.
  fold (pages_text (pdfplumber_pages file_content)).
  rewrite truthy_strip.
  destruct (forallb is_space (pages_text (pdfplumber_pages file_content)))
    eqn:B; cbn [negb]; [| reflexivity].
  rewrite add_pages_app. now apply strip_blank_prefix.
Qed.

(** X27.  For a file named as a PDF the text is that of pdfplumber,
    stripped, unless it is blank; then it is that of PyPDF2, stripped,
    and the white space pdfplumber gave is not kept; when both are blank
    the file is refused as corrupted or empty. *)
Theorem X27_pdf_text_of_first_reader (bytes : Type)
    (pdfplumber_pages pypdf2_pages : bytes -> list (option text))
    (docx_document : bytes -> text + (list text * list text))
    (file_content : bytes) (filename : text) :
  ends_with (T ".pdf") (lower filename) = true ->
  extract_text pdfplumber_pages pypdf2_pages docx_document
    file_content filename
  = if truthy (strip (pages_text (pdfplumber_pages file_content)))
    then Parsed (strip (pages_text (pdfplumber_pages file_content)))
    else if truthy (strip (pages_text (pypdf2_pages file_content)))
    then Parsed (strip (pages_text (pypdf2_pages file_content)))
    else ValueError
           (T "Could not extract text from the resume. The file may be corrupted or empty.").
Proof.
  intros H. unfold extract_text. cbv zeta. rewrite H.
  rewrite extract_text_from_pdf_eq.
  destruct (truthy (strip (pages_text (pdfplumber_pages file_content))))
    eqn:A.
  - now rewrite strip_idempotent, A.
  - rewrite strip_idempotent.
    now destruct (truthy (strip (pages_text (pypdf2_pages file_content)))).
Qed.

Lemma X27_witness :
  ends_with (T ".pdf") (lower (T "cv.Pdf")) = true /\
  extract_text example_blank_pages example_pdf_pages example_docx tt
    (T "cv.Pdf")
  = Parsed (T "Jane Doe" ++ [newline] ++ T "Engineer").
Proof.
  assert (H : ends_with (T ".pdf") (lower (T "cv.Pdf")) = true)
    by reflexivity.
  split; [exact H |].
  rewrite (@X27_pdf_text_of_first_reader unit example_blank_pages
             example_pdf_pages example_docx tt (T "cv.Pdf") H).
  vm_compute. reflexivity.
Defined.

Lemma blank_join (parts : list text) :
  Forall (fun p => truthy (strip p) = true) parts ->
  truthy (strip (join [newline] parts)) = truthy (join [newline] parts) /\
  (parts <> [] -> truthy (join [newline] parts) = true).
Proof.
  intros F. destruct F as [| p parts Hp F]; [now split |].
  assert (B : forallb is_space p = false).
  { rewrite truthy_strip in Hp. now destruct (forallb is_space p). }
  assert (J : exists rest, join [newline] (p :: parts) = p ++ rest).
  { destruct parts as [| q parts]; [exists []; cbn; now rewrite app_nil_r |].
    now exists ([newline] ++ join [newline] (q :: parts)). }
  destruct J as [rest ->].
  rewrite truthy_strip, forallb_app, B. cbn [andb negb].
  destruct p as [| c p]; [discriminate |]. now split.
Qed.

Lemma filter_all_kept {A : Type} (f : A -> bool) (l : list A) :
  Forall (fun x => f x = true) (filter f l).
Proof.
  apply Forall_forall. intros x H. now apply filter_In in H.
Qed.

(** X28.  For a file named as a DOCX the text is the
    paragraphs and then the table cells that are not blank, joined by
    line feeds; the file is refused as corrupted or empty exactly when
    there is none, and with the message of the library when it fails. *)
Theorem X28_docx_text (bytes : Type)
    (pdfplumber_pages pypdf2_pages : bytes -> list (option text))
    (docx_document : bytes -> text + (list text * list text))
    (file_content : bytes) (filename : text) :
  ends_with (T ".docx") (lower filename) = true ->
  extract_text pdfplumber_pages pypdf2_pages docx_document
    file_content filename
  = match docx_document file_content with
    | inl e => ValueError (T "Failed to extract text from DOCX: " ++ e)
    | inr (paragraphs, cells) =>
        match docx_parts paragraphs cells with
        | [] =>
            ValueError
              (T "Could not extract text from the resume. The file may be corrupted or empty.")
        | _ :: _ => Parsed (join [newline] (docx_parts paragraphs cells))
        end
    end.
Proof.
  intros H2. pose proof (ends_with_docx _ H2) as H1.
  unfold extract_text. cbv zeta. rewrite H1, H2.
  unfold extract_text_from_docx.
  destruct (docx_document file_content) as [e | [paragraphs cells]];
    [reflexivity |].
  cbv zeta. fold (docx_parts paragraphs cells).
  assert (F : Forall (fun p => truthy (strip p) = true)
                (docx_parts paragraphs cells)).
  { unfold docx_parts. apply Forall_app. split; apply filter_all_kept. }
  destruct (blank_join F) as [E N]. rewrite E.
  destruct (docx_parts paragraphs cells) as [| p parts]; [reflexivity |].
  rewrite N by discriminate. reflexivity.
Qed.

Lemma X28_witness :
  ends_with (T ".docx") (lower (T "cv.DOCX")) = true /\
  extract_text example_pdf_pages example_no_pages example_docx tt
    (T "cv.DOCX")
  = Parsed (T "Jane Doe" ++ [newline] ++ T "Skills").
Proof.
  assert (H : ends_with (T ".docx") (lower (T "cv.DOCX")) = true)
    by reflexivity.
  split; [exact H |].
  rewrite (@X28_docx_text unit example_pdf_pages example_no_pages
             example_docx tt (T "cv.DOCX") H).
  vm_compute. reflexivity.
Defined.

(** ** extract_sections *)

Lemma dict_set_In (d : list (text * text)) (key value name v : text) :
  In (name, v) (dict_set d key value) ->
  (name = key /\ v = value) \/ In (name, v) d.
Proof.
  induction d as [| [k0 v0] d IH]; cbn [dict_set].
  - intros [E | []]. injection E as <- <-. now left.
  - destruct (text_eqb k0 key) eqn:E.
    + apply text_eqb_eq in E. subst k0. intros [H | H].
      * injection H as <- <-. now left.
      * right. now right.
    + intros [H | H].
      * right. now left.
      * destruct (IH H) as [H' | H']; [now left | right; now right].
Qed.

Lemma dict_set_keys (d : list (text * text)) (key value name : text) :
  In name (map fst (dict_set d key value)) ->
  name = key \/ In name (map fst d).
Proof.
  induction d as [| [k0 v0] d IH]; cbn [dict_set].
  - intros [E | []]. now left.
  - destruct (text_eqb k0 key) eqn:E.
    + intros H. right. exact H.
    + cbn [map fst]. intros [H | H].
      * right. now left.
      * destruct (IH H) as [H' | H']; [now left | right; now right].
Qed.

(** An assignment keeps the keys of a dictionary distinct. *)
Lemma dict_set_NoDup (d : list (text * text)) (key value : text) :
  NoDup (map fst d) -> NoDup (map fst (dict_set d key value)).
Proof.
  induction d as [| [k0 v0] d IH]; cbn [dict_set].
  - intros _. cbn. constructor; [intros [] | constructor].
  - destruct (text_eqb k0 key) eqn:E; [trivial |].
    cbn [map fst]. intros N. inversion N as [| ? ? Hn Hd]; subst.
    constructor; [| now apply IH].
    intros H. apply dict_set_keys in H as [H | H]; [| contradiction].
    subst k0. assert (F : text_eqb key key = true) by now apply text_eqb_eq.
    congruence.
Qed.

Lemma join_not_empty (sep : text) (parts : list text) :
  parts <> [] -> Forall (fun l => l <> []) parts -> join sep parts <> [].
Proof.
  destruct parts as [| p parts]; [congruence |].
  intros _ F. inversion F as [| ? ? Hp _]; subst.
  destruct p as [| c p]; [congruence |].
  cbn [join]. destruct parts; cbn; discriminate.
Qed.

Lemma find_section_In (patterns : list (text * regex)) (l name : text) :
  find_section patterns l = Some name -> In name (map fst patterns).
Proof.
  induction patterns as [| [n r] patterns IH]; cbn [find_section].
  - discriminate.
  - destruct (re_match_i r l && (len l <? 50)%Z).
    + intros E. injection E as <-. now left.
    + intros E. right. now apply IH.
Qed.

Lemma save_section_ok (lines : list text) (sections : list (text * text))
    (current_section : text) (current_content : list text) :
  sections_state_ok lines (sections, current_section, current_content) ->
  NoDup (map fst (save_section sections current_section current_content)) /\
  (forall name value,
      In (name, value)
         (save_section sections current_section current_content) ->
      section_of_lines lines name value).
Proof.
  intros (N & S & C & F). unfold save_section.
  destruct current_content as [| l content]; [now split |].
  split; [now apply dict_set_NoDup |].
  intros name value H. apply dict_set_In in H as [[-> ->] | H];
    [| now apply S].
  split; [exact C |]. split.
  - apply join_not_empty; [discriminate |].
    eapply Forall_impl; [| exact F]. intros a (_ & Ha & _). exact Ha.
  - exists (l :: content). split; [reflexivity |].
    split; [discriminate | exact F].
Qed.

Lemma section_line_ok (lines : list text)
    (st : list (text * text) * text * list text) (line : text) :
  In line lines ->
  sections_state_ok lines st -> sections_state_ok lines (section_line st line).
Proof.
  intros Hin Hst. destruct st as [[sections current_section] content].
  unfold section_line.
  destruct (strip line) as [| c l] eqn:El; [exact Hst |].
  cbn [truthy negb]. rewrite <- El.
  destruct (find_section SECTION_PATTERNS (strip line)) as [found |] eqn:F.
  - destruct (save_section_ok Hst) as [N S].
    split; [exact N |]. split; [exact S |]. split; [| constructor].
    right. exact (find_section_In _ _ F).
  - destruct Hst as (N & S & C & Fc).
    split; [exact N |]. split; [exact S |]. split; [exact C |].
    apply Forall_app. split; [exact Fc |]. constructor; [| constructor].
    split; [now apply in_map |]. split; [| exact F].
    rewrite El. discriminate.
Qed.

Lemma section_lines_ok (lines : list text) (some : list text)
    (st : list (text * text) * text * list text) :
  incl some lines ->
  sections_state_ok lines st ->
  sections_state_ok lines (fold_left section_line some st).
Proof.
  revert st. induction some as [| line some IH]; intros st I Hst.
  - exact Hst.
  - cbn [fold_left]. apply IH.
    + intros x Hx. apply I. now right.
    + apply section_line_ok; [apply I; now left | exact Hst].
Qed.

(** X17.  The sections of a resume have distinct names, each "header" or
    one of the six section names; no section is empty, and each is the
    lines of content joined by line feeds: lines of the resume, stripped,
    none empty and none a section header. *)
Theorem X17_sections_of_content_lines (resume_text : text) :
  NoDup (map fst (extract_sections resume_text)) /\
  forall name value,
    In (name, value) (extract_sections resume_text) ->
    section_of_lines (split_lines resume_text) name value.
Proof.
  unfold extract_sections. cbv zeta.
  pose proof (@section_lines_ok (split_lines resume_text)
                (split_lines resume_text) ([], T "header", [])
                (incl_refl _)) as H.
  destruct (fold_left section_line (split_lines resume_text)
              ([], T "header", [])) as [[sections current_section] content].
  apply save_section_ok. apply H.
  split; [constructor |]. split; [intros ? ? [] |].
  split; [now left | constructor].
Qed.

Lemma section_lines_plain (some : list text) (content : list text) :
  (forall line, In line some -> is_header line = false) ->
  fold_left section_line some ([], T "header", content)
  = ([], T "header", content ++ filter truthy (map strip some)).
Proof.
  revert content. induction some as [| line some IH]; intros content H.
  - cbn. now rewrite app_nil_r.
  - cbn [fold_left map filter].
    assert (Hl : is_header line = false) by (apply H; now left).
    unfold is_header in Hl. unfold section_line at 2.
    destruct (strip line) as [| c l] eqn:El.
    + cbn [truthy negb]. apply IH. intros x Hx. apply H. now right.
    + cbn [truthy negb].
      destruct (find_section SECTION_PATTERNS (c :: l)); [discriminate |].
      rewrite IH by (intros x Hx; apply H; now right).
      now rewrite <- app_assoc.
Qed.

(** X18.  A resume without a section header has at most one section,
    "header": its non-blank lines, stripped and joined by line feeds. *)
Theorem X18_no_header_one_section (resume_text : text) :
  (forall line, In line (split_lines resume_text) ->
                is_header line = false) ->
  extract_sections resume_text
  = match stripped_lines resume_text with
    | [] => []
    | _ :: _ => [(T "header", join [newline] (stripped_lines resume_text))]
    end.
Proof.
  intros H. unfold extract_sections, stripped_lines. cbv zeta.
  rewrite (section_lines_plain _ [] H). cbn [app].
  destruct (filter truthy (map strip (split_lines resume_text)));
    reflexivity.
Qed.

Lemma X18_witness :
  extract_sections (T "  Jane Doe " ++ [newline; newline] ++ T "Engineer")
  = match stripped_lines
            (T "  Jane Doe " ++ [newline; newline] ++ T "Engineer") with
    | [] => []
    | _ :: _ =>
        [(T "header",
          join [newline]
            (stripped_lines
               (T "  Jane Doe " ++ [newline; newline] ++ T "Engineer")))]
    end.
Proof.
  apply X18_no_header_one_section.
  intros line H. vm_compute in H.
  destruct H as [<- | [<- | [<- | []]]]; vm_compute; reflexivity.
Defined.

Lemma section_lines_headers (some : list text) (current_section : text) :
  (forall line, In line some ->
                truthy (strip line) = false \/ is_header line = true) ->
  exists name,
    fold_left section_line some ([], current_section, []) = ([], name, []).
Proof.
  revert current_section.
  induction some as [| line some IH]; intros current_section H.
  - now exists current_section.
  - cbn [fold_left].
    assert (Hl : truthy (strip line) = false \/ is_header line = true)
      by (apply H; now left).
    assert (Hs : forall x, In x some ->
                 truthy (strip x) = false \/ is_header x = true)
      by (intros x Hx; apply H; now right).
    unfold is_header in Hl. unfold section_line at 2.
    destruct Hl as [Hl | Hl].
    + rewrite Hl. cbn [negb]. now apply IH.
    + destruct (truthy (strip line)); cbn [negb]; [| now apply IH].
      destruct (find_section SECTION_PATTERNS (strip line)) as [found |];
        [| discriminate].
      cbn [save_section]. now apply IH.
Qed.

(** X19.  The text of a header line is not kept: a resume whose
    non-blank lines all begin like a section header, such as
    "Skills: Python, SQL", has no section at all. *)
Theorem X19_header_lines_dropped (resume_text : text) :
  (forall line, In line (split_lines resume_text) ->
                truthy (strip line) = false \/ is_header line = true) ->
  extract_sections resume_text = [].
Proof.
  intros H. unfold extract_sections. cbv zeta.
  destruct (section_lines_headers _ (T "header") H) as [name ->].
  reflexivity.
Qed.

Lemma X19_witness :
  extract_sections
    (T "Skills: Python, SQL" ++ [newline] ++ T "  " ++ [newline] ++
     T "Experience: 5 years at Acme") = [].
Proof.
  apply X19_header_lines_dropped.
  intros line H. vm_compute in H.
  destruct H as [<- | [<- | [<- | []]]]; vm_compute; auto.
Defined.

(** ** Letter case *)

Lemma upper_lower_char (c : ascii) : upper_char (lower_char c) = upper_char c.
Proof. destruct c as [[] [] [] [] [] [] [] []]; reflexivity. Qed.

Lemma lower_or_upper_char (c : ascii) : c = lower_char c \/ c = upper_char c.
Proof.
  destruct c as [[] [] [] [] [] [] [] []];
    first [left; reflexivity | right; reflexivity].
Qed.

(** Under [re.IGNORECASE] a class takes a letter and its lower case
    alike. *)
Lemma cls_match_lower (p : ascii -> bool) (c : ascii) :
  cls_match true p (lower_char c) = cls_match true p c.
Proof.
  unfold cls_match. cbn [andb].
  rewrite lower_char_idempotent, upper_lower_char.
  assert (H : p c = p (lower_char c) \/ p c = p (upper_char c)).
  { destruct (lower_or_upper_char c) as [E | E]; [left | right];
      f_equal; exact E. }
  destruct H as [-> | ->];
    destruct (p (lower_char c)), (p (upper_char c)); reflexivity.
Qed.

Lemma matcher_Star (ic : bool) (r : regex) (prev : option ascii) (s : text)
    (k : option ascii -> text -> option text) :
  matcher ic (Star r) prev s k
  = star_loop (matcher ic r) k (List.length s) prev s.
Proof. reflexivity. Qed.

Lemma opt_word_lower (prev : option ascii) :
  opt_word (option_map lower_char prev) = opt_word prev.
Proof. destruct prev as [c |]; [apply is_word_lower_char | reflexivity]. Qed.

(** Under [re.IGNORECASE] the matcher does on a text in lower case what
    it does on the text. *)
Lemma matcher_lower (r : regex) :
  forall (prev : option ascii) (s : text)
         (k k' : option ascii -> text -> option text),
    (forall p t, k' (option_map lower_char p) (lower t)
                 = option_map lower (k p t)) ->
    matcher true r (option_map lower_char prev) (lower s) k'
    = option_map lower (matcher true r prev s k).
Proof.
  induction r as [| p | r1 IH1 r2 IH2 | r1 IH1 r2 IH2 | r1 IH1 |];
    intros prev s k k' Hk.
  - cbn [matcher]. apply Hk.
  - cbn [matcher]. destruct s as [| c s]; [reflexivity |].
    cbn [lower map]. rewrite cls_match_lower.
    destruct (cls_match true p c); [| reflexivity].
    exact (Hk (Some c) s).
  - cbn [matcher]. apply IH1. intros p t. now apply IH2.
  - cbn [matcher]. rewrite (IH1 prev s k k' Hk), (IH2 prev s k k' Hk).
    destruct (matcher true r1 prev s k); reflexivity.
  - rewrite !matcher_Star, lower_length.
    generalize (List.length s) as fuel. intros fuel. revert prev s.
    induction fuel as [| fuel IHf]; intros prev s; cbn [star_loop].
    + apply Hk.
    + rewrite (IH1 prev s
                 (fun prev' s' =>
                    if (List.length s' <? List.length s)%nat
                    then star_loop (matcher true r1) k fuel prev' s'
                    else None)).
      * rewrite Hk.
        destruct (matcher true r1 prev s _); reflexivity.
      * intros p t. rewrite !lower_length.
        destruct (List.length t <? List.length s)%nat; [apply IHf |].
        reflexivity.
  - cbn [matcher]. rewrite opt_word_lower.
    assert (E : opt_word (hd_error (lower s)) = opt_word (hd_error s)).
    { destruct s as [| c s]; [reflexivity | apply is_word_lower_char]. }
    rewrite E. destruct (xorb _ _); [apply Hk | reflexivity].
Qed.

Lemma re_match_i_lower (pattern : regex) (s : text) :
  re_match_i pattern (lower s) = re_match_i pattern s.
Proof.
  unfold re_match_i, match_at.
  pose proof (@matcher_lower pattern None s (fun _ rest => Some rest)
                (fun _ rest => Some rest) (fun _ _ => eq_refl)) as E.
  cbn [option_map] in E. rewrite E.
  destruct (matcher true pattern None s _); reflexivity.
Qed.

Lemma find_section_lower (patterns : list (text * regex)) (l : text) :
  find_section patterns (lower l) = find_section patterns l.
Proof.
  induction patterns as [| [n r] patterns IH]; cbn [find_section];
    [reflexivity |].
  rewrite re_match_i_lower, IH. unfold len. now rewrite lower_length.
Qed.

Lemma lstrip_lower (s : text) : lstrip (lower s) = lower (lstrip s).
Proof.
  induction s as [| c s IH]; [reflexivity |].
  cbn [lower map lstrip]. rewrite is_space_lower_char.
  destruct (is_space c); [exact IH | reflexivity].
Qed.

Lemma strip_lower (s : text) : strip (lower s) = lower (strip s).
Proof.
  unfold strip. now rewrite lstrip_lower, rev_lower, lstrip_lower, rev_lower.
Qed.

Lemma newline_lower_char (c : ascii) :
  Ascii.eqb (lower_char c) newline = Ascii.eqb c newline.
Proof. destruct c as [[] [] [] [] [] [] [] []]; reflexivity. Qed.

Lemma split_lines_from_lower (cur s : text) :
  split_lines_from (lower cur) (lower s)
  = map lower (split_lines_from cur s).
Proof.
  revert cur. induction s as [| c s IH]; intros cur.
  - cbn [lower map split_lines_from]. now rewrite <- rev_lower.
  - cbn [lower map split_lines_from]. rewrite newline_lower_char.
    destruct (Ascii.eqb c newline).
    + cbn [map]. f_equal; [now rewrite <- rev_lower | exact (IH [])].
    + exact (IH (c :: cur)).
Qed.

Lemma join_lower (parts : list text) :
  join [newline] (map lower parts) = lower (join [newline] parts).
Proof.
  induction parts as [| p parts IH]; [reflexivity |].
  destruct parts as [| q parts]; [reflexivity |].
  change (join [newline] (map lower (p :: q :: parts)))
    with (lower p ++ [newline] ++ join [newline] (map lower (q :: parts))).
  rewrite IH. unfold lower. cbn [join]. now rewrite !map_app.
Qed.

Lemma dict_set_lower (d : list (text * text)) (key value : text) :
  dict_set (lower_values d) key (lower value)
  = lower_values (dict_set d key value).
Proof.
  induction d as [| [k0 v0] d IH]; [reflexivity |].
  cbn [lower_values map fst snd dict_set].
  destruct (text_eqb k0 key); [reflexivity |].
  cbn [map fst snd]. f_equal. exact IH.
Qed.

Lemma save_section_lower (sections : list (text * text))
    (current_section : text) (current_content : list text) :
  save_section (lower_values sections) current_section
    (map lower current_content)
  = lower_values (save_section sections current_section current_content).
Proof.
  destruct current_content as [| l content]; [reflexivity |].
  unfold save_section.
  change (map lower (l :: content)) with (lower l :: map lower content).
  cbv iota. change (lower l :: map lower content)
    with (map lower (l :: content)).
  rewrite join_lower. apply dict_set_lower.
Qed.

Lemma truthy_lower (s : text) : truthy (lower s) = truthy s.
Proof. destruct s; reflexivity. Qed.

Lemma section_line_lower (st : list (text * text) * text * list text)
    (line : text) :
  section_line (lower_state st) (lower line)
  = lower_state (section_line st line).
Proof.
  destruct st as [[sections current_section] content].
  unfold section_line, lower_state.
  rewrite strip_lower, truthy_lower, find_section_lower.
  destruct (truthy (strip line)); cbn [negb]; [| reflexivity].
  destruct (find_section SECTION_PATTERNS (strip line)) as [found |].
  - now rewrite save_section_lower.
  - now rewrite map_app.
Qed.

Lemma section_lines_lower (lines : list text)
    (st : list (text * text) * text * list text) :
  fold_left section_line (map lower lines) (lower_state st)
  = lower_state (fold_left section_line lines st).
Proof.
  revert st. induction lines as [| line lines IH]; intros st;
    [reflexivity |].
  cbn [map fold_left]. rewrite section_line_lower. apply IH.
Qed.

(** X20.  On ASCII text section headers are recognised in any letter
    case: the sections of a resume of ASCII characters put in lower case
    are the sections of the resume, under the same names, with their
    contents in lower case. *)
Theorem X20_sections_ignore_case (resume_text : text) :
  is_ascii resume_text = true ->
  extract_sections (lower resume_text)
  = lower_values (extract_sections resume_text).
Proof.
  intros _. unfold extract_sections. cbv zeta.
  unfold split_lines.
  change (split_lines_from [] (lower resume_text))
    with (split_lines_from (lower []) (lower resume_text)).
  rewrite split_lines_from_lower.
  change ([], T "header", [])
    with (lower_state ([], T "header", [])) at 1.
  rewrite section_lines_lower.
  destruct (fold_left section_line (split_lines_from [] resume_text)
              ([], T "header", [])) as [[sections current_section] content].
  apply save_section_lower.
Qed.

Lemma X20_witness :
  is_ascii (T "Jane Doe" ++ [newline] ++ T "SKILLS" ++ [newline]
            ++ T "Python, SQL") = true /\
  extract_sections (lower (T "Jane Doe" ++ [newline] ++ T "SKILLS"
                           ++ [newline] ++ T "Python, SQL"))
  = [(T "header", T "jane doe"); (T "skills", T "python, sql")] /\
  extract_sections (lower (T "Jane Doe" ++ [newline] ++ T "SKILLS"
                           ++ [newline] ++ T "Python, SQL"))
  = lower_values
      (extract_sections (T "Jane Doe" ++ [newline] ++ T "SKILLS"
                         ++ [newline] ++ T "Python, SQL")).
Proof.
  assert (H : is_ascii (T "Jane Doe" ++ [newline] ++ T "SKILLS" ++ [newline]
                        ++ T "Python, SQL") = true) by reflexivity.
  split; [exact H |]. split; [vm_compute; reflexivity |].
  exact (X20_sections_ignore_case _ H).
Defined.

(** ** What a match can be *)

Lemma star_loop_sound (ic : bool) (r1 : regex)
    (k : option ascii -> text -> option text) :
  (forall prev s k out,
      matcher ic r1 prev s k = Some out ->
      exists s1 s2 prev',
        s = s1 ++ s2 /\ lang ic r1 s1 /\ k prev' s2 = Some out) ->
  forall fuel prev s out,
    star_loop (matcher ic r1) k fuel prev s = Some out ->
    exists parts s2 prev',
      s = List.concat parts ++ s2 /\ Forall (lang ic r1) parts /\
      k prev' s2 = Some out.
Proof.
  intros IH. induction fuel as [| fuel IHf]; intros prev s out H;
    cbn [star_loop] in H.
  - exists [], s, prev. repeat split; [constructor | exact H].
  - destruct (matcher ic r1 prev s _) as [rest |] eqn:M.
    + injection H as ->.
      apply IH in M as (s1 & s2 & prev' & E & L & K). cbv beta in K.
      destruct (List.length s2 <? List.length s)%nat; [| discriminate].
      apply IHf in K as (parts & s3 & prev'' & E' & F & K).
      exists (s1 :: parts), s3, prev''. cbn [List.concat].
      rewrite <- app_assoc, <- E', <- E.
      split; [reflexivity |]. split; [now constructor | exact K].
    + exists [], s, prev. repeat split; [constructor | exact H].
Qed.

(** A match of the backtracking matcher takes from the front of the
    text a text of the language of the pattern, and hands the rest to
    its continuation. *)
Lemma matcher_sound (ic : bool) (r : regex) :
  forall prev s k out,
    matcher ic r prev s k = Some out ->
    exists s1 s2 prev',
      s = s1 ++ s2 /\ lang ic r s1 /\ k prev' s2 = Some out.
Proof.
  induction r as [| p | r1 IH1 r2 IH2 | r1 IH1 r2 IH2 | r1 IH1 |];
    intros prev s k out H.
  - exists [], s, prev. repeat split. exact H.
  - cbn [matcher] in H. destruct s as [| c s]; [discriminate |].
    destruct (cls_match ic p c) eqn:C; [| discriminate].
    exists [c], s, (Some c). repeat split; [| exact H].
    exists c. now split.
  - cbn [matcher] in H.
    apply IH1 in H as (s1 & s2 & prev' & -> & L1 & H). cbv beta in H.
    apply IH2 in H as (s3 & s4 & prev'' & -> & L2 & H).
    exists (s1 ++ s3), s4, prev''. rewrite <- app_assoc.
    split; [reflexivity |]. split; [| exact H].
    exists s1, s3. repeat split; assumption.
  - cbn [matcher] in H.
    destruct (matcher ic r1 prev s k) as [rest |] eqn:M.
    + injection H as ->.
      apply IH1 in M as (s1 & s2 & prev' & -> & L & K).
      exists s1, s2, prev'. repeat split; [now left | exact K].
    + apply IH2 in H as (s1 & s2 & prev' & -> & L & K).
      exists s1, s2, prev'. repeat split; [now right | exact K].
  - rewrite matcher_Star in H.
    apply (@star_loop_sound ic r1 k IH1) in H
      as (parts & s2 & prev' & -> & F & K).
    exists (List.concat parts), s2, prev'. repeat split; [| exact K].
    exists parts. now split.
  - cbn [matcher] in H.
    destruct (xorb _ _); [| discriminate].
    exists [], s, prev. repeat split. exact H.
Qed.

Lemma firstn_front {A : Type} (s1 s2 : list A) :
  firstn (List.length (s1 ++ s2) - List.length s2) (s1 ++ s2) = s1.
Proof.
  rewrite length_app, Nat.add_sub.
  rewrite firstn_app, Nat.sub_diag, firstn_all. cbn. apply app_nil_r.
Qed.

(** The group of a search is a part of the text, in the language of the
    pattern. *)
Lemma match_at_sound (ic : bool) (r : regex) (prev : option ascii)
    (s rest : text) :
  match_at ic r prev s = Some rest ->
  exists g, s = g ++ rest /\ lang ic r g.
Proof.
  unfold match_at. intros M.
  apply matcher_sound in M as (s1 & s2 & prev' & E & L & K).
  injection K as ->. now exists s1.
Qed.

Lemma search_group_from_eq (ic : bool) (r : regex) (prev : option ascii)
    (s : text) :
  search_group_from ic r prev s
  = match match_at ic r prev s with
    | Some rest => Some (firstn (List.length s - List.length rest) s)
    | None =>
        match s with
        | [] => None
        | c :: s' => search_group_from ic r (Some c) s'
        end
    end.
Proof. destruct s; reflexivity. Qed.

(** The group of a search is a part of the text, in the language of the
    pattern. *)
Lemma search_group_sound (ic : bool) (r : regex) (s g : text) :
  re_search_group ic r s = Some g -> part_of g s /\ lang ic r g.
Proof.
  unfold re_search_group. generalize (@None ascii) as prev. revert g.
  induction s as [| c s IH]; intros g prev H;
    rewrite search_group_from_eq in H;
    destruct (match_at ic r prev _) as [rest |] eqn:M.
  - apply match_at_sound in M as (g' & E & L).
    rewrite E, firstn_front in H. injection H as <-.
    split; [| exact L]. exists [], rest. exact E.
  - discriminate.
  - apply match_at_sound in M as (g' & E & L).
    rewrite E, firstn_front in H. injection H as <-.
    split; [| exact L]. exists [], rest. exact E.
  - apply IH in H as [(pre & post & ->) L].
    split; [| exact L]. exists (c :: pre), post. reflexivity.
Qed.

Lemma cls_match_case (p : ascii -> bool) (c : ascii) :
  cls_match false p c = p c.
Proof. unfold cls_match. cbn [andb]. apply orb_false_r. Qed.

Lemma lang_star_cls (ic : bool) (p : ascii -> bool) (s : text) :
  lang ic (Star (Cls p)) s -> forallb (cls_match ic p) s = true.
Proof.
  intros (parts & -> & F). induction F as [| part parts (c & -> & C) _ IH].
  - reflexivity.
  - cbn [List.concat app forallb]. now rewrite C, IH.
Qed.

Lemma lang_plus_cls (ic : bool) (p : ascii -> bool) (s : text) :
  lang ic (Plus (Cls p)) s -> s <> [] /\ forallb (cls_match ic p) s = true.
Proof.
  intros (s1 & s2 & -> & (c & -> & C) & L). apply lang_star_cls in L.
  split; [discriminate |]. cbn [app forallb]. now rewrite C, L.
Qed.

Lemma lang_plus_cls_case (p : ascii -> bool) (s : text) :
  lang false (Plus (Cls p)) s -> s <> [] /\ forallb p s = true.
Proof.
  intros L. apply lang_plus_cls in L as [N F]. split; [exact N |].
  rewrite <- F. clear. induction s as [| c s IH]; [reflexivity |].
  cbn [forallb]. now rewrite IH, cls_match_case.
Qed.

Lemma lang_chr (c : ascii) (s : text) : lang false (Chr c) s -> s = [c].
Proof.
  intros (x & -> & C). rewrite cls_match_case in C.
  apply Ascii.eqb_eq in C. now subst.
Qed.

Lemma lang_times_cls (ic : bool) (p : ascii -> bool) (n : nat) (s : text) :
  lang ic (Times n (Cls p)) s ->
  List.length s = n /\ forallb (cls_match ic p) s = true.
Proof.
  revert s. induction n as [| n IH]; intros s; cbn [Times].
  - intros ->. now split.
  - intros (s1 & s2 & -> & (c & -> & C) & L). apply IH in L as [Ln F].
    cbn [app List.length forallb]. rewrite C, F, Ln. now split.
Qed.

Lemma lang_upto_cls (ic : bool) (p : ascii -> bool) (n : nat) (s : text) :
  lang ic (UpTo n (Cls p)) s ->
  (List.length s <= n)%nat /\ forallb (cls_match ic p) s = true.
Proof.
  revert s. induction n as [| n IH]; intros s; cbn [UpTo].
  - intros ->. now split.
  - intros [(s1 & s2 & -> & (c & -> & C) & L) | ->].
    + apply IH in L as [Ln F].
      cbn [app List.length forallb]. rewrite C, F. split; [lia | reflexivity].
    + split; [cbn; lia | reflexivity].
Qed.

Lemma lang_between_cls (ic : bool) (p : ascii -> bool) (lo hi : nat)
    (s : text) :
  lang ic (Between lo hi (Cls p)) s ->
  (lo <= List.length s <= lo + (hi - lo))%nat /\
  forallb (cls_match ic p) s = true.
Proof.
  intros (s1 & s2 & -> & L1 & L2).
  apply lang_times_cls in L1 as [N1 F1].
  apply lang_upto_cls in L2 as [N2 F2].
  rewrite length_app, forallb_app, F1, F2. split; [lia | reflexivity].
Qed.

(** ** extract_contact_info *)

(** X21.  An e-mail address found is a part of the resume of the form
    local@domain.tld: the local part and the domain are not empty and
    made of word characters, dots and hyphens, the last part is not
    empty and made of word characters; so it holds exactly one @. *)
Theorem X21_email_shape (resume_text e : text) :
  email (extract_contact_info resume_text) = Some e ->
  part_of e resume_text /\ email_shape e.
Proof.
  unfold extract_contact_info. cbn [email]. intros H.
  apply search_group_sound in H as [P L]. split; [exact P |].
  unfold EMAIL in L.
  destruct L as (local & r1 & -> & L1 & at_ & r2 & -> & L2 &
                 domain & r3 & -> & L3 & dot_ & tld & -> & L4 & L5).
  apply lang_plus_cls_case in L1 as [N1 F1].
  apply lang_chr in L2 as ->.
  apply lang_plus_cls_case in L3 as [N3 F3].
  apply lang_chr in L4 as ->.
  apply lang_plus_cls_case in L5 as [N5 F5].
  exists local, domain, tld. repeat split; assumption.
Qed.

Lemma X21_witness :
  email (extract_contact_info (T "Mail: jane.doe@example.org, tel"))
  = Some (T "jane.doe@example.org") /\
  part_of (T "jane.doe@example.org") (T "Mail: jane.doe@example.org, tel") /\
  email_shape (T "jane.doe@example.org").
Proof.
  assert (H : email (extract_contact_info
                       (T "Mail: jane.doe@example.org, tel"))
              = Some (T "jane.doe@example.org"))
    by (vm_compute; reflexivity).
  split; [exact H | exact (X21_email_shape _ H)].
Defined.

Lemma digits_app (a b : text) : digits (a ++ b) = (digits a + digits b)%nat.
Proof. unfold digits. now rewrite filter_app, length_app. Qed.

Lemma separator_not_digit (c : ascii) : separator c && is_digit c = false.
Proof. destruct c as [[] [] [] [] [] [] [] []]; reflexivity. Qed.

(** An optional sign, bracket or separator of a phone number: at most
    one character, and no digit. *)
Lemma phone_mark (p : ascii -> bool) (s : text) :
  (forall c, p c = true -> is_digit c = false /\ phone_char c = true) ->
  lang false (Opt (Cls p)) s ->
  digits s = 0%nat /\ (List.length s <= 1)%nat /\
  forallb phone_char s = true.
Proof.
  intros Hp [(c & -> & C) | ->].
  - rewrite cls_match_case in C. destruct (Hp c C) as [Hd Hc].
    unfold digits. cbn [filter forallb]. rewrite Hd, Hc.
    repeat split. cbn. lia.
  - repeat split. cbn. lia.
Qed.

Lemma phone_mark_chr (x : ascii) (s : text) :
  is_digit x = false -> phone_char x = true ->
  lang false (Opt (Chr x)) s ->
  digits s = 0%nat /\ (List.length s <= 1)%nat /\
  forallb phone_char s = true.
Proof.
  intros Hd Hc. apply phone_mark. intros c E.
  apply Ascii.eqb_eq in E. subst c. now split.
Qed.

Lemma phone_mark_separator (s : text) :
  lang false (Opt (Cls separator)) s ->
  digits s = 0%nat /\ (List.length s <= 1)%nat /\
  forallb phone_char s = true.
Proof.
  apply phone_mark. intros c E. split.
  - pose proof (separator_not_digit c) as H. rewrite E in H. exact H.
  - unfold phone_char. rewrite E. apply orb_true_r.
Qed.

Lemma all_digits (s : text) :
  forallb (cls_match false is_digit) s = true ->
  digits s = List.length s /\ forallb phone_char s = true.
Proof.
  unfold digits. induction s as [| c s IH]; [now split |].
  cbn [forallb filter]. rewrite cls_match_case.
  destruct (is_digit c) eqn:Hd; [| discriminate]. cbn [andb].
  intros F. destruct (IH F) as [Hn Hc]. cbn [List.length].
  unfold phone_char at 1. rewrite Hd, Hn, Hc. now split.
Qed.

(** X22.  A phone number found is a part of the resume with 8 to 12
    digits and at most 5 other characters, each a plus sign, a bracket,
    a hyphen, a dot or white space. *)
Theorem X22_phone_shape (resume_text ph : text) :
  phone (extract_contact_info resume_text) = Some ph ->
  part_of ph resume_text /\
  (8 <= digits ph <= 12)%nat /\
  (List.length ph <= digits ph + 5)%nat /\
  forallb phone_char ph = true.
Proof.
  unfold extract_contact_info. cbn [phone]. intros H.
  apply search_group_sound in H as [P L]. split; [exact P |].
  unfold PHONE in L.
  destruct L as (a & r1 & -> & La & b & r2 & -> & Lb &
                 d1 & r3 & -> & Ld1 & c & r4 & -> & Lc &
                 s1 & r5 & -> & Ls1 & d2 & r6 & -> & Ld2 &
                 s2 & d3 & -> & Ls2 & Ld3).
  apply phone_mark_chr in La as (Da & Na & Fa); [| reflexivity ..].
  apply phone_mark_chr in Lb as (Db & Nb & Fb); [| reflexivity ..].
  apply lang_between_cls in Ld1 as [N1 F1].
  apply all_digits in F1 as [D1 F1].
  apply phone_mark_chr in Lc as (Dc & Nc & Fc); [| reflexivity ..].
  apply phone_mark_separator in Ls1 as (Ds1 & Ns1 & Fs1).
  apply lang_times_cls in Ld2 as [N2 F2].
  apply all_digits in F2 as [D2 F2].
  apply phone_mark_separator in Ls2 as (Ds2 & Ns2 & Fs2).
  apply lang_between_cls in Ld3 as [N3 F3].
  apply all_digits in F3 as [D3 F3].
  rewrite !digits_app, !length_app, !forallb_app.
  rewrite Fa, Fb, F1, Fc, Fs1, F2, Fs2, F3.
  repeat split; lia.
Qed.

Lemma X22_witness :
  phone (extract_contact_info (T "Call (555) 123-4567 now"))
  = Some (T "(555) 123-4567") /\
  part_of (T "(555) 123-4567") (T "Call (555) 123-4567 now") /\
  (8 <= digits (T "(555) 123-4567") <= 12)%nat /\
  (List.length (T "(555) 123-4567") <= digits (T "(555) 123-4567") + 5)%nat /\
  forallb phone_char (T "(555) 123-4567") = true.
Proof.
  assert (H : phone (extract_contact_info (T "Call (555) 123-4567 now"))
              = Some (T "(555) 123-4567"))
    by (vm_compute; reflexivity).
  split; [exact H | exact (X22_phone_shape _ H)].
Defined.

Lemma lower_upper_char (c : ascii) :
  lower_char (upper_char c) = upper_char c -> lower_char c = upper_char c.
Proof.
  destruct c as [[] [] [] [] [] [] [] []];
    first [reflexivity | intros H; discriminate H].
Qed.

(** Under [re.IGNORECASE] a character of a pattern in lower case takes
    only characters whose lower case it is. *)
Lemma cls_match_eqb_lower (x c : ascii) :
  lower_char x = x -> cls_match true (Ascii.eqb x) c = true ->
  lower_char c = x.
Proof.
  intros Hx. unfold cls_match. cbn [andb].
  destruct (Ascii.eqb_spec x c) as [<- | _]; [intros _; exact Hx |].
  destruct (Ascii.eqb_spec x (lower_char c)) as [-> | _];
    [intros _; reflexivity |].
  destruct (Ascii.eqb_spec x (upper_char c)) as [-> | _]; [| discriminate].
  intros _. now apply lower_upper_char.
Qed.

Lemma lang_lit_lower (w s : text) :
  lower w = w -> lang true (Lit w) s -> lower s = w.
Proof.
  revert s. induction w as [| x w IH]; intros s Hw; cbn [Lit].
  - intros ->. reflexivity.
  - cbn [lower map] in Hw. injection Hw as Hx Hw.
    intros (s1 & s2 & -> & (c & -> & C) & L).
    apply (@cls_match_eqb_lower x c Hx) in C. apply (IH s2 Hw) in L.
    cbn [app lower map]. f_equal; assumption.
Qed.

Lemma cls_match_word_dash (c : ascii) :
  cls_match true word_dash c = word_dash c.
Proof. destruct c as [[] [] [] [] [] [] [] []]; reflexivity. Qed.

Lemma profile_link_sound (w v : text) :
  lower w = w ->
  lang true (Cat (Lit w) (Plus (Cls word_dash))) v -> profile_link w v.
Proof.
  intros Hw (l & handle & -> & Ll & Lh).
  apply (@lang_lit_lower w l Hw) in Ll.
  apply lang_plus_cls in Lh as [N F].
  exists l, handle. repeat split; [exact Ll | exact N |].
  rewrite <- F. clear. induction handle as [| c s IH]; [reflexivity |].
  cbn [forallb]. now rewrite IH, cls_match_word_dash.
Qed.

(** X23.  A LinkedIn or GitHub link found is a part of the resume: the
    label "linkedin.com/in/" or "github.com/" in any letter case, and
    then a handle of one or more word characters and hyphens. *)
Theorem X23_profile_links (resume_text : text) :
  (forall v, linkedin (extract_contact_info resume_text) = Some v ->
             part_of v resume_text /\
             profile_link (T "linkedin.com/in/") v) /\
  (forall v, github (extract_contact_info resume_text) = Some v ->
             part_of v resume_text /\ profile_link (T "github.com/") v).
Proof.
  unfold extract_contact_info. cbn [linkedin github].
  split; intros v H; apply search_group_sound in H as [P L];
    (split; [exact P |]); apply profile_link_sound;
    solve [reflexivity | exact L].
Qed.

Lemma X23_witness :
  linkedin (extract_contact_info
              (T "see LinkedIn.com/in/jane-doe.x and GitHub.com/jdoe/repo"))
  = Some (T "LinkedIn.com/in/jane-doe") /\
  profile_link (T "linkedin.com/in/") (T "LinkedIn.com/in/jane-doe") /\
  github (extract_contact_info
            (T "see LinkedIn.com/in/jane-doe.x and GitHub.com/jdoe/repo"))
  = Some (T "GitHub.com/jdoe") /\
  profile_link (T "github.com/") (T "GitHub.com/jdoe").
Proof.
  assert (H1 : linkedin (extract_contact_info
                 (T "see LinkedIn.com/in/jane-doe.x and GitHub.com/jdoe/repo"))
               = Some (T "LinkedIn.com/in/jane-doe"))
    by (vm_compute; reflexivity).
  assert (H2 : github (extract_contact_info
                 (T "see LinkedIn.com/in/jane-doe.x and GitHub.com/jdoe/repo"))
               = Some (T "GitHub.com/jdoe"))
    by (vm_compute; reflexivity).
  pose proof (X23_profile_links
                (T "see LinkedIn.com/in/jane-doe.x and GitHub.com/jdoe/repo"))
    as [A B].
  split; [exact H1 |]. split; [exact (proj2 (A _ H1)) |].
  split; [exact H2 | exact (proj2 (B _ H2))].
Defined.

(** ** extract_projects *)

Lemma split_lines_from_single (cur s : text) :
  ~ In newline cur ->
  Forall (fun l => ~ In newline l) (split_lines_from cur s).
Proof.
  revert cur. induction s as [| c s IH]; intros cur H;
    cbn [split_lines_from].
  - constructor; [| constructor]. now rewrite <- in_rev.
  - destruct (Ascii.eqb_spec c newline) as [-> | N].
    + constructor; [now rewrite <- in_rev |]. apply IH. intros [].
    + apply IH. intros [E | E]; [congruence | contradiction].
Qed.

Lemma lstrip_chars_spec (chars : ascii -> bool) (s : text) :
  exists pre, s = pre ++ lstrip_chars chars s /\
              (lstrip_chars chars s = [] \/
               exists c r, lstrip_chars chars s = c :: r /\ chars c = false).
Proof.
  induction s as [| c s (pre & E & Hl)].
  - exists []. split; [reflexivity | now left].
  - cbn [lstrip_chars]. destruct (chars c) eqn:Hc.
    + exists (c :: pre). cbn [app]. split; [now rewrite <- E | exact Hl].
    + exists []. split; [reflexivity |]. right. now exists c, s.
Qed.

Lemma lstrip_chars_In (chars : ascii -> bool) (s : text) (c : ascii) :
  In c (lstrip_chars chars s) -> In c s.
Proof.
  destruct (lstrip_chars_spec chars s) as (pre & E & _). intros H.
  rewrite E. apply in_or_app. now right.
Qed.

Lemma strip_chars_In (chars : ascii -> bool) (s : text) (c : ascii) :
  In c (strip_chars chars s) -> In c s.
Proof.
  unfold strip_chars. rewrite <- in_rev. intros H.
  apply lstrip_chars_In in H. rewrite <- in_rev in H.
  now apply lstrip_chars_In in H.
Qed.

(** A text stripped of some characters does not begin with one. *)
Lemma strip_chars_head (chars : ascii -> bool) (s : text) (c : ascii) :
  hd_error (strip_chars chars s) = Some c -> chars c = false.
Proof.
  unfold strip_chars.
  destruct (lstrip_chars_spec chars s) as (p1 & _ & H1).
  set (a := lstrip_chars chars s) in *.
  destruct (lstrip_chars_spec chars (rev a)) as (p2 & E2 & _).
  set (b := lstrip_chars chars (rev a)) in *.
  destruct (rev b) as [| x r] eqn:Eb; [discriminate |].
  cbn [hd_error]. intros E. injection E as ->.
  assert (Ea : a = (c :: r) ++ rev p2).
  { rewrite <- (rev_involutive a), E2, rev_app_distr, Eb. reflexivity. }
  destruct H1 as [H1 | (c' & r' & H1 & Hc)].
  - rewrite H1 in Ea. discriminate.
  - rewrite H1 in Ea. cbn [app] in Ea. injection Ea as -> _. exact Hc.
Qed.

Lemma lstrip_is_lstrip_chars (s : text) : lstrip s = lstrip_chars is_space s.
Proof.
  induction s as [| c s IH]; [reflexivity |].
  cbn [lstrip lstrip_chars]. now rewrite IH.
Qed.

Lemma strip_In (s : text) (c : ascii) : In c (strip s) -> In c s.
Proof.
  unfold strip. rewrite !lstrip_is_lstrip_chars.
  apply (@strip_chars_In is_space s c).
Qed.

Lemma join_space_single (parts : list text) :
  Forall (fun l => ~ In newline l) parts ->
  ~ In newline (join (T " ") parts).
Proof.
  induction 1 as [| p parts Hp _ IH]; [intros [] |].
  destruct parts as [| q parts]; [exact Hp |].
  change (join (T " ") (p :: q :: parts))
    with (p ++ T " " ++ join (T " ") (q :: parts)).
  intros H. apply in_app_or in H as [H | H]; [contradiction |].
  apply in_app_or in H as [H | H]; [| contradiction].
  destruct H as [H | []]. discriminate H.
Qed.

Lemma firstn_not_empty {A : Type} (n : nat) (l : list A) :
  l <> [] -> firstn (S n) l <> [].
Proof. destruct l; [congruence | discriminate]. Qed.

Lemma firstn_single (n : nat) (s : text) :
  s <> [] -> ~ In newline s ->
  single_line (firstn (S n) s) /\
  (List.length (firstn (S n) s) <= S n)%nat /\
  hd_error (firstn (S n) s) = hd_error s.
Proof.
  intros N H. split; [split |].
  - now apply firstn_not_empty.
  - intros H'. apply H. exact (In_firstn _ _ _ H').
  - split; [apply length_firstn_le | now destruct s].
Qed.

Lemma some_eq {A : Type} (x y : A) : Some x = Some y -> x = y.
Proof. intros H. now injection H. Qed.

Lemma some_parsed {A : Type} (x y : A) : Parsed x = Parsed y -> x = y.
Proof. intros H. now injection H. Qed.

Lemma truthy_not_empty (s : text) : truthy s = true -> s <> [].
Proof. destruct s; [discriminate | discriminate]. Qed.

Lemma project_of_entry_ok (entry : text) (p : project) :
  project_of_entry entry = Some p -> project_ok p.
Proof.
  unfold project_of_entry. cbv zeta.
  destruct (20 <? len (strip entry))%Z; [| discriminate].
  pose proof (@split_lines_from_single [] (strip entry) (fun H => H))
    as Hl. fold (split_lines (strip entry)) in Hl.
  destruct (split_lines (strip entry)) as [| l0 lines].
  - cbn. discriminate.
  - change (hd [] (l0 :: lines)) with l0.
    change (tl (l0 :: lines)) with lines.
    inversion Hl as [| ? ? H0 Hrest]; subst.
    set (nm := strip_chars (any_of "-* ") l0).
    assert (Hnm : ~ In newline nm)
      by (intros H; apply H0; exact (strip_chars_In _ _ _ H)).
    assert (Hhd : forall c, hd_error nm = Some c -> any_of "-* " c = false)
      by (intros c; apply strip_chars_head).
    clearbody nm.
    destruct (truthy nm) eqn:Tn; [| discriminate].
    apply truthy_not_empty in Tn.
    destruct (firstn_single 99 Tn Hnm) as (S1 & N1 & E1).
    set (d := if (1 <? Z.of_nat (List.length (l0 :: lines)))%Z
              then strip (join (T " ") lines) else []).
    assert (Hd : ~ In newline d).
    { unfold d. destruct (1 <? _)%Z; [| intros []].
      intros H. apply strip_In in H. revert H.
      now apply join_space_single. }
    clearbody d.
    assert (D : single_line
                  (if truthy d then firstn 500 d
                   else T "No description available") /\
                (List.length
                   (if truthy d then firstn 500 d
                    else T "No description available") <= 500)%nat).
    { destruct (truthy d) eqn:Td.
      - apply truthy_not_empty in Td.
        destruct (firstn_single 499 Td Hd) as (S2 & N2 & _). now split.
      - split; [split; [discriminate |] | cbn; lia].
        vm_compute. intuition discriminate. }
    destruct D as [D1 D2]. rewrite <- E1 in Hhd.
    intros E. apply some_eq in E. rewrite <- E. unfold project_ok.
    cbn [name description].
    split; [exact S1 |]. split; [exact N1 |].
    split; [exact Hhd |]. split; [exact D1 | exact D2].
Qed.

Lemma projects_of_entries_ok (entries : list text) :
  Forall project_ok (projects_of_entries entries).
Proof.
  induction entries as [| entry entries IH]; [constructor |].
  cbn [projects_of_entries].
  destruct (project_of_entry entry) as [p |] eqn:E; [| exact IH].
  constructor; [exact (project_of_entry_ok _ E) | exact IH].
Qed.

(** X24.  At most 10 projects are extracted.  Each has a name of one
    line, of 1 to 100 characters, that does not begin with a hyphen, an
    asterisk or a space, and a description of one line, of 1 to 500
    characters. *)
Theorem X24_projects_bounds (resume_text : text) :
  (List.length (extract_projects resume_text) <= 10)%nat /\
  Forall project_ok (extract_projects resume_text).
Proof.
  unfold extract_projects. cbv zeta.
  split; [apply length_firstn_le |].
  apply Forall_forall. intros p H. apply In_firstn in H. revert p H.
  apply Forall_forall.
  destruct (truthy _); [apply projects_of_entries_ok | constructor].
Qed.

(** * Properties of the AI service *)

Lemma existsb_same {A : Type} (f : A -> bool) (l1 l2 : list A) :
  (forall x, In x l1 <-> In x l2) -> existsb f l1 = existsb f l2.
Proof.
  intros H. apply eq_true_iff_eq. rewrite !existsb_exists.
  split; intros (x & Hx & Fx); exists x; (split; [now apply H | exact Fx]).
Qed.

Lemma existsb_lower (group skills : list text) :
  existsb (fun s => mem (lower s) group) skills
  = existsb (fun k => mem k group) (map lower skills).
Proof.
  induction skills as [| s skills IH]; [reflexivity |].
  cbn [map existsb]. now rewrite IH.
Qed.

(** The direction depends on the skills through the set of their
    lower-case forms. *)
Lemma career_direction_same (skills1 skills2 : list text) :
  (forall k, In k (map lower skills1) <-> In k (map lower skills2)) ->
  career_direction skills1 = career_direction skills2.
Proof.
  intros H. unfold career_direction.
  assert (E : forall f : text -> bool,
            existsb f (map lower skills1) = existsb f (map lower skills2))
    by (intros f; now apply existsb_same).
  rewrite !(existsb_lower _ skills1), !(existsb_lower _ skills2).
  now rewrite !E.
Qed.

(** X25.  The fallback roadmap depends on the resume only through the
    set of its skills in lower case: the order of the skills, their
    letter case, repetitions, the rest of the resume and the job
    description change nothing. *)
Theorem X25_roadmap_of_skill_set (data1 data2 : resume_data)
    (job_description1 job_description2 target_role : option text) :
  (forall k, In k (map lower (skills data1))
             <-> In k (map lower (skills data2))) ->
  _generate_fallback_roadmap data1 job_description1 target_role
  = _generate_fallback_roadmap data2 job_description2 target_role.
Proof.
  intros H. unfold _generate_fallback_roadmap. cbv zeta.
  now rewrite (@career_direction_same (skills data1) (skills data2) H).
Qed.

Lemma X25_witness :
  _generate_fallback_roadmap
    (resume_with_skills [T "React"; T "Python"]) None (Some (T "Lead"))
  = _generate_fallback_roadmap
      (resume_with_skills [T "PYTHON"; T "react"; T "python"])
      (Some (T "We need a cloud engineer")) (Some (T "Lead")).
Proof.
  apply X25_roadmap_of_skill_set.
  intros k. vm_compute. tauto.
Defined.

Lemma existsb_filter_mem (f : text -> bool) (group keywords : list text) :
  (forall k, In k group -> In k keywords) ->
  existsb (fun k => mem k group) (filter f keywords) = existsb f group.
Proof.
  intros Sub. apply eq_true_iff_eq. rewrite !existsb_exists. split.
  - intros (k & Hk & M). apply filter_In in Hk as [_ Fk].
    apply mem_In in M. now exists k.
  - intros (k & Hk & Fk). exists k. split.
    + apply filter_In. split; [now apply Sub | exact Fk].
    + now apply mem_In.
Qed.

Lemma group_in_keywords (group : list text) :
  forallb (fun k => mem k SKILL_KEYWORDS) group = true ->
  forall k, In k group -> In k SKILL_KEYWORDS.
Proof.
  intros H k Hk. rewrite forallb_forall in H. apply mem_In. now apply H.
Qed.

(** The skills extracted hold a keyword of a group exactly when the
    resume mentions one. *)
Lemma extracted_group (group : list text) (resume_text : text) :
  forallb (fun k => mem k SKILL_KEYWORDS) group = true ->
  existsb (fun s => mem (lower s) group) (extract_skills resume_text)
  = mentions group resume_text.
Proof.
  intros H. rewrite existsb_lower, lower_extract_skills.
  unfold keywords_found, mentions.
  generalize (has_verb (lower resume_text)). intros f.
  apply existsb_filter_mem. now apply group_in_keywords.
Qed.

Lemma career_path_extracted (resume_text : text) :
  fst (fst (career_direction (extract_skills resume_text)))
  = path_mentioned resume_text.
Proof.
  pose proof (@extracted_group data_skills resume_text eq_refl) as E1.
  pose proof (@extracted_group web_skills resume_text eq_refl) as E2.
  pose proof (@extracted_group cloud_skills resume_text eq_refl) as E3.
  unfold career_direction, path_mentioned.
  unfold data_skills, web_skills, cloud_skills in *.
  rewrite E1, E2, E3.
  destruct (mentions _ resume_text); [reflexivity |].
  destruct (mentions _ resume_text); [reflexivity |].
  destruct (mentions _ resume_text); reflexivity.
Qed.

(** X26.  The parser and the fallback roadmap compose: for a resume
    that was parsed, the career path is decided by the keywords its text
    mentions as whole words, in any letter case, the data skills before
    the web skills and these before the cloud skills. *)
Theorem X26_parsed_resume_career_path (bytes : Type)
    (pdfplumber_pages pypdf2_pages : bytes -> list (option text))
    (docx_document : bytes -> text + (list text * list text))
    (file_content : bytes) (filename : text) (data : resume_data) :
  parse_resume pdfplumber_pages pypdf2_pages docx_document
    file_content filename = Parsed data ->
  fst (fst (career_direction (skills data)))
  = path_mentioned (raw_text data).
Proof.
  unfold parse_resume. cbv zeta.
  destruct (extract_text _ _ _ _ _) as [txt | message]; [| discriminate].
  intros E. apply some_parsed in E. rewrite <- E. cbn [skills raw_text].
  apply career_path_extracted.
Qed.

Lemma X26_witness :
  match parse_resume example_skills_page example_no_pages example_docx tt
          (T "cv.pdf") with
  | Parsed data =>
      fst (fst (career_direction (skills data)))
      = T "Data Science / ML Engineering"
  | ValueError _ => False
  end.
Proof.
  destruct (parse_resume example_skills_page example_no_pages example_docx
              tt (T "cv.pdf")) as [data | message] eqn:E.
  - rewrite (@X26_parsed_resume_career_path _ _ _ _ _ _ _ E).
    unfold parse_resume in E. cbv zeta in E.
    destruct (extract_text _ _ _ _ _) as [txt | m] eqn:X; [| discriminate].
    apply some_parsed in E. rewrite <- E. cbn [raw_text].
    vm_compute in X. apply some_parsed in X. rewrite <- X.
    vm_compute. reflexivity.
  - vm_compute in E. discriminate E.
Defined.
